(** * databallpy: the Metrica event-data parser

    A shallow embedding of
    [databallpy/data_parsers/event_data_parsers/metrica_event_data_parser.py]
    and of [databallpy/events/dribble_event.py].

    Python values are dynamically typed, so the embedding has one type of
    values ([pyval]), an error type for the exceptions the code can raise
    ([pyerr]) and a small error monad ([result]).  Python floats are kept
    behind the interface [PyFloat]; its instance [binary64] is IEEE double
    arithmetic (what CPython and NumPy compute with), its instance [exactQ]
    is arithmetic over the rationals. *)

From Stdlib Require Import ZArith QArith List String Ascii Bool Lia.
From Stdlib Require Import Floats Lqa.
Import ListNotations.

Local Open Scope string_scope.
Local Open Scope list_scope.
Local Open Scope Z_scope.

(** ** Exceptions and the error monad *)

Inductive pyerr : Type :=
| KeyError (key : string)
| TypeError (msg : string)
| AttributeError (msg : string)
| IndexError (msg : string)
| ValueError (msg : string)
| ZeroDivisionError
| FileNotFoundError (msg : string).

Inductive result (A : Type) : Type :=
| OK (a : A)
| Raise (e : pyerr).

Arguments OK {A} a.
Arguments Raise {A} e.

Definition bind {A B : Type} (c : result A) (k : A -> result B) : result B :=
  match c with
  | OK a => k a
  | Raise e => Raise e
  end.

Notation "x <- c ;; k" := (bind c (fun x => k))
  (at level 61, c at next level, right associativity).

Fixpoint mapM {A B : Type} (f : A -> result B) (l : list A) : result (list B) :=
  match l with
  | [] => OK []
  | a :: l' => b <- f a ;; bs <- mapM f l' ;; OK (b :: bs)
  end.

(** A [for] loop threading a state through a fallible body. *)
Fixpoint for_each {S A : Type} (body : S -> A -> result S) (s : S) (l : list A)
  : result S :=
  match l with
  | [] => OK s
  | a :: l' => s' <- body s a ;; for_each body s' l'
  end.

(** The computation returns: no exception is raised. *)
Definition succeeds {A : Type} (c : result A) : Prop := exists a, c = OK a.

(** A lookup of the key [k] that returned before the key was deleted. *)
Definition absent {A : Type} (k : string) (r : result A) : result A :=
  match r with
  | OK _ => Raise (KeyError k)
  | Raise e => Raise e
  end.

(** ** Strings *)

Definition ascii_lower (c : ascii) : ascii :=
  let n := nat_of_ascii c in
  if (Nat.leb 65 n && Nat.leb n 90)%bool then ascii_of_nat (n + 32) else c.

(** [str.lower()] on the letters A to Z; every other character is kept.
    The labels the parser compares with ([pass], [carry], [shot] and the
    possession labels) are made of these letters. *)
Fixpoint lower (s : string) : string :=
  match s with
  | EmptyString => EmptyString
  | String c r => String (ascii_lower c) (lower r)
  end.

(** [sub in s] for two strings. *)
Fixpoint contains (sub s : string) : bool :=
  if prefix sub s then true
  else match s with
       | EmptyString => false
       | String _ r => contains sub r
       end.

(** [x in l] for a list of strings. *)
Definition in_list (x : string) (l : list string) : bool :=
  existsb (String.eqb x) l.

(** ** Python dicts with string keys, in insertion order *)

Definition pydict (V : Type) : Type := list (string * V).

Fixpoint dict_find {V : Type} (k : string) (d : pydict V) : option V :=
  match d with
  | [] => None
  | (k', v) :: d' => if String.eqb k k' then Some v else dict_find k d'
  end.

(** [d[k]] *)
Definition dict_get {V : Type} (k : string) (d : pydict V) : result V :=
  match dict_find k d with
  | Some v => OK v
  | None => Raise (KeyError k)
  end.

(** [d[k] = v] *)
Fixpoint dict_set {V : Type} (k : string) (v : V) (d : pydict V) : pydict V :=
  match d with
  | [] => [(k, v)]
  | (k', v') :: d' =>
      if String.eqb k k' then (k', v) :: d' else (k', v') :: dict_set k v d'
  end.

(** [del d[k]], when [k] is a key of [d]. *)
Definition dict_del {V : Type} (k : string) (d : pydict V) : pydict V :=
  filter (fun kv => negb (String.eqb k (fst kv))) d.

(** ** Lists *)

(** [l[-1]] *)
Definition list_last {A : Type} (l : list A) : result A :=
  match rev l with
  | [] => Raise (IndexError "list index out of range")
  | a :: _ => OK a
  end.

(** [l[-1] = a] *)
Definition set_last {A : Type} (a : A) (l : list A) : result (list A) :=
  match rev l with
  | [] => Raise (IndexError "list assignment index out of range")
  | _ :: r => OK (rev r ++ [a])
  end.

(** [l[i]] for an integer [i]: negative indices count from the end. *)
Definition list_index {A : Type} (l : list A) (i : Z) : result A :=
  let n := Z.of_nat (List.length l) in
  let j := if i <? 0 then i + n else i in
  if (j <? 0) || (n <=? j) then Raise (IndexError "list index out of range")
  else match nth_error l (Z.to_nat j) with
       | Some a => OK a
       | None => Raise (IndexError "list index out of range")
       end.

(** ** Python floats *)

Class PyFloat (F : Type) : Type := {
  fadd : F -> F -> F;
  fsub : F -> F -> F;
  fmul : F -> F -> F;
  fdiv : F -> F -> F;
  (** an [int] converted to [float] *)
  of_int : Z -> F;
  (** [x == y] on two floats *)
  feqb : F -> F -> bool;
  (** [x == n] for a float and an [int] *)
  feq_int : F -> Z -> bool
}.

(** IEEE 754 double precision, round to nearest even. *)
Module Binary64.

Definition of_Z (z : Z) : float :=
  SF2Prim (binary_normalize prec emax z 0 false).

Definition eq_Z (f : float) (z : Z) : bool :=
  match Prim2SF f with
  | S754_zero _ => z =? 0
  | S754_finite s m e =>
      let v := if s then Z.neg m else Z.pos m in
      if 0 <=? e then z =? v * 2 ^ e else z * 2 ^ (- e) =? v
  | _ => false
  end.

End Binary64.

#[export] Instance binary64 : PyFloat float := {
  fadd := PrimFloat.add;
  fsub := PrimFloat.sub;
  fmul := PrimFloat.mul;
  fdiv := PrimFloat.div;
  of_int := Binary64.of_Z;
  feqb := PrimFloat.eqb;
  feq_int := Binary64.eq_Z
}.

(** The same operations without rounding. *)
#[export] Instance exactQ : PyFloat Q := {
  fadd := Qplus;
  fsub := Qminus;
  fmul := Qmult;
  fdiv := Qdiv;
  of_int := inject_Z;
  feqb := Qeq_bool;
  feq_int := fun q z => Qeq_bool q (inject_Z z)
}.

(** ** Python values *)

#[local] Set Warnings "-register-all".

Inductive pyval {F : Type} : Type :=
| PNone
| PBool (b : bool)
| PInt (z : Z)
| PFloat (f : F)
| PStr (s : string)
| PList (l : list pyval)
| PDict (d : list (string * pyval))
(** a [pd.Timestamp] in UTC: nanoseconds since the epoch *)
| PTimestamp (ns : Z).

Arguments pyval F : clear implicits.

Section Values.

Context {F : Type} `{PyFloat F}.

(** [v[k]] with a string key. *)
Definition getitem (v : (pyval F)) (k : string) : result (pyval F) :=
  match v with
  | PDict d => dict_get k d
  | PList _ => Raise (TypeError "list indices must be integers or slices, not str")
  | PStr _ => Raise (TypeError "string indices must be integers, not str")
  | _ => Raise (TypeError "object is not subscriptable")
  end.

(** [v[k1][k2]] *)
Definition getitem2 (v : (pyval F)) (k1 k2 : string) : result (pyval F) :=
  x <- getitem v k1 ;; getitem x k2.

(** [v[1:]] *)
Definition slice_from_1 (v : (pyval F)) : result (pyval F) :=
  match v with
  | PStr s => OK (PStr (match s with EmptyString => EmptyString | String _ r => r end))
  | PList l => OK (PList (tl l))
  | PDict _ => Raise (TypeError "unhashable type: slice")
  | _ => Raise (TypeError "object is not subscriptable")
  end.

(** [v.lower()] *)
Definition str_lower (v : (pyval F)) : result string :=
  match v with
  | PStr s => OK (lower s)
  | _ => Raise (AttributeError "object has no attribute lower")
  end.

(** [for x in v] *)
Definition py_iter (v : (pyval F)) : result (list (pyval F)) :=
  match v with
  | PList l => OK l
  | PDict d => OK (map (fun kv => PStr (fst kv)) d)
  | PStr s => OK (map (fun c => PStr (String c EmptyString)) (list_ascii_of_string s))
  | _ => Raise (TypeError "object is not iterable")
  end.

Definition Z_of_bool (b : bool) : Z := if b then 1 else 0.

(** [a == b] *)
Fixpoint py_eq (a b : (pyval F)) {struct a} : bool :=
  match a, b with
  | PNone, PNone => true
  | PBool x, PBool y => Bool.eqb x y
  | PBool x, PInt y => Z_of_bool x =? y
  | PBool x, PFloat y => feq_int y (Z_of_bool x)
  | PInt x, PBool y => x =? Z_of_bool y
  | PInt x, PInt y => x =? y
  | PInt x, PFloat y => feq_int y x
  | PFloat x, PBool y => feq_int x (Z_of_bool y)
  | PFloat x, PInt y => feq_int x y
  | PFloat x, PFloat y => feqb x y
  | PStr x, PStr y => String.eqb x y
  | PList xs, PList ys =>
      (fix go (xs ys : list (pyval F)) {struct xs} : bool :=
         match xs, ys with
         | [], [] => true
         | x :: xs', y :: ys' => py_eq x y && go xs' ys'
         | _, _ => false
         end) xs ys
  | PDict xs, PDict ys =>
      Nat.eqb (List.length xs) (List.length ys) &&
      (fix go (xs : list (string * (pyval F))) {struct xs} : bool :=
         match xs with
         | [] => true
         | (k, x) :: xs' =>
             match dict_find k ys with
             | Some y => py_eq x y
             | None => false
             end && go xs'
         end) xs
  | PTimestamp x, PTimestamp y => x =? y
  | _, _ => false
  end.

(** [bool(v)] *)
Definition py_bool (v : (pyval F)) : bool :=
  match v with
  | PNone => false
  | PBool b => b
  | PInt z => negb (z =? 0)
  | PFloat f => negb (feq_int f 0)
  | PStr s => negb (String.eqb s EmptyString)
  | PList l => negb (Nat.eqb (List.length l) 0)
  | PDict d => negb (Nat.eqb (List.length d) 0)
  | PTimestamp _ => true
  end.

(** [pd.isnull(v)] on a scalar: [None] and NaN. *)
Definition pd_isnull (v : (pyval F)) : bool :=
  match v with
  | PNone => true
  | PFloat f => negb (feqb f f)
  | _ => false
  end.

(** [l[v]] for a list literal [l] and an index value [v]. *)
Definition list_getitem {A : Type} (l : list A) (v : (pyval F)) : result A :=
  match v with
  | PInt z => list_index l z
  | PBool b => list_index l (Z_of_bool b)
  | _ => Raise (TypeError "list indices must be integers or slices")
  end.

End Values.

(** ** The event extractor: [_get_event_data] *)

(** The argument [event_data_loc] as the caller passes it. *)
Inductive loc_arg : Type :=
| LocStr (s : string)
| LocStringIO (content : string)
(** any other object, with the text of [type(event_data_loc)] *)
| LocOther (type_repr : string).

(** What the parser takes from outside these sources:
    [databallpy.utils.constants.MISSING_INT], the helpers
    [databallpy.utils.utils._to_int] and [_to_float], Python's [//] and
    [%] on two floats, and NumPy's NaN ([np.nan]). *)
Class Imports (F : Type) : Type := {
  MISSING_INT : Z;
  _to_int : pyval F -> Z;
  _to_float : pyval F -> F;
  float_floordiv : F -> F -> F;
  float_mod : F -> F -> F;
  np_nan : F
}.

(** Reading the file at a path (with the encoding [chardet] detects),
    [str.strip], and [json.loads(BeautifulSoup(text, "html.parser").text)]. *)
Class TextLibrary (F : Type) : Type := {
  read_file : string -> result string;
  strip : string -> string;
  soup_json_loads : string -> result (pyval F)
}.

Section EventExtractor.

Context {F : Type} `{PyFloat F} `{Imports F} `{TextLibrary F}.

Definition metrica_databallpy_map : pydict string :=
  [("pass", "pass"); ("carry", "dribble"); ("shot", "shot")].

(** [v // n] and [v % n] for an [int] literal [n]. *)
Definition py_floordiv (v : pyval F) (n : Z) : result (pyval F) :=
  match v with
  | PInt z => if n =? 0 then Raise ZeroDivisionError else OK (PInt (z / n))
  | PBool b => if n =? 0 then Raise ZeroDivisionError else OK (PInt (Z_of_bool b / n))
  | PFloat f => if n =? 0 then Raise ZeroDivisionError
                else OK (PFloat (float_floordiv f (of_int n)))
  | _ => Raise (TypeError "unsupported operand type(s) for //")
  end.

Definition py_mod (v : pyval F) (n : Z) : result (pyval F) :=
  match v with
  | PInt z => if n =? 0 then Raise ZeroDivisionError else OK (PInt (z mod n))
  | PBool b => if n =? 0 then Raise ZeroDivisionError else OK (PInt (Z_of_bool b mod n))
  | PFloat f => if n =? 0 then Raise ZeroDivisionError
                else OK (PFloat (float_mod f (of_int n)))
  | _ => Raise (TypeError "unsupported operand type(s) for %")
  end.

(** A dict of columns: [result_dict], and later the [pd.DataFrame]. *)
Definition table : Type := pydict (list (pyval F)).

(** [d[k].append(v)] *)
Definition append (k : string) (v : pyval F) (d : table) : result table :=
  l <- dict_get k d ;; OK (dict_set k (l ++ [v]) d).

Definition empty_result_dict : table :=
  [("event_id", []); ("type_id", []); ("databallpy_event", []);
   ("period_id", []); ("minutes", []); ("seconds", []); ("player_id", []);
   ("player_name", []); ("team_id", []); ("outcome", []); ("start_x", []);
   ("start_y", []); ("to_player_id", []); ("to_player_name", []);
   ("end_x", []); ("end_y", []); ("td_frame", []); ("metrica_event", [])].

Definition in_possession_events : list string :=
  ["pass"; "carry"; "recovery"; "shot"].
Definition out_of_possession_events : list string :=
  ["fault received"; "ball out"; "ball lost"].

(** The loop over the sub-types of a shot: [outcome = 0], and [outcome = 1]
    with a [break] at the first sub-type named GOAL. *)
Fixpoint goal_among (subs : list (pyval F)) : result Z :=
  match subs with
  | [] => OK 0
  | sub :: rest =>
      name <- getitem sub "name" ;;
      if py_eq name (PStr "GOAL") then OK 1 else goal_among rest
  end.

Definition shot_outcome (event : pyval F) : result Z :=
  subtypes <- getitem event "subtypes" ;;
  match subtypes with
  | PList subs => goal_among subs
  | _ =>
      name <- getitem subtypes "name" ;;
      OK (if py_eq name (PStr "GOAL") then 1 else 0)
  end.

(** [result_dict["team_id"][-1] == event["team"]["id"]] *)
Definition same_team_as_last (result_dict : table) (event : pyval F) : result bool :=
  teams <- dict_get "team_id" result_dict ;;
  last_team <- list_last teams ;;
  team <- getitem2 event "team" "id" ;;
  OK (py_eq last_team team).

(** The condition under which the pending pass or carry is marked
    unsuccessful, with the short-circuit evaluation of [and] and [or]. *)
Definition possession_lost (result_dict : table) (event : pyval F)
    (event_name : string) : result bool :=
  left <- (if in_list event_name out_of_possession_events
           then same_team_as_last result_dict event
           else OK false) ;;
  if left then OK true
  else if in_list event_name in_possession_events
       then same <- same_team_as_last result_dict event ;; OK (negb same)
       else OK false.

(** One iteration of [for event in events_dict["data"]]; the state is
    [result_dict] and the flag [check_outcome_last_event]. *)
Definition process_event (st : table * bool) (event : pyval F)
  : result (table * bool) :=
  let '(result_dict, check_outcome_last_event) := st in
  index <- getitem event "index" ;;
  result_dict <- append "event_id" index result_dict ;;
  type_id <- getitem2 event "type" "id" ;;
  result_dict <- append "type_id" type_id result_dict ;;
  name <- getitem2 event "type" "name" ;;
  event_name <- str_lower name ;;
  result_dict <- append "metrica_event" (PStr event_name) result_dict ;;
  period <- getitem event "period" ;;
  result_dict <- append "period_id" period result_dict ;;
  time <- getitem2 event "start" "time" ;;
  mins <- py_floordiv time 60 ;;
  result_dict <- append "minutes" (PInt (_to_int mins)) result_dict ;;
  time <- getitem2 event "start" "time" ;;
  secs <- py_mod time 60 ;;
  result_dict <- append "seconds" (PFloat (_to_float secs)) result_dict ;;
  from_id <- getitem2 event "from" "id" ;;
  from_id <- slice_from_1 from_id ;;
  result_dict <- append "player_id" (PInt (_to_int from_id)) result_dict ;;
  from_name <- getitem2 event "from" "name" ;;
  result_dict <- append "player_name" from_name result_dict ;;
  (* set outcome for pass or dribble/carry events *)
  result_dict <-
    (if check_outcome_last_event then
       lost <- possession_lost result_dict event event_name ;;
       outcomes <- dict_get "outcome" result_dict ;;
       outcomes <- set_last (PInt (if lost then 0 else 1)) outcomes ;;
       OK (dict_set "outcome" outcomes result_dict)
     else OK result_dict) ;;
  (* set outcome for shot events *)
  result_dict <-
    (if String.eqb event_name "shot" then
       outcome <- shot_outcome event ;;
       append "outcome" (PInt outcome) result_dict
     else append "outcome" (PInt MISSING_INT) result_dict) ;;
  (* check if outcome needs to be set based on next event *)
  let check_outcome_last_event := in_list event_name ["pass"; "carry"] in
  team <- getitem2 event "team" "id" ;;
  result_dict <- append "team_id" team result_dict ;;
  start_x <- getitem2 event "start" "x" ;;
  result_dict <- append "start_x" (PFloat (_to_float start_x)) result_dict ;;
  start_y <- getitem2 event "start" "y" ;;
  result_dict <- append "start_y" (PFloat (_to_float start_y)) result_dict ;;
  to <- getitem event "to" ;;
  result_dict <-
    (match to with
     | PNone =>
         result_dict <- append "to_player_id" (PInt MISSING_INT) result_dict ;;
         append "to_player_name" PNone result_dict
     | _ =>
         to_id <- getitem to "id" ;;
         to_id <- slice_from_1 to_id ;;
         result_dict <- append "to_player_id" (PInt (_to_int to_id)) result_dict ;;
         to_name <- getitem to "name" ;;
         append "to_player_name" to_name result_dict
     end) ;;
  end_x <- getitem2 event "end" "x" ;;
  result_dict <- append "end_x" (PFloat (_to_float end_x)) result_dict ;;
  end_y <- getitem2 event "end" "y" ;;
  result_dict <- append "end_y" (PFloat (_to_float end_y)) result_dict ;;
  frame <- getitem2 event "start" "frame" ;;
  result_dict <- append "td_frame" frame result_dict ;;
  OK (result_dict, check_outcome_last_event).

(** *** The column types of [pd.DataFrame]

    [pd.DataFrame(d)] stores each list of the dict as an array, and the
    values of the list decide the type of the array.  A list of numbers in
    which a [None] or a NaN is missing data, and a list that mixes [int]s
    with [float]s, becomes a [float64] column: its [int]s are converted and
    its [None]s become NaN.  Every other list keeps its values: a list with
    a string, a list, a dict or a timestamp and a list that mixes [bool]s
    with other values ([object]), a list of [None]s only ([object]), a list
    of [int]s ([int64] or [uint64], and [object] beyond 64 bits), a list of
    [bool]s. *)

Inductive dtype : Type := DInt64 | DFloat64 | DBool | DObject.

Definition is_object (v : pyval F) : bool :=
  match v with
  | PStr _ | PList _ | PDict _ | PTimestamp _ => true
  | _ => false
  end.

Definition is_bool (v : pyval F) : bool :=
  match v with
  | PBool _ => true
  | _ => false
  end.

Definition is_float (v : pyval F) : bool :=
  match v with
  | PFloat _ => true
  | _ => false
  end.

Definition is_number (v : pyval F) : bool :=
  match v with
  | PInt _ | PFloat _ => true
  | _ => false
  end.

(** The [int]s of a list before its first [None]: the ones whose range the
    type inference looks at. *)
Fixpoint ints_before_none (cells : list (pyval F)) : list Z :=
  match cells with
  | [] => []
  | PNone :: _ => []
  | PInt z :: rest => z :: ints_before_none rest
  | _ :: rest => ints_before_none rest
  end.

Definition INT64_MIN : Z := - 2 ^ 63.
Definition INT64_MAX : Z := 2 ^ 63 - 1.
Definition UINT64_MAX : Z := 2 ^ 64 - 1.

(** An [int] fits neither [int64] nor [uint64], or the list has an [int]
    above [int64] and a negative one. *)
Definition beyond_64_bits (cells : list (pyval F)) : bool :=
  let zs := ints_before_none cells in
  existsb (fun z => (UINT64_MAX <? z) || (z <? INT64_MIN)) zs
  || (existsb (fun z => INT64_MAX <? z) zs && existsb (fun z => z <? 0) zs).

(** The type [lib.maybe_convert_objects] infers for a list. *)
Definition column_dtype (cells : list (pyval F)) : dtype :=
  match cells with
  | [] => DObject
  | _ =>
      if existsb is_object cells then DObject
      else if existsb is_bool cells
           then (if forallb is_bool cells then DBool else DObject)
      else if beyond_64_bits cells then DObject
      else if existsb pd_isnull cells
           then (if existsb is_number cells then DFloat64 else DObject)
      else if existsb is_float cells then DFloat64
      else DInt64
  end.

(** A value as a [float64] column stores it. *)
Definition to_float64 (v : pyval F) : pyval F :=
  match v with
  | PInt z => PFloat (of_int z)
  | PNone => PFloat np_nan
  | _ => v
  end.

(** The cells of the column that [pd.DataFrame] makes of a list. *)
Definition sanitize_array (cells : list (pyval F)) : list (pyval F) :=
  match column_dtype cells with
  | DFloat64 => map to_float64 cells
  | _ => cells
  end.

(** [pd.DataFrame(d)] for a dict of lists: the lists have one length, and
    each becomes a typed column. *)
Definition pd_DataFrame (d : table) : result table :=
  match d with
  | [] => OK d
  | (_, c) :: _ =>
      if forallb (fun kc => Nat.eqb (List.length (snd kc)) (List.length c)) d
      then OK (map (fun kc => (fst kc, sanitize_array (snd kc))) d)
      else Raise (ValueError "All arrays must be of the same length")
  end.

(** [series.map(metrica_databallpy_map).replace([np.nan], [None])] on one cell. *)
Definition map_event (cell : pyval F) : pyval F :=
  match cell with
  | PStr s => match dict_find s metrica_databallpy_map with
              | Some e => PStr e
              | None => PNone
              end
  | _ => PNone
  end.

(** The body of [_get_event_data] after the JSON text is parsed. *)
Definition events_table (events_dict : pyval F) : result table :=
  data <- getitem events_dict "data" ;;
  events <- py_iter data ;;
  st <- for_each process_event (empty_result_dict, false) events ;;
  let result_dict := fst st in
  ids <- dict_get "event_id" result_dict ;;
  let result_dict :=
    dict_set "databallpy_event" (repeat PNone (List.length ids)) result_dict in
  events <- pd_DataFrame result_dict ;;
  names <- dict_get "metrica_event" events ;;
  OK (dict_set "databallpy_event" (map map_event names) events).

(** The head of [_get_event_data]: from the argument to [events_dict]. *)
Definition read_events_dict (event_data_loc : loc_arg) : result (pyval F) :=
  match event_data_loc with
  | LocStr s =>
      if negb (contains "{" s)
      then raw_data <- read_file s ;; soup_json_loads raw_data
      else soup_json_loads (strip s)
  | _ => Raise (AttributeError "object has no attribute strip")
  end.

Definition _get_event_data (event_data_loc : loc_arg) : result table :=
  events_dict <- read_events_dict event_data_loc ;;
  events_table events_dict.

(** *** What one record contributes

    [row_of_event] collects the cells that one iteration appends for its own
    record, and [resolve] says how the look-ahead settles the outcome column.
    The loop is proved to compute exactly these. *)

Record event_row : Type := {
  r_event_id : pyval F;
  r_type_id : pyval F;
  r_metrica_event : string;
  r_period_id : pyval F;
  r_minutes : Z;
  r_seconds : F;
  r_player_id : Z;
  r_player_name : pyval F;
  r_team_id : pyval F;
  (** the outcome appended in the record's own iteration *)
  r_outcome : Z;
  r_start_x : F;
  r_start_y : F;
  r_to_player_id : Z;
  r_to_player_name : pyval F;
  r_end_x : F;
  r_end_y : F;
  r_td_frame : pyval F
}.

(** [event["type"]["name"].lower()] *)
Definition event_name (event : pyval F) : result string :=
  name <- getitem2 event "type" "name" ;; str_lower name.

(** The cells for the receiving player. *)
Definition to_cells (to : pyval F) : result (Z * pyval F) :=
  match to with
  | PNone => OK (MISSING_INT, PNone)
  | _ =>
      to_id <- getitem to "id" ;;
      to_id <- slice_from_1 to_id ;;
      to_name <- getitem to "name" ;;
      OK (_to_int to_id, to_name)
  end.

Definition row_of_event (event : pyval F) : result event_row :=
  index <- getitem event "index" ;;
  type_id <- getitem2 event "type" "id" ;;
  name <- event_name event ;;
  period <- getitem event "period" ;;
  time <- getitem2 event "start" "time" ;;
  mins <- py_floordiv time 60 ;;
  secs <- py_mod time 60 ;;
  from_id <- getitem2 event "from" "id" ;;
  from_id <- slice_from_1 from_id ;;
  from_name <- getitem2 event "from" "name" ;;
  outcome <- (if String.eqb name "shot" then shot_outcome event
              else OK MISSING_INT) ;;
  team <- getitem2 event "team" "id" ;;
  start_x <- getitem2 event "start" "x" ;;
  start_y <- getitem2 event "start" "y" ;;
  to <- getitem event "to" ;;
  to_cells <- to_cells to ;;
  end_x <- getitem2 event "end" "x" ;;
  end_y <- getitem2 event "end" "y" ;;
  frame <- getitem2 event "start" "frame" ;;
  OK {| r_event_id := index;
        r_type_id := type_id;
        r_metrica_event := name;
        r_period_id := period;
        r_minutes := _to_int mins;
        r_seconds := _to_float secs;
        r_player_id := _to_int from_id;
        r_player_name := from_name;
        r_team_id := team;
        r_outcome := outcome;
        r_start_x := _to_float start_x;
        r_start_y := _to_float start_y;
        r_to_player_id := fst to_cells;
        r_to_player_name := snd to_cells;
        r_end_x := _to_float end_x;
        r_end_y := _to_float end_y;
        r_td_frame := frame |}.

(** The columns other than [outcome] and [databallpy_event], each with the
    cell a record contributes to it. *)
Definition plain_columns : list (string * (event_row -> pyval F)) :=
  [("event_id", r_event_id);
   ("type_id", r_type_id);
   ("metrica_event", fun r => PStr (r_metrica_event r));
   ("period_id", r_period_id);
   ("minutes", fun r => PInt (r_minutes r));
   ("seconds", fun r => PFloat (r_seconds r));
   ("player_id", fun r => PInt (r_player_id r));
   ("player_name", r_player_name);
   ("team_id", r_team_id);
   ("start_x", fun r => PFloat (r_start_x r));
   ("start_y", fun r => PFloat (r_start_y r));
   ("to_player_id", fun r => PInt (r_to_player_id r));
   ("to_player_name", r_to_player_name);
   ("end_x", fun r => PFloat (r_end_x r));
   ("end_y", fun r => PFloat (r_end_y r));
   ("td_frame", r_td_frame)].

(** A pass or a carry waits for the next record. *)
Definition pending (r : event_row) : bool :=
  in_list (r_metrica_event r) ["pass"; "carry"].

(** The next record [next] shows that the team of [r] lost the ball. *)
Definition lost_to (r next : event_row) : bool :=
  (in_list (r_metrica_event next) out_of_possession_events
   && py_eq (r_team_id r) (r_team_id next))
  || (in_list (r_metrica_event next) in_possession_events
      && negb (py_eq (r_team_id r) (r_team_id next))).

(** The settled outcome of [r], given the record after it (if any). *)
Definition settled (r : event_row) (next : option event_row) : Z :=
  match next with
  | Some n => if pending r then (if lost_to r n then 0 else 1) else r_outcome r
  | None => r_outcome r
  end.

(** The outcome column of a stream that is followed by [after]. *)
Fixpoint resolve_before (rows : list event_row) (after : option event_row) : list Z :=
  match rows with
  | [] => []
  | r :: rest =>
      settled r (match rest with n :: _ => Some n | [] => after end)
      :: resolve_before rest after
  end.

Definition resolve (rows : list event_row) : list Z := resolve_before rows None.

(** The flag [check_outcome_last_event] after the rows. *)
Definition flag_after (rows : list event_row) : bool :=
  match rev rows with
  | [] => false
  | r :: _ => pending r
  end.

(** The loop invariant: the columns hold the cells of the rows read so far. *)
Definition columns_hold (rows : list event_row) (d : table) : Prop :=
  map fst d = map fst empty_result_dict
  /\ Forall (fun cf => dict_get (fst cf) d = OK (map (snd cf) rows)) plain_columns
  /\ dict_get "outcome" d = OK (map PInt (resolve rows)).

(** The columns that hold the values of the record as the feed gives them;
    the other columns hold results of [_to_int], [_to_float] and
    [str.lower]. *)
Definition raw_columns : list string :=
  ["event_id"; "type_id"; "period_id"; "player_name"; "team_id";
   "to_player_name"; "td_frame"].

(** The cells of a column as the frame stores them: [pd.DataFrame] types the
    column, which leaves the cells of the converted columns as they are. *)
Definition stored (col : string) (cells : list (pyval F)) : list (pyval F) :=
  if in_list col raw_columns then sanitize_array cells else cells.

(** The columns of the frame hold the stored cells of the rows. *)
Definition frame_holds (rows : list event_row) (d : table) : Prop :=
  map fst d = map fst empty_result_dict
  /\ Forall (fun cf => dict_get (fst cf) d = OK (stored (fst cf) (map (snd cf) rows)))
       plain_columns
  /\ dict_get "outcome" d = OK (map PInt (resolve rows)).

(** What the returned table holds for the rows of a stream. *)
Definition table_holds (rows : list event_row) (d : table) : Prop :=
  frame_holds rows d
  /\ dict_get "databallpy_event" d
     = OK (map (fun r => map_event (PStr (r_metrica_event r))) rows).

(** The cell of column [col] in row [i] of a table. *)
Definition cell (d : table) (col : string) (i : nat) : option (pyval F) :=
  match dict_find col d with
  | Some cells => nth_error cells i
  | None => None
  end.

(** [event["team"]["id"]] *)
Definition event_team (event : pyval F) : result (pyval F) :=
  getitem2 event "team" "id".

(** The keys every record is read at. *)
Definition required_keys : list (list string) :=
  [["index"]; ["type"; "id"]; ["type"; "name"]; ["period"]; ["start"; "time"];
   ["from"; "id"]; ["from"; "name"]; ["team"; "id"]; ["start"; "x"];
   ["start"; "y"]; ["to"]; ["end"; "x"]; ["end"; "y"]; ["start"; "frame"]].

(** [event[k1]...[kn]] *)
Fixpoint lookup_path (v : pyval F) (path : list string) : result (pyval F) :=
  match path with
  | [] => OK v
  | k :: rest => x <- getitem v k ;; lookup_path x rest
  end.

(** The record without the key at the end of a path:
    [del event[k1]...[kn]], and the record itself where the path is not one
    of its paths. *)
Fixpoint without (path : list string) (v : pyval F) : pyval F :=
  match path, v with
  | [k], PDict d => PDict (dict_del k d)
  | k :: rest, PDict d =>
      match dict_find k d with
      | Some x => PDict (dict_set k (without rest x) d)
      | None => v
      end
  | _, _ => v
  end.

(** The row holds what the record holds at its keys, converted by the
    helpers; the receiving player goes through [to_cells] and the outcome of
    a record that is not a shot is the sentinel. *)
Definition row_reads (event : pyval F) (r : event_row) : Prop :=
  getitem event "index" = OK (r_event_id r)
  /\ getitem2 event "type" "id" = OK (r_type_id r)
  /\ event_name event = OK (r_metrica_event r)
  /\ getitem event "period" = OK (r_period_id r)
  /\ (exists time mins secs,
        getitem2 event "start" "time" = OK time
        /\ py_floordiv time 60 = OK mins /\ r_minutes r = _to_int mins
        /\ py_mod time 60 = OK secs /\ r_seconds r = _to_float secs)
  /\ (exists id tail,
        getitem2 event "from" "id" = OK id /\ slice_from_1 id = OK tail
        /\ r_player_id r = _to_int tail)
  /\ getitem2 event "from" "name" = OK (r_player_name r)
  /\ (if String.eqb (r_metrica_event r) "shot"
      then shot_outcome event = OK (r_outcome r)
      else r_outcome r = MISSING_INT)
  /\ event_team event = OK (r_team_id r)
  /\ (exists x, getitem2 event "start" "x" = OK x /\ r_start_x r = _to_float x)
  /\ (exists y, getitem2 event "start" "y" = OK y /\ r_start_y r = _to_float y)
  /\ (exists to, getitem event "to" = OK to
                 /\ to_cells to = OK (r_to_player_id r, r_to_player_name r))
  /\ (exists x, getitem2 event "end" "x" = OK x /\ r_end_x r = _to_float x)
  /\ (exists y, getitem2 event "end" "y" = OK y /\ r_end_y r = _to_float y)
  /\ getitem2 event "start" "frame" = OK (r_td_frame r).

(** *** The rules as the specification words them *)

(** A sub-type is the goal marker. *)
Definition is_goal (sub : pyval F) : bool :=
  match getitem sub "name" with
  | OK name => py_eq name (PStr "GOAL")
  | Raise _ => false
  end.

(** Some attached sub-type is the goal marker, for a list of sub-types and
    for a single one. *)
Definition has_goal (subtypes : pyval F) : bool :=
  match subtypes with
  | PList subs => existsb is_goal subs
  | _ => is_goal subtypes
  end.

(** The sub-types are a list of objects or one object, each with a name. *)
Definition named (sub : pyval F) : bool :=
  match getitem sub "name" with
  | OK _ => true
  | Raise _ => false
  end.

Definition well_formed_subtypes (subtypes : pyval F) : bool :=
  match subtypes with
  | PList subs => forallb named subs
  | _ => named subtypes
  end.

(** The canonical category of a vendor label. *)
Definition canonical (label : string) : pyval F :=
  if String.eqb label "pass" then PStr "pass"
  else if String.eqb label "carry" then PStr "dribble"
  else if String.eqb label "shot" then PStr "shot"
  else PNone.

(** The next record shows that the ball was lost: an out-of-possession event
    of the same team, or an in-possession event of another team. *)
Definition ball_lost (team : pyval F) (next_name : string) (next_team : pyval F) : bool :=
  (in_list next_name out_of_possession_events && py_eq team next_team)
  || (in_list next_name in_possession_events && negb (py_eq team next_team)).

End EventExtractor.

Arguments table F : clear implicits.
Arguments event_row F : clear implicits.

(** ** Typed events: [databallpy.events] *)

(** Modelled from the spec: [BaseOnBallEvent], the base class of the typed
    events, is not part of these sources.  The spec describes the canonical
    event objects as immutable value objects with shared base fields (ids,
    timing, location, team side); the fields are those the parser passes by
    keyword and [DribbleEvent.copy] reads back. *)
Record BaseOnBallEvent (F : Type) : Type := {
  event_id : pyval F;
  period_id : pyval F;
  minutes : pyval F;
  seconds : pyval F;
  datetime : pyval F;
  start_x : pyval F;
  start_y : pyval F;
  team_id : pyval F;
  pitch_size : F * F;
  team_side : string;
  _xt : F
}.

Arguments event_id {F} _.
Arguments period_id {F} _.
Arguments minutes {F} _.
Arguments seconds {F} _.
Arguments datetime {F} _.
Arguments start_x {F} _.
Arguments start_y {F} _.
Arguments team_id {F} _.
Arguments pitch_size {F} _.
Arguments team_side {F} _.
Arguments _xt {F} _.

(** [dribble_event.py]: the fields [DribbleEvent] adds to its base class. *)
Module DribbleEvent.

Record t (F : Type) : Type := {
  base : BaseOnBallEvent F;
  player_id : pyval F;
  related_event_id : pyval F;
  duel_type : pyval F;
  outcome : pyval F;
  has_opponent : bool
}.

Arguments base {F} _.
Arguments player_id {F} _.
Arguments related_event_id {F} _.
Arguments duel_type {F} _.
Arguments outcome {F} _.
Arguments has_opponent {F} _.

(** [DribbleEvent._check_datatypes]; [bool] is a subclass of [int]. *)
Definition _check_datatypes {F : Type} (self : t F) : result unit :=
  match player_id self with
  | PInt _ | PBool _ | PStr _ =>
      match related_event_id self with
      | PInt _ | PBool _ =>
          match duel_type self with
          | PStr _ | PNone =>
              match outcome self with
              | PBool _ | PNone => OK tt
              | _ => Raise (TypeError "outcome should be bool")
              end
          | _ => Raise (TypeError "duel_type should be str")
          end
      | _ => Raise (TypeError "related_event_id should be int")
      end
  | _ => Raise (TypeError "player_id should be int")
  end.

End DribbleEvent.

(** Modelled from the spec: [ShotEvent] is not part of these sources; its
    fields are the keywords [_get_shot_event] passes (shared base fields plus
    the shot outcome and the shot details the vendor feed leaves unset). *)
Module ShotEvent.

Record t (F : Type) : Type := {
  base : BaseOnBallEvent F;
  player_id : pyval F;
  shot_outcome : string;
  y_target : F;
  z_target : F;
  body_part : pyval F;
  type_of_play : pyval F;
  first_touch : pyval F;
  created_oppertunity : pyval F;
  related_event_id : pyval F
}.

Arguments base {F} _.
Arguments player_id {F} _.
Arguments shot_outcome {F} _.
Arguments related_event_id {F} _.

End ShotEvent.

(** Modelled from the spec: [PassEvent] is not part of these sources; its
    fields are the keywords [_get_pass_event] passes (shared base fields plus
    pass outcome, end location, pass type and set piece). *)
Module PassEvent.

Record t (F : Type) : Type := {
  base : BaseOnBallEvent F;
  player_id : pyval F;
  outcome : string;
  end_x : pyval F;
  end_y : pyval F;
  pass_type : string;
  set_piece : string
}.

Arguments base {F} _.
Arguments player_id {F} _.
Arguments outcome {F} _.
Arguments end_x {F} _.
Arguments end_y {F} _.

End PassEvent.

(** What the constructors of the event classes run from outside these
    sources: [BaseOnBallEvent.__post_init__], and the ones of [ShotEvent]
    and [PassEvent]. *)
Class EventClasses (F : Type) : Type := {
  base_post_init : BaseOnBallEvent F -> result unit;
  shot_post_init : ShotEvent.t F -> result unit;
  pass_post_init : PassEvent.t F -> result unit
}.

(** ** The typed-event builders *)

(** A row of the event table: a [pd.Series] indexed by the column names. *)
Definition series (F : Type) : Type := pydict (pyval F).

Section Builders.

Context {F : Type} `{PyFloat F} `{Imports F} `{EventClasses F}.

(** [row.name] *)
Definition row_attr (row : series F) (name : string) : result (pyval F) :=
  match dict_find name row with
  | Some v => OK v
  | None => Raise (AttributeError name)
  end.

(** The base fields of an event read back as the row's values. *)
Definition base_matches (row : series F) (base : BaseOnBallEvent F) : Prop :=
  row_attr row "event_id" = OK (event_id base)
  /\ row_attr row "period_id" = OK (period_id base)
  /\ row_attr row "minutes" = OK (minutes base)
  /\ row_attr row "seconds" = OK (seconds base)
  /\ row_attr row "datetime" = OK (datetime base)
  /\ row_attr row "start_x" = OK (start_x base)
  /\ row_attr row "start_y" = OK (start_y base)
  /\ row_attr row "team_id" = OK (team_id base).

(** The keywords shared by the three constructor calls, in their order. *)
Definition base_of_row (row : series F) (pitch_dimensions : F * F)
    (home_team_id : pyval F) : result (BaseOnBallEvent F) :=
  event_id <- row_attr row "event_id" ;;
  period_id <- row_attr row "period_id" ;;
  minutes <- row_attr row "minutes" ;;
  seconds <- row_attr row "seconds" ;;
  datetime <- row_attr row "datetime" ;;
  start_x <- row_attr row "start_x" ;;
  start_y <- row_attr row "start_y" ;;
  team_id <- row_attr row "team_id" ;;
  team <- row_attr row "team_id" ;;
  OK {| event_id := event_id;
        period_id := period_id;
        minutes := minutes;
        seconds := seconds;
        datetime := datetime;
        start_x := start_x;
        start_y := start_y;
        team_id := team_id;
        pitch_size := pitch_dimensions;
        team_side := if py_eq team home_team_id then "home" else "away";
        _xt := of_int (-1) |}.

(** [ShotEvent(...)]: the dataclass stores its arguments and runs
    [__post_init__]. *)
Definition new_ShotEvent (self : ShotEvent.t F) : result (ShotEvent.t F) :=
  _ <- shot_post_init self ;; OK self.

Definition new_PassEvent (self : PassEvent.t F) : result (PassEvent.t F) :=
  _ <- pass_post_init self ;; OK self.

(** [DribbleEvent(...)], with [DribbleEvent.__post_init__]. *)
Definition new_DribbleEvent (self : DribbleEvent.t F) : result (DribbleEvent.t F) :=
  _ <- base_post_init (DribbleEvent.base self) ;;
  _ <- DribbleEvent._check_datatypes self ;;
  OK self.

Definition _get_shot_event (row : series F) (pitch_dimensions : F * F)
    (home_team_id : pyval F) : result (ShotEvent.t F) :=
  base <- base_of_row row pitch_dimensions home_team_id ;;
  player_id <- row_attr row "player_id" ;;
  outcome <- row_attr row "outcome" ;;
  shot_outcome <- list_getitem ["miss"; "goal"] outcome ;;
  new_ShotEvent
    {| ShotEvent.base := base;
       ShotEvent.player_id := player_id;
       ShotEvent.shot_outcome := shot_outcome;
       ShotEvent.y_target := np_nan;
       ShotEvent.z_target := np_nan;
       ShotEvent.body_part := PNone;
       ShotEvent.type_of_play := PNone;
       ShotEvent.first_touch := PNone;
       ShotEvent.created_oppertunity := PNone;
       ShotEvent.related_event_id := PInt MISSING_INT |}.

Definition _get_pass_event (row : series F) (pitch_dimensions : F * F)
    (home_team_id : pyval F) : result (PassEvent.t F) :=
  base <- base_of_row row pitch_dimensions home_team_id ;;
  player_id <- row_attr row "player_id" ;;
  outcome <- row_attr row "outcome" ;;
  outcome <-
    (if negb (pd_isnull outcome)
     then outcome <- row_attr row "outcome" ;;
          list_getitem ["unsuccessful"; "successful"] outcome
     else OK "not_specified") ;;
  end_x <- row_attr row "end_x" ;;
  end_y <- row_attr row "end_y" ;;
  new_PassEvent
    {| PassEvent.base := base;
       PassEvent.player_id := player_id;
       PassEvent.outcome := outcome;
       PassEvent.end_x := end_x;
       PassEvent.end_y := end_y;
       PassEvent.pass_type := "not_specified";
       PassEvent.set_piece := "unspecified_set_piece" |}.

Definition _get_dribble_event (row : series F) (pitch_dimensions : F * F)
    (home_team_id : pyval F) : result (DribbleEvent.t F) :=
  base <- base_of_row row pitch_dimensions home_team_id ;;
  player_id <- row_attr row "player_id" ;;
  outcome <- row_attr row "outcome" ;;
  new_DribbleEvent
    {| DribbleEvent.base := base;
       DribbleEvent.player_id := player_id;
       DribbleEvent.related_event_id := PInt MISSING_INT;
       DribbleEvent.duel_type := PNone;
       DribbleEvent.outcome := PBool (py_bool outcome);
       DribbleEvent.has_opponent := false |}.

End Builders.

(** ** The loader: [load_metrica_event_data] *)

(** Modelled from the spec: the [Metadata] object is built by the metadata
    parser, which is not part of these sources.  The spec lists what the
    loader reads from it: pitch dimensions, team ids, the period frame and time
    anchors, and the frame rate. *)
Module Metadata.

Record period_row (F : Type) : Type := {
  period_id : Z;
  start_frame : Z;
  start_datetime_ed : pyval F
}.

Arguments period_id {F} _.
Arguments start_frame {F} _.
Arguments start_datetime_ed {F} _.

Record t (F : Type) : Type := {
  pitch_dimensions : F * F;
  periods_frames : list (period_row F);
  frame_rate : Z;
  home_team_id : pyval F;
  away_team_id : pyval F
}.

Arguments pitch_dimensions {F} _.
Arguments periods_frames {F} _.
Arguments frame_rate {F} _.
Arguments home_team_id {F} _.
Arguments away_team_id {F} _.

End Metadata.

(** What the loader calls from outside these sources: [os.path.exists]; the
    metadata parser; the playing-direction normalisation;
    [pd.to_datetime(x, utc=True)], as nanoseconds since the epoch;
    [dt.timedelta(milliseconds=x)], as the whole microseconds it holds; and
    [frame.apply(f, axis=1)] with the iteration over its result. *)
Class Collaborators (F : Type) : Type := {
  path_exists : string -> bool;
  td_channels : Type;
  _get_metadata : string -> result (Metadata.t F);
  _get_td_channels : string -> Metadata.t F -> result td_channels;
  _update_metadata : td_channels -> Metadata.t F -> result (Metadata.t F);
  _normalize_playing_direction_events :
    table F -> pyval F -> pyval F -> result (table F);
  to_datetime_utc : pyval F -> result Z;
  timedelta_milliseconds : F -> result Z;
  apply_rows : forall A : Type, (series F -> result A) -> table F -> result (list A)
}.

Section Loader.

Context {F : Type} `{PyFloat F} `{Imports F} `{TextLibrary F}
        `{EventClasses F} `{Collaborators F}.

(** The checks on the two arguments at the head of the loader. *)
Definition check_locations (event_data_loc : loc_arg) (metadata_loc : string)
  : result unit :=
  match event_data_loc with
  | LocStr s =>
      if negb (contains "{" s) then
        if negb (path_exists s)
        then Raise (FileNotFoundError ("Could not find " ++ s))
        else if negb (path_exists metadata_loc)
        then Raise (FileNotFoundError ("Could not find " ++ metadata_loc))
        else OK tt
      else OK tt
  | LocStringIO _ =>
      Raise (TypeError
               ("tracking_data_loc must be either a str or a StringIO object, not a "
                ++ "<class '_io.StringIO'>"))
  | LocOther type_repr =>
      Raise (TypeError
               ("tracking_data_loc must be either a str or a StringIO object, not a "
                ++ type_repr))
  end.

(** [value * dimension - dimension / 2.0] *)
Definition rescale (value dimension : F) : F :=
  fsub (fmul value dimension) (fdiv dimension (of_int 2)).

(** The same on one cell of a column. *)
Definition rescale_cell (dimension : F) (cell : pyval F) : result (pyval F) :=
  match cell with
  | PFloat v => OK (PFloat (rescale v dimension))
  | PInt z => OK (PFloat (rescale (of_int z) dimension))
  | PBool b => OK (PFloat (rescale (of_int (Z_of_bool b)) dimension))
  | _ => Raise (TypeError "unsupported operand type(s) for *")
  end.

(** [for col in [x for x in event_data.columns if mark in x]:
       event_data[col] = event_data[col] * dimension - dimension / 2.0] *)
Definition rescale_columns (mark : string) (dimension : F) (event_data : table F)
  : result (table F) :=
  for_each
    (fun event_data col =>
       cells <- dict_get col event_data ;;
       cells <- mapM (rescale_cell dimension) cells ;;
       OK (dict_set col cells event_data))
    event_data
    (filter (contains mark) (map fst event_data)).

Definition rescale_locations (metadata : Metadata.t F) (event_data : table F)
  : result (table F) :=
  event_data <-
    rescale_columns "_x" (fst (Metadata.pitch_dimensions metadata)) event_data ;;
  rescale_columns "_y" (snd (Metadata.pitch_dimensions metadata)) event_data.

(** [periods_frames.loc[periods_frames["period_id"] == 1, ...].iloc[0]] *)
Definition first_period (metadata : Metadata.t F) : result (Metadata.period_row F) :=
  match filter (fun p => Metadata.period_id p =? 1) (Metadata.periods_frames metadata) with
  | [] => Raise (IndexError "single positional indexer is out-of-bounds")
  | p :: _ => OK p
  end.

(** [(x - first_frame) / frame_rate * 1000], in NumPy's arithmetic. *)
Definition frame_offset_ms (x : pyval F) (first_frame frame_rate : Z) : result F :=
  match x with
  | PInt z =>
      OK (fmul (fdiv (of_int (z - first_frame)) (of_int frame_rate)) (of_int 1000))
  | PBool b =>
      OK (fmul (fdiv (of_int (Z_of_bool b - first_frame)) (of_int frame_rate))
            (of_int 1000))
  | PFloat f =>
      OK (fmul (fdiv (fsub f (of_int first_frame)) (of_int frame_rate)) (of_int 1000))
  | _ => Raise (TypeError "unsupported operand type(s) for -")
  end.

(** The block "add datetime based on frame numbers". *)
Definition add_datetime (metadata : Metadata.t F) (event_data : table F)
  : result (table F) :=
  first_frame <- (p <- first_period metadata ;; OK (Metadata.start_frame p)) ;;
  start_time <- (p <- first_period metadata ;; OK (Metadata.start_datetime_ed p)) ;;
  let frame_rate := Metadata.frame_rate metadata in
  frames <- dict_get "td_frame" event_data ;;
  rel_timedelta <-
    mapM (fun x => ms <- frame_offset_ms x first_frame frame_rate ;;
                   timedelta_milliseconds ms) frames ;;
  datetimes <-
    mapM (fun x => start <- to_datetime_utc start_time ;;
                   OK (PTimestamp (start + 1000 * x))) rel_timedelta ;;
  OK (dict_set "datetime" datetimes event_data).

(** [cells[mask]]: the cells at which the mask holds. *)
Fixpoint select {A : Type} (mask : list bool) (cells : list A) : list A :=
  match mask, cells with
  | m :: mask', c :: cells' =>
      if m then c :: select mask' cells' else select mask' cells'
  | _, _ => []
  end.

(** [event_data[event_data["databallpy_event"] == name]] *)
Definition rows_of_category (name : string) (event_data : table F) : result (table F) :=
  categories <- dict_get "databallpy_event" event_data ;;
  let mask := map (fun c => py_eq c (PStr name)) categories in
  OK (map (fun kc => (fst kc, select mask (snd kc))) event_data).

Definition hashable (v : pyval F) : bool :=
  match v with
  | PList _ | PDict _ => false
  | _ => true
  end.

(** [d[k] = v] for a dict keyed by values. *)
Fixpoint key_set {A : Type} (k : pyval F) (v : A) (d : list (pyval F * A))
  : list (pyval F * A) :=
  match d with
  | [] => [(k, v)]
  | (k', v') :: d' =>
      if py_eq k' k then (k', v) :: d' else (k', v') :: key_set k v d'
  end.

(** [{event.event_id: event for event in events}] *)
Definition by_event_id {A : Type} (id_of : A -> pyval F) (events : list A)
  : result (list (pyval F * A)) :=
  for_each
    (fun d event =>
       if hashable (id_of event) then OK (key_set (id_of event) event d)
       else Raise (TypeError "unhashable type"))
    [] events.

Record databallpy_events : Type := {
  shot_events : list (pyval F * ShotEvent.t F);
  pass_events : list (pyval F * PassEvent.t F);
  dribble_events : list (pyval F * DribbleEvent.t F)
}.

Definition _get_databallpy_events (event_data : table F) (pitch_dimensions : F * F)
    (home_team_id : pyval F) : result databallpy_events :=
  shots <- rows_of_category "shot" event_data ;;
  shots <- apply_rows _ (fun row => _get_shot_event row pitch_dimensions home_team_id) shots ;;
  shot_events <- by_event_id (fun e => event_id (ShotEvent.base e)) shots ;;
  passes <- rows_of_category "pass" event_data ;;
  passes <- apply_rows _ (fun row => _get_pass_event row pitch_dimensions home_team_id) passes ;;
  pass_events <- by_event_id (fun e => event_id (PassEvent.base e)) passes ;;
  dribbles <- rows_of_category "dribble" event_data ;;
  dribbles <- apply_rows _ (fun row => _get_dribble_event row pitch_dimensions home_team_id) dribbles ;;
  dribble_events <- by_event_id (fun e => event_id (DribbleEvent.base e)) dribbles ;;
  OK {| shot_events := shot_events;
        pass_events := pass_events;
        dribble_events := dribble_events |}.

Definition load_metrica_event_data (event_data_loc : loc_arg) (metadata_loc : string)
  : result (table F * Metadata.t F * databallpy_events) :=
  _ <- check_locations event_data_loc metadata_loc ;;
  metadata <- _get_metadata metadata_loc ;;
  td_channels <- _get_td_channels metadata_loc metadata ;;
  metadata <- _update_metadata td_channels metadata ;;
  event_data <- _get_event_data event_data_loc ;;
  (* rescale the event locations, metrica data is scaled between 0 and 1 *)
  event_data <- rescale_locations metadata event_data ;;
  (* add datetime based on frame numbers *)
  event_data <- add_datetime metadata event_data ;;
  event_data <-
    _normalize_playing_direction_events event_data
      (Metadata.home_team_id metadata) (Metadata.away_team_id metadata) ;;
  databallpy_events <-
    _get_databallpy_events event_data (Metadata.pitch_dimensions metadata)
      (Metadata.home_team_id metadata) ;;
  OK (event_data, metadata, databallpy_events).

End Loader.

Arguments databallpy_events F : clear implicits.

(** ** The table as a function of its rows *)

Section TableView.

Context {F : Type} `{PyFloat F} `{Imports F}.

(** The table of the rows of a stream, column by column: the columns of the
    record's own values as [pd.DataFrame] types them. *)
Definition table_of_rows (rows : list (event_row F)) : table F :=
  [("event_id", sanitize_array (map r_event_id rows));
   ("type_id", sanitize_array (map r_type_id rows));
   ("databallpy_event", map (fun r => map_event (PStr (r_metrica_event r))) rows);
   ("period_id", sanitize_array (map r_period_id rows));
   ("minutes", map (fun r => PInt (r_minutes r)) rows);
   ("seconds", map (fun r => PFloat (r_seconds r)) rows);
   ("player_id", map (fun r => PInt (r_player_id r)) rows);
   ("player_name", sanitize_array (map r_player_name rows));
   ("team_id", sanitize_array (map r_team_id rows));
   ("outcome", map PInt (resolve rows));
   ("start_x", map (fun r => PFloat (r_start_x r)) rows);
   ("start_y", map (fun r => PFloat (r_start_y r)) rows);
   ("to_player_id", map (fun r => PInt (r_to_player_id r)) rows);
   ("to_player_name", sanitize_array (map r_to_player_name rows));
   ("end_x", map (fun r => PFloat (r_end_x r)) rows);
   ("end_y", map (fun r => PFloat (r_end_y r)) rows);
   ("td_frame", sanitize_array (map r_td_frame rows));
   ("metrica_event", map (fun r => PStr (r_metrica_event r)) rows)].

End TableView.

(** ** Lookups in the dicts of typed events *)

Section Lookup.
Context {F : Type} `{PyFloat F}.

(** [d.get(k)] for a dict keyed by values. *)
Fixpoint key_find {A : Type} (k : pyval F) (d : list (pyval F * A)) : option A :=
  match d with
  | [] => None
  | (k', v) :: d' => if py_eq k' k then Some v else key_find k d'
  end.

End Lookup.

(** ** The rows of a frame *)

Section Frames.
Context {F : Type}.

(** The number of rows of a frame. *)
Definition frame_height (event_data : table F) : nat :=
  match event_data with
  | [] => O
  | (_, cells) :: _ => List.length cells
  end.

(** The first [n] rows of a frame, each a series indexed by the columns. *)
Fixpoint rows_upto (n : nat) (event_data : table F) : list (series F) :=
  match n with
  | O => []
  | S n' =>
      rows_upto n' event_data
      ++ [map (fun kc => (fst kc, nth n' (snd kc) PNone)) event_data]
  end.

(** The rows of a frame, in their order. *)
Definition frame_rows (event_data : table F) : list (series F) :=
  rows_upto (frame_height event_data) event_data.

(** The number of cells a mask keeps. *)
Definition count_true (mask : list bool) : nat :=
  List.length (filter (fun b => b) mask).

End Frames.

(** ** The open data set: [load_metrica_open_event_data] *)

(** [requests.get(url).text] *)
Class Network : Type := {
  requests_get_text : string -> result string
}.

Section OpenData.

Context {F : Type} `{PyFloat F} `{Imports F} `{TextLibrary F}
        `{EventClasses F} `{Collaborators F} `{Network}.

(** The two links.  Each literal is written over two lines of the source,
    joined by a backslash: the blanks that indent the second line are part of
    the string. *)
Definition metadata_link : string :=
  "https://raw.githubusercontent.com/metrica-sports/sample-data        /master/data/Sample_Game_3/Sample_Game_3_metadata.xml".

Definition ed_link : string :=
  "https://raw.githubusercontent.com/metrica-sports/sample-data        /master/data/Sample_Game_3/Sample_Game_3_events.json".

Definition load_metrica_open_event_data
  : result (table F * Metadata.t F * databallpy_events F) :=
  raw_ed <- requests_get_text ed_link ;;
  raw_metadata <- requests_get_text metadata_link ;;
  load_metrica_event_data (LocStr raw_ed) raw_metadata.

End OpenData.

(** ** The methods of [DribbleEvent] *)

(** Any object a [DribbleEvent] is compared with. *)
Inductive pyobject (F : Type) : Type :=
| ADribbleEvent (e : DribbleEvent.t F)
| AShotEvent (e : ShotEvent.t F)
| APassEvent (e : PassEvent.t F)
| AValue (v : pyval F).

Arguments ADribbleEvent {F} e.
Arguments AShotEvent {F} e.
Arguments APassEvent {F} e.
Arguments AValue {F} v.

(** What [DribbleEvent] takes from its base class, outside these sources:
    [super().__eq__(other)] on two dribble events, and [base_df_attributes]. *)
Class BaseMethods (F : Type) : Type := {
  super_eq : DribbleEvent.t F -> DribbleEvent.t F -> bool;
  base_df_attributes : list string
}.

Module DribbleMethods.

Section Methods.

Context {F : Type} `{PyFloat F} `{Imports F} `{EventClasses F} `{BaseMethods F}.

(** [DribbleEvent.__eq__] *)
Definition __eq__ (self : DribbleEvent.t F) (other : pyobject F) : bool :=
  match other with
  | ADribbleEvent other =>
      let result :=
        [super_eq self other;
         py_eq (DribbleEvent.player_id self) (DribbleEvent.player_id other);
         py_eq (DribbleEvent.related_event_id self) (DribbleEvent.related_event_id other);
         if negb (pd_isnull (DribbleEvent.duel_type self))
         then py_eq (DribbleEvent.duel_type self) (DribbleEvent.duel_type other)
         else pd_isnull (DribbleEvent.duel_type other);
         py_eq (DribbleEvent.outcome self) (DribbleEvent.outcome other);
         Bool.eqb (DribbleEvent.has_opponent self) (DribbleEvent.has_opponent other)] in
      forallb (fun b => b) result
  | _ => false
  end.

(** [DribbleEvent.df_attributes] *)
Definition df_attributes : list string :=
  base_df_attributes
  ++ ["player_id"; "related_event_id"; "duel_type"; "outcome"; "has_opponent"].

(** [DribbleEvent.copy] *)
Definition copy (self : DribbleEvent.t F) : result (DribbleEvent.t F) :=
  new_DribbleEvent
    {| DribbleEvent.base :=
         {| event_id := event_id (DribbleEvent.base self);
            period_id := period_id (DribbleEvent.base self);
            minutes := minutes (DribbleEvent.base self);
            seconds := seconds (DribbleEvent.base self);
            datetime := datetime (DribbleEvent.base self);
            start_x := start_x (DribbleEvent.base self);
            start_y := start_y (DribbleEvent.base self);
            pitch_size := pitch_size (DribbleEvent.base self);
            team_side := team_side (DribbleEvent.base self);
            _xt := _xt (DribbleEvent.base self);
            team_id := team_id (DribbleEvent.base self) |};
       DribbleEvent.player_id := DribbleEvent.player_id self;
       DribbleEvent.related_event_id := DribbleEvent.related_event_id self;
       DribbleEvent.duel_type := DribbleEvent.duel_type self;
       DribbleEvent.outcome := DribbleEvent.outcome self;
       DribbleEvent.has_opponent := DribbleEvent.has_opponent self |}.

End Methods.

End DribbleMethods.

Section DribbleFields.

Context {F : Type} `{PyFloat F}.

(** [None], a [bool], an [int] or a [str]: what the type checks let through. *)
Definition plain (v : pyval F) : Prop :=
  match v with
  | PNone | PBool _ | PInt _ | PStr _ => True
  | _ => False
  end.

(** The comparison of the two duel types in [__eq__]. *)
Definition same_duel_type (a b : pyval F) : bool :=
  if negb (pd_isnull a) then py_eq a b else pd_isnull b.

End DribbleFields.

(** ** Concrete instances for the examples

    The theorems below hold for every instance of the interfaces.  The
    examples run the parser in double precision with these stand-ins for what
    lies outside the sources. *)
Module Demo.

Definition digit_of (c : ascii) : option Z :=
  let n := Z.of_nat (nat_of_ascii c) in
  if (48 <=? n) && (n <=? 57) then Some (n - 48) else None.

Fixpoint digits (s : string) (acc : Z) : option Z :=
  match s with
  | EmptyString => Some acc
  | String c r => match digit_of c with
                  | Some d => digits r (10 * acc + d)
                  | None => None
                  end
  end.

Definition to_int (v : pyval float) : Z :=
  match v with
  | PInt z => z
  | PStr (String c r) => match digits (String c r) 0 with
                         | Some z => z
                         | None => -999
                         end
  | _ => -999
  end.

Definition to_float (v : pyval float) : float :=
  match v with
  | PFloat f => f
  | PInt z => Binary64.of_Z z
  | _ => nan
  end.

(** The floor of the exact quotient of two finite doubles. *)
Definition floordiv (x y : float) : float :=
  match Prim2SF x, Prim2SF y with
  | S754_zero _, S754_finite _ _ _ => 0%float
  | S754_finite sx mx ex, S754_finite sy my ey =>
      let e := Z.min ex ey in
      let X := (if sx then Z.neg mx else Z.pos mx) * 2 ^ (ex - e) in
      let Y := (if sy then Z.neg my else Z.pos my) * 2 ^ (ey - e) in
      Binary64.of_Z (X / Y)
  | _, _ => nan
  end.

Definition modulo (x y : float) : float :=
  PrimFloat.sub x (PrimFloat.mul y (floordiv x y)).

#[export] Instance imports : Imports float := {
  MISSING_INT := -999;
  _to_int := to_int;
  _to_float := to_float;
  float_floordiv := floordiv;
  float_mod := modulo;
  np_nan := nan
}.

(** The constructors accept every event. *)
#[export] Instance event_classes : EventClasses float := {
  base_post_init := fun _ => OK tt;
  shot_post_init := fun _ => OK tt;
  pass_post_init := fun _ => OK tt
}.

(** A double rounded to the nearest integer, ties to even. *)
Definition round_half_even (x : float) : result Z :=
  match Prim2SF x with
  | S754_zero _ => OK 0
  | S754_finite s m e =>
      let v := if s then Z.neg m else Z.pos m in
      if 0 <=? e then OK (v * 2 ^ e)
      else
        let d := 2 ^ (- e) in
        let q := v / d in
        let r := v mod d in
        OK (if 2 * r <? d then q
            else if d <? 2 * r then q + 1
            else if Z.even q then q else q + 1)
  | S754_infinity _ => Raise (ValueError "cannot convert float infinity to integer")
  | S754_nan => Raise (ValueError "cannot convert float NaN to integer")
  end.

(** The rows of a frame, for [apply(axis=1)]. *)
Fixpoint rows_of (n : nat) (event_data : table float) : list (series float) :=
  match n with
  | O => []
  | S n' =>
      rows_of n' event_data
      ++ [map (fun kc => (fst kc, nth n' (snd kc) PNone)) event_data]
  end.

Definition height (event_data : table float) : nat :=
  match event_data with
  | [] => O
  | (_, cells) :: _ => List.length cells
  end.

Definition metadata : Metadata.t float :=
  {| Metadata.pitch_dimensions := (105%float, 68%float);
     Metadata.periods_frames :=
       [ {| Metadata.period_id := 1;
            Metadata.start_frame := 100;
            Metadata.start_datetime_ed := PTimestamp 1550719807000000000 |};
         {| Metadata.period_id := 2;
            Metadata.start_frame := 70000;
            Metadata.start_datetime_ed := PTimestamp 1550723407000000000 |} ];
     Metadata.frame_rate := 25;
     Metadata.home_team_id := PStr "FIFATMA";
     Metadata.away_team_id := PStr "FIFATMB" |}.

#[export] Instance collaborators : Collaborators float := {
  path_exists := fun p => String.eqb p "events.json" || String.eqb p "metadata.xml";
  td_channels := unit;
  _get_metadata := fun _ => OK metadata;
  _get_td_channels := fun _ _ => OK tt;
  _update_metadata := fun _ m => OK m;
  _normalize_playing_direction_events := fun event_data _ _ => OK event_data;
  to_datetime_utc := fun v => match v with
                              | PTimestamp ns => OK ns
                              | _ => Raise (TypeError "not a timestamp")
                              end;
  timedelta_milliseconds := fun ms => round_half_even (PrimFloat.mul ms 1000);
  apply_rows := fun A f event_data => mapM f (rows_of (height event_data) event_data)
}.

(** One record of the vendor's event list. *)
Definition record (index : Z) (name team : string) (frame : Z) (x y : float)
    (to subtypes : pyval float) : pyval float :=
  PDict [("index", PInt index);
         ("team", PDict [("id", PStr team)]);
         ("type", PDict [("id", PInt 1); ("name", PStr name)]);
         ("subtypes", subtypes);
         ("start", PDict [("frame", PInt frame); ("time", PInt 75);
                          ("x", PFloat x); ("y", PFloat y)]);
         ("end", PDict [("frame", PInt (frame + 20)); ("time", PInt 76);
                        ("x", PNone); ("y", PNone)]);
         ("period", PInt 1);
         ("from", PDict [("id", PStr "P12"); ("name", PStr "Ann")]);
         ("to", to)].

Definition goal_subtypes : pyval float :=
  PList [PDict [("id", PInt 3); ("name", PStr "ON TARGET")];
         PDict [("id", PInt 4); ("name", PStr "GOAL")]].

(** A pass of team A, a lost ball of team A, a goal of team B and a carry of
    team B at the end of the stream. *)
Definition events : list (pyval float) :=
  [record 1 "PASS" "FIFATMA" 125 0.5 0.25 (PDict [("id", PStr "P7"); ("name", PStr "Bob")]) PNone;
   record 2 "BALL LOST" "FIFATMA" 150 0.625 0.5 PNone PNone;
   record 3 "SHOT" "FIFATMB" 175 0.875 0.5 PNone goal_subtypes;
   record 4 "CARRY" "FIFATMB" 200 0.25 0.75 PNone PNone].

Definition events_dict : pyval float := PDict [("data", PList events)].

(** The lost ball with a null [period], after the pass. *)
Definition null_period_record : pyval float :=
  match nth 1 events PNone with
  | PDict d => PDict (dict_set "period" PNone d)
  | v => v
  end.

Definition null_period_dict : pyval float :=
  PDict [("data", PList [nth 0 events PNone; null_period_record])].

(** The file system holds the two files of the examples, and the parser
    knows the text of the event file. *)
#[export] Instance text_library : TextLibrary float := {
  read_file := fun path =>
    if String.eqb path "events.json" then OK "{events}"
    else Raise (FileNotFoundError path);
  strip := fun s => s;
  soup_json_loads := fun text =>
    if String.eqb text "{events}" then OK events_dict
    else Raise (ValueError "Expecting value")
}.

(** The table the extractor returns for them. *)
Definition event_table : table float :=
  Eval vm_compute in
    match events_table events_dict with
    | OK t => t
    | Raise _ => []
    end.

(** What the loader returns for the two files. *)
Definition loaded : table float * Metadata.t float * databallpy_events float :=
  Eval vm_compute in
    match load_metrica_event_data (LocStr "events.json") "metadata.xml" with
    | OK r => r
    | Raise _ =>
        ([], metadata,
         {| shot_events := []; pass_events := []; dribble_events := [] |})
    end.

(** The rows of the loaded table: the shot and the carry at the end. *)
Definition shot_row : series float :=
  Eval vm_compute in nth 2 (rows_of 4 (fst (fst loaded))) [].

Definition dribble_row : series float :=
  Eval vm_compute in nth 3 (rows_of 4 (fst (fst loaded))) [].

(** The stream of the examples without its first record. *)
Definition later_events_dict : pyval float := PDict [("data", PList (tl events))].

(** The table of the stream with the null [period]. *)
Definition null_period_table : table float :=
  Eval vm_compute in
    match events_table null_period_dict with
    | OK t => t
    | Raise _ => []
    end.

Definition later_table : table float :=
  Eval vm_compute in
    match events_table later_events_dict with
    | OK t => t
    | Raise _ => []
    end.

(** A pass without a sender. *)
Definition anonymous_pass : pyval float :=
  PDict [("index", PInt 5);
         ("team", PDict [("id", PStr "FIFATMA")]);
         ("type", PDict [("id", PInt 1); ("name", PStr "PASS")]);
         ("subtypes", PNone);
         ("start", PDict [("frame", PInt 225); ("time", PInt 75);
                          ("x", PFloat 0.5%float); ("y", PFloat 0.5%float)]);
         ("end", PDict [("frame", PInt 245); ("time", PInt 76);
                        ("x", PNone); ("y", PNone)]);
         ("period", PInt 1);
         ("from", PNone);
         ("to", PNone)].

(** A shot without the key for its sub-types. *)
Definition bare_shot : pyval float :=
  PDict [("index", PInt 5);
         ("team", PDict [("id", PStr "FIFATMA")]);
         ("type", PDict [("id", PInt 2); ("name", PStr "SHOT")]);
         ("start", PDict [("frame", PInt 225); ("time", PInt 75);
                          ("x", PFloat 0.5%float); ("y", PFloat 0.5%float)]);
         ("end", PDict [("frame", PInt 245); ("time", PInt 76);
                        ("x", PNone); ("y", PNone)]);
         ("period", PInt 1);
         ("from", PDict [("id", PStr "P12"); ("name", PStr "Ann")]);
         ("to", PNone)].

(** The fields of the lost ball of the examples. *)
Definition lost_ball_fields : pydict (pyval float) :=
  match nth 1 events PNone with
  | PDict d => d
  | _ => []
  end.

(** Metadata that knows the second half only. *)
Definition late_metadata : Metadata.t float :=
  {| Metadata.pitch_dimensions := (105%float, 68%float);
     Metadata.periods_frames :=
       [ {| Metadata.period_id := 2;
            Metadata.start_frame := 70000;
            Metadata.start_datetime_ed := PTimestamp 1550723407000000000 |} ];
     Metadata.frame_rate := 25;
     Metadata.home_team_id := PStr "FIFATMA";
     Metadata.away_team_id := PStr "FIFATMB" |}.

Definition late_collaborators : Collaborators float :=
  {| path_exists := fun p => String.eqb p "events.json" || String.eqb p "metadata.xml";
     td_channels := unit;
     _get_metadata := fun _ => OK late_metadata;
     _get_td_channels := fun _ _ => OK tt;
     _update_metadata := fun _ m => OK m;
     _normalize_playing_direction_events := fun event_data _ _ => OK event_data;
     to_datetime_utc := fun v => match v with
                                 | PTimestamp ns => OK ns
                                 | _ => Raise (TypeError "not a timestamp")
                                 end;
     timedelta_milliseconds := fun ms => round_half_even (PrimFloat.mul ms 1000);
     apply_rows := fun A f event_data => mapM f (rows_of (height event_data) event_data) |}.

(** The two downloads answer with an error page. *)
#[export] Instance network : Network := {
  requests_get_text := fun _ => OK "404: Not Found"
}.

(** The table of a stream that ends with its only pass, as the loader hands
    it to the builders. *)
Definition lone_pass_table : table float :=
  Eval vm_compute in
    match (t <- events_table (PDict [("data", PList (firstn 1 events))]) ;;
           t <- rescale_locations metadata t ;;
           add_datetime metadata t) with
    | OK t => t
    | Raise _ => []
    end.

(** The carry of the examples as a typed event, and the same with another
    player. *)
Definition carry_base : BaseOnBallEvent float :=
  {| event_id := PInt 4;
     period_id := PInt 1;
     minutes := PInt 1;
     seconds := PFloat 15%float;
     datetime := PTimestamp 1550719811000000000;
     start_x := PFloat (-26.25)%float;
     start_y := PFloat 17%float;
     team_id := PStr "FIFATMB";
     pitch_size := (105%float, 68%float);
     team_side := "away";
     _xt := (-1)%float |}.

Definition carry_event : DribbleEvent.t float :=
  {| DribbleEvent.base := carry_base;
     DribbleEvent.player_id := PInt 12;
     DribbleEvent.related_event_id := PInt (-999);
     DribbleEvent.duel_type := PNone;
     DribbleEvent.outcome := PBool true;
     DribbleEvent.has_opponent := false |}.

Definition other_carry : DribbleEvent.t float :=
  {| DribbleEvent.base := carry_base;
     DribbleEvent.player_id := PInt 7;
     DribbleEvent.related_event_id := PInt (-999);
     DribbleEvent.duel_type := PStr "offensive";
     DribbleEvent.outcome := PBool true;
     DribbleEvent.has_opponent := false |}.

(** The base class compares the event ids. *)
#[export] Instance base_methods : BaseMethods float := {
  super_eq := fun a b =>
    py_eq (event_id (DribbleEvent.base a)) (event_id (DribbleEvent.base b));
  base_df_attributes :=
    ["event_id"; "period_id"; "minutes"; "seconds"; "datetime"; "start_x";
     "start_y"; "team_id"; "team_side"; "pitch_size"; "xT"]
}.

End Demo.

(** * Properties *)

(** ** Dicts, lists and the error monad *)

Lemma bind_OK {A B : Type} (c : result A) (k : A -> result B) (b : B) :
  bind c k = OK b -> exists a, c = OK a /\ k a = OK b.
Proof. destruct c; simpl; intros E; [eauto | discriminate]. Qed.

Lemma dict_find_set {V : Type} (k k' : string) (v : V) (d : pydict V) :
  dict_find k (dict_set k' v d) = if String.eqb k k' then Some v else dict_find k d.
Proof.
  induction d as [|[k0 v0] d IH]; simpl.
  - destruct (String.eqb k k'); reflexivity.
  - destruct (String.eqb k' k0) eqn:E0; simpl.
    + apply String.eqb_eq in E0. subst k0.
      destruct (String.eqb k k'); reflexivity.
    + destruct (String.eqb k k0) eqn:E1.
      * apply String.eqb_eq in E1. subst k0.
        rewrite String.eqb_sym, E0. reflexivity.
      * exact IH.
Qed.

Lemma dict_find_del {V : Type} (k k' : string) (d : pydict V) :
  dict_find k' (dict_del k d) = if String.eqb k' k then None else dict_find k' d.
Proof.
  unfold dict_del. induction d as [|[k0 v0] d IH]; cbn [filter dict_find fst].
  - destruct (String.eqb k' k); reflexivity.
  - destruct (String.eqb k k0) eqn:E0; cbn [negb dict_find].
    + apply String.eqb_eq in E0. subst k0. rewrite IH.
      destruct (String.eqb k' k); reflexivity.
    + rewrite IH. destruct (String.eqb k' k0) eqn:E1; [|reflexivity].
      apply String.eqb_eq in E1. subst k0. rewrite String.eqb_sym, E0. reflexivity.
Qed.

Lemma dict_get_set {V : Type} (k k' : string) (v : V) (d : pydict V) :
  dict_get k (dict_set k' v d) = if String.eqb k k' then OK v else dict_get k d.
Proof.
  unfold dict_get. rewrite dict_find_set. destruct (String.eqb k k'); reflexivity.
Qed.

Lemma dict_get_set_same {V : Type} (k : string) (v : V) (d : pydict V) :
  dict_get k (dict_set k v d) = OK v.
Proof. rewrite dict_get_set, String.eqb_refl. reflexivity. Qed.

Lemma dict_get_set_other {V : Type} (k k' : string) (v : V) (d : pydict V) :
  String.eqb k k' = false -> dict_get k (dict_set k' v d) = dict_get k d.
Proof. intros E. rewrite dict_get_set, E. reflexivity. Qed.

Lemma dict_get_find {V : Type} (k : string) (d : pydict V) (v : V) :
  dict_get k d = OK v -> dict_find k d = Some v.
Proof.
  unfold dict_get. destruct (dict_find k d); intros E; [congruence | discriminate].
Qed.

Lemma dict_set_keys {V : Type} (k : string) (v : V) (d : pydict V) (names : list string) :
  map fst d = names -> existsb (String.eqb k) names = true ->
  map fst (dict_set k v d) = names.
Proof.
  intros <-. induction d as [|[k0 v0] d IH]; simpl; [discriminate|].
  destruct (String.eqb k k0); simpl; intros E; [reflexivity|].
  rewrite (IH E). reflexivity.
Qed.

Lemma list_last_snoc {A : Type} (l : list A) (a : A) : list_last (l ++ [a]) = OK a.
Proof. unfold list_last. rewrite rev_unit. reflexivity. Qed.

Lemma set_last_snoc {A : Type} (l : list A) (a b : A) :
  set_last b (l ++ [a]) = OK (l ++ [b]).
Proof. unfold set_last. rewrite rev_unit, rev_involutive. reflexivity. Qed.

Lemma snoc_case {A : Type} (l : list A) :
  l = [] \/ exists l0 a, l = l0 ++ [a].
Proof.
  destruct l as [|a rest]; [left; reflexivity | right].
  destruct (exists_last (l := a :: rest)) as (l' & b & E); [discriminate|].
  eauto.
Qed.

Lemma mapM_nth {A B : Type} (f : A -> result B) (l : list A) :
  forall l' i a, mapM f l = OK l' -> nth_error l i = Some a ->
                 exists b, f a = OK b /\ nth_error l' i = Some b.
Proof.
  induction l as [|x l IH]; intros l' i a Hm Hn.
  - destruct i; discriminate.
  - cbn [mapM] in Hm. apply bind_OK in Hm. destruct Hm as (b & Hb & Hm).
    apply bind_OK in Hm. destruct Hm as (bs & Hbs & Hm). injection Hm as <-.
    destruct i as [|i]; simpl in Hn.
    + injection Hn as <-. exists b. split; [exact Hb | reflexivity].
    + exact (IH _ _ _ Hbs Hn).
Qed.

Lemma mapM_length {A B : Type} (f : A -> result B) (l : list A) :
  forall l', mapM f l = OK l' -> List.length l' = List.length l.
Proof.
  induction l as [|x l IH]; intros l' Hm.
  - injection Hm as <-. reflexivity.
  - cbn [mapM] in Hm. apply bind_OK in Hm. destruct Hm as (b & Hb & Hm).
    apply bind_OK in Hm. destruct Hm as (bs & Hbs & Hm). injection Hm as <-.
    simpl. rewrite (IH _ Hbs). reflexivity.
Qed.

(** Stepping through a chain of binds that is known to succeed. *)
Ltac dict_norm :=
  repeat (rewrite dict_get_set; cbn [String.eqb Ascii.eqb Bool.eqb andb]).

Ltac dict_norm_in X :=
  repeat (rewrite dict_get_set in X; cbn [String.eqb Ascii.eqb Bool.eqb andb] in X).

Ltac use_column X :=
  match goal with
  | Hc : dict_get ?k ?d = OK _ |- _ => rewrite Hc in X
  end.

Ltac use_column_goal :=
  match goal with
  | Hc : dict_get ?k ?d = OK _ |- _ => rewrite Hc
  end.

Ltac head_of c :=
  lazymatch c with
  | bind ?c' _ => head_of c'
  | _ => c
  end.

Ltac step X :=
  lazymatch type of X with
  | bind _ _ = OK _ =>
      lazymatch type of X with
      | ?lhs = _ =>
          let h := head_of lhs in
          lazymatch h with
          | OK _ => progress cbn [bind] in X
          | Raise _ => discriminate X
          | (if ?b then _ else _) => let E := fresh "E" in destruct b eqn:E
          | dict_get _ _ => progress (dict_norm_in X; try use_column X)
          | match ?t with PNone => _ | _ => _ end => fail
          | _ =>
              let a := fresh "a" in
              let E := fresh "E" in
              destruct h as [a|] eqn:E;
              [cbn [bind] in X | cbn [bind] in X; discriminate X]
          end
      end
  end.

(** Replaying the lookups that succeeded. *)
Ltac replay :=
  repeat (cbn [bind];
          try match goal with
              | E : _ = OK _ |- _ => rewrite E
              | E : _ = true |- _ => rewrite E
              | E : _ = false |- _ => rewrite E
              end).

(** Running a chain of binds whose lookups are known to succeed. *)
Ltac forward :=
  cbn [bind];
  lazymatch goal with
  | |- succeeds ?c =>
      let h := head_of c in
      lazymatch h with
      | dict_get _ (dict_set _ _ _) =>
          first [rewrite dict_get_set_same
                | rewrite dict_get_set_other by reflexivity]
      | _ => match goal with
             | E : ?c' = OK _ |- _ => constr_eq c' h; rewrite E
             end
      end
  end.

Ltac forwards := repeat forward; cbn [bind].

(** The stored form of the columns that are named in the hypotheses. *)
Ltac unstored :=
  repeat match goal with
         | X : context [stored ?c ?l] |- _ =>
             first [change (stored c l) with l in X
                   | change (stored c l) with (sanitize_array l) in X]
         end.

(** ** The loop of the extractor computes the rows of its records *)

Section ExtractorLoop.

Context {F : Type} `{PyFloat F} `{Imports F}.

Lemma resolve_before_snoc (rows : list (event_row F)) r after :
  resolve_before (rows ++ [r]) after
  = resolve_before rows (Some r) ++ [settled r after].
Proof.
  induction rows as [|r0 rest IH]; simpl; [reflexivity|].
  rewrite IH. destruct rest; reflexivity.
Qed.

Lemma resolve_snoc (rows : list (event_row F)) r :
  resolve (rows ++ [r]) = resolve_before rows (Some r) ++ [r_outcome r].
Proof. unfold resolve. rewrite resolve_before_snoc. reflexivity. Qed.

Lemma flag_after_snoc (rows : list (event_row F)) r :
  flag_after (rows ++ [r]) = pending r.
Proof. unfold flag_after. rewrite rev_unit. reflexivity. Qed.

Lemma outcome_unsettled (rows : list (event_row F)) r :
  flag_after rows = false -> resolve_before rows (Some r) = resolve rows.
Proof.
  intros Hf. destruct (snoc_case rows) as [->|(rows0 & r0 & ->)]; [reflexivity|].
  rewrite flag_after_snoc in Hf. unfold resolve.
  rewrite !resolve_before_snoc. unfold settled. rewrite Hf. reflexivity.
Qed.

Lemma possession_lost_spec (d : table F) event name team rows0 r0 :
  dict_get "team_id" d = OK (map r_team_id (rows0 ++ [r0])) ->
  getitem2 event "team" "id" = OK team ->
  possession_lost d event name
  = OK ((in_list name out_of_possession_events && py_eq (r_team_id r0) team)
        || (in_list name in_possession_events && negb (py_eq (r_team_id r0) team))).
Proof.
  intros Hd Ht. unfold possession_lost, same_team_as_last.
  rewrite Hd. cbn [bind]. rewrite map_app. cbn [map].
  rewrite list_last_snoc. cbn [bind]. rewrite Ht. cbn [bind].
  destruct (in_list name out_of_possession_events);
    destruct (in_list name in_possession_events);
    destruct (py_eq (r_team_id r0) team); reflexivity.
Qed.

Lemma outcome_settled (rows : list (event_row F)) r (d : table F) event lost
    (cells : list (pyval F)) :
  flag_after rows = true ->
  dict_get "team_id" d = OK (map r_team_id rows) ->
  getitem2 event "team" "id" = OK (r_team_id r) ->
  possession_lost d event (r_metrica_event r) = OK lost ->
  set_last (PInt (if lost then 0 else 1)) (map PInt (resolve rows)) = OK cells ->
  cells = map PInt (resolve_before rows (Some r)).
Proof.
  intros Hf Hd Ht Hl Hs.
  destruct (snoc_case rows) as [->|(rows0 & r0 & ->)]; [discriminate Hf|].
  rewrite flag_after_snoc in Hf.
  rewrite (possession_lost_spec _ _ _ _ _ _ Hd Ht) in Hl. injection Hl as <-.
  unfold resolve in Hs. rewrite resolve_before_snoc, map_app in Hs.
  cbn [map] in Hs. rewrite set_last_snoc in Hs. injection Hs as <-.
  rewrite resolve_before_snoc, map_app. unfold settled, lost_to.
  rewrite Hf. reflexivity.
Qed.

(** The two appends for the receiving player, whatever [event["to"]] is. *)
Lemma to_block (d d' : table F) (to : pyval F) c1 c2 :
  dict_get "to_player_id" d = OK c1 ->
  dict_get "to_player_name" d = OK c2 ->
  match to with
  | PNone =>
      result_dict <- append "to_player_id" (PInt MISSING_INT) d ;;
      append "to_player_name" PNone result_dict
  | _ =>
      to_id <- getitem to "id" ;;
      to_id <- slice_from_1 to_id ;;
      result_dict <- append "to_player_id" (PInt (_to_int to_id)) d ;;
      to_name <- getitem to "name" ;;
      append "to_player_name" to_name result_dict
  end = OK d' ->
  exists id name,
    to_cells to = OK (id, name)
    /\ d' = dict_set "to_player_name" (c2 ++ [name])
              (dict_set "to_player_id" (c1 ++ [PInt id]) d).
Proof.
  intros H1' H2' Hb. unfold append, to_cells in *.
  destruct to; repeat step Hb; injection Hb as <-;
    do 2 eexists; (split; [|reflexivity]); replay; reflexivity.
Qed.

Lemma columns_hold_empty : columns_hold (F := F) [] empty_result_dict.
Proof.
  split; [reflexivity|]. split; [|reflexivity].
  unfold plain_columns. repeat constructor.
Qed.

(** One iteration keeps the invariant, and reads what [row_of_event] reads. *)
Lemma process_event_rows rows d flag event d' flag' :
  columns_hold rows d -> flag = flag_after rows ->
  process_event (d, flag) event = OK (d', flag') ->
  exists r, row_of_event event = OK r /\ columns_hold (rows ++ [r]) d'
            /\ flag' = flag_after (rows ++ [r]).
Proof.
  intros (Hkeys & Hcols & Hout) Hflag Hstep.
  unfold plain_columns in Hcols.
  repeat match goal with
  | X : Forall _ (_ :: _) |- _ => inversion X; clear X; subst
  | X : Forall _ [] |- _ => clear X
  end.
  cbn [fst snd] in *.
  unfold process_event, append in Hstep.
  repeat step Hstep.
  all: match type of Hstep with
       | bind ?c _ = _ =>
           let t := fresh "t" in
           destruct c as [t|] eqn:Eto; [cbn [bind] in Hstep | discriminate]
       end.
  all: eapply to_block in Eto; [ | dict_norm; eassumption | dict_norm; eassumption ].
  all: destruct Eto as (id & nm & Ecells & ->).
  all: repeat step Hstep.
  all: injection Hstep as <- <-.
  all: eexists; split; [ unfold row_of_event, event_name; replay; reflexivity | ].
  all: split; [ | rewrite flag_after_snoc; reflexivity ].
  all: split;
    [ repeat (apply dict_set_keys; [ | reflexivity ]); exact Hkeys | ].
  all: split;
    [ unfold plain_columns; repeat constructor; cbn [fst snd]; dict_norm;
      try use_column_goal; rewrite map_app; reflexivity | ].
  all: dict_norm; try use_column_goal; rewrite resolve_snoc, map_app;
    cbn [map r_outcome].
  all: match goal with
       | Hf : flag_after _ = false |- _ =>
           rewrite (outcome_unsettled _ _ Hf); reflexivity
       | Hf : flag_after ?rs = true,
         Hl : possession_lost ?D ?ev _ = OK ?l,
         Hs : set_last _ _ = OK ?c,
         Ht : getitem2 ?ev "team" "id" = OK _
         |- context [resolve_before ?rs (Some ?r)] =>
           assert (Hc : c = map PInt (resolve_before rs (Some r)))
             by (apply (outcome_settled rs r D ev l c Hf);
                 [dict_norm; assumption | exact Ht | exact Hl | exact Hs]);
           rewrite <- Hc; reflexivity
       end.
Qed.

Lemma for_each_rows events : forall rows (d : table F) flag d' flag',
  columns_hold rows d -> flag = flag_after rows ->
  for_each process_event (d, flag) events = OK (d', flag') ->
  exists rows', mapM row_of_event events = OK rows'
                /\ columns_hold (rows ++ rows') d'.
Proof.
  induction events as [|event events IH]; intros rows d flag d' flag' Hc Hf Hl.
  - injection Hl as <- <-. exists []. rewrite app_nil_r.
    split; [reflexivity | exact Hc].
  - cbn [for_each] in Hl. apply bind_OK in Hl. destruct Hl as ([d1 f1] & Hs & Hl).
    destruct (process_event_rows _ _ _ _ _ _ Hc Hf Hs) as (r & Hr & Hc1 & Hf1).
    destruct (IH _ _ _ _ _ Hc1 Hf1 Hl) as (rows' & Hm & Hc').
    exists (r :: rows'). cbn [mapM]. rewrite Hr, Hm. cbn [bind].
    rewrite <- app_assoc in Hc'. split; [reflexivity | exact Hc'].
Qed.

End ExtractorLoop.

(** ** The table [_get_event_data] returns *)

Section ExtractorTable.

Context {F : Type} `{PyFloat F} `{Imports F}.

Lemma pd_DataFrame_OK (d d' : table F) :
  pd_DataFrame d = OK d' -> d' = map (fun kc => (fst kc, sanitize_array (snd kc))) d.
Proof.
  unfold pd_DataFrame. destruct d as [|[k c] d]; [intros E; injection E as <-; reflexivity|].
  destruct (forallb _ _); [congruence | discriminate].
Qed.

(** A column of the frame is the typed column of the list. *)
Lemma dict_get_sanitized (k : string) (d : table F) :
  dict_get k (map (fun kc => (fst kc, sanitize_array (snd kc))) d)
  = (cells <- dict_get k d ;; OK (sanitize_array cells)).
Proof.
  unfold dict_get. induction d as [|[k0 c0] d IH]; [reflexivity|].
  cbn [map dict_find fst snd]. destruct (String.eqb k k0); [reflexivity | exact IH].
Qed.

Lemma sanitized_keys (d : table F) :
  map fst (map (fun kc => (fst kc, sanitize_array (snd kc))) d) = map fst d.
Proof. rewrite map_map. reflexivity. Qed.

Lemma existsb_map_false {A B : Type} (p : B -> bool) (g : A -> B) (l : list A) :
  (forall a, p (g a) = false) -> existsb p (map g l) = false.
Proof.
  intros Hp. induction l as [|a l IH]; [reflexivity|].
  cbn [map existsb]. rewrite Hp, IH. reflexivity.
Qed.

(** Typing leaves a list alone when [float64] would store its values as they
    are: a list of [float]s, a list of strings. *)
Lemma sanitize_fixed (cells : list (pyval F)) :
  (forall c, In c cells -> to_float64 c = c) -> sanitize_array cells = cells.
Proof.
  intros Hfix. unfold sanitize_array. destruct (column_dtype cells); try reflexivity.
  induction cells as [|c cells IH]; [reflexivity|].
  cbn [map]. rewrite (Hfix c (or_introl eq_refl)), IH; [reflexivity|].
  intros c' Hin. apply Hfix. right. exact Hin.
Qed.

Lemma sanitize_map_float {A : Type} (g : A -> F) (l : list A) :
  sanitize_array (map (fun a => PFloat (g a)) l) = map (fun a => PFloat (g a)) l.
Proof.
  apply sanitize_fixed. intros c Hin. apply in_map_iff in Hin.
  destruct Hin as (a & <- & _). reflexivity.
Qed.

Lemma sanitize_map_str {A : Type} (g : A -> string) (l : list A) :
  sanitize_array (map (fun a => PStr (g a)) l) = map (fun a => PStr (g a)) l.
Proof.
  apply sanitize_fixed. intros c Hin. apply in_map_iff in Hin.
  destruct Hin as (a & <- & _). reflexivity.
Qed.

(** A list of [int]s is never a [float64] column. *)
Lemma sanitize_map_int {A : Type} (g : A -> Z) (l : list A) :
  sanitize_array (map (fun a => PInt (g a)) l) = map (fun a => PInt (g a)) l.
Proof.
  unfold sanitize_array, column_dtype.
  destruct (map (fun a => PInt (g a)) l) as [|c cells] eqn:El; [reflexivity|].
  rewrite <- El.
  rewrite !existsb_map_false by reflexivity.
  destruct (beyond_64_bits _); reflexivity.
Qed.

(** Only a list with a number becomes a [float64] column. *)
Lemma float64_has_number (cells : list (pyval F)) :
  column_dtype cells = DFloat64 -> existsb is_number cells = true.
Proof.
  unfold column_dtype. destruct cells as [|c cells]; [discriminate|].
  destruct (existsb is_object _); [discriminate|].
  destruct (existsb is_bool _); [destruct (forallb is_bool _); discriminate|].
  destruct (beyond_64_bits _); [discriminate|].
  destruct (existsb pd_isnull _).
  - destruct (existsb is_number _); [reflexivity | discriminate].
  - destruct (existsb is_float (c :: cells)) eqn:Ef; [|discriminate]. intros _.
    apply existsb_exists in Ef. destruct Ef as (x & Hin & Hx).
    apply existsb_exists. exists x. split; [exact Hin|].
    destruct x; try discriminate Hx; reflexivity.
Qed.

Lemma sanitize_length (cells : list (pyval F)) :
  List.length (sanitize_array cells) = List.length cells.
Proof.
  unfold sanitize_array. destruct (column_dtype cells); try reflexivity.
  apply length_map.
Qed.

(** A cell of a typed column is the cell of the list, or its [float64]
    form. *)
Lemma sanitize_nth (cells : list (pyval F)) i :
  nth_error (sanitize_array cells) i
  = match column_dtype cells with
    | DFloat64 => option_map to_float64 (nth_error cells i)
    | _ => nth_error cells i
    end.
Proof.
  unfold sanitize_array. destruct (column_dtype cells); try reflexivity.
  apply nth_error_map.
Qed.

(** The returned table holds the rows of the records, in their order. *)
Lemma events_table_iter (doc : pyval F) (tbl : table F) :
  events_table doc = OK tbl ->
  exists events rows,
    (data <- getitem doc "data" ;; py_iter data) = OK events
    /\ mapM row_of_event events = OK rows /\ table_holds rows tbl.
Proof.
  intros Ht. unfold events_table in Ht.
  apply bind_OK in Ht. destruct Ht as (data & Hdata & Ht).
  apply bind_OK in Ht. destruct Ht as (events & Hiter & Ht).
  apply bind_OK in Ht. destruct Ht as ([d flag] & Hloop & Ht).
  destruct (for_each_rows _ _ _ _ _ _ columns_hold_empty eq_refl Hloop)
    as (rows & Hrows & Hkeys & Hcols & Hout).
  cbn [app fst] in *. exists events, rows.
  split; [rewrite Hdata; exact Hiter|]. split; [exact Hrows|].
  apply bind_OK in Ht. destruct Ht as (ids & Hids & Ht).
  apply bind_OK in Ht. destruct Ht as (frame & Hframe & Ht).
  apply pd_DataFrame_OK in Hframe. subst frame.
  unfold plain_columns in Hcols.
  repeat match goal with
  | X : Forall _ (_ :: _) |- _ => inversion X; clear X; subst
  | X : Forall _ [] |- _ => clear X
  end.
  cbn [fst snd] in *.
  rewrite dict_get_sanitized in Ht.
  repeat step Ht. rewrite sanitize_map_str in Ht. injection Ht as <-.
  split; [split; [|split] | ].
  - apply dict_set_keys; [ | reflexivity ]. rewrite sanitized_keys.
    apply dict_set_keys; [ | reflexivity ]. exact Hkeys.
  - unfold plain_columns.
    repeat constructor; cbn [fst snd]; dict_norm; rewrite dict_get_sanitized;
      dict_norm; use_column_goal; cbn [bind];
      rewrite ?sanitize_map_int, ?sanitize_map_float, ?sanitize_map_str;
      reflexivity.
  - dict_norm. rewrite dict_get_sanitized. dict_norm. rewrite Hout. cbn [bind].
    rewrite (sanitize_map_int (fun z => z)). reflexivity.
  - dict_norm. rewrite map_map. reflexivity.
Qed.

Lemma events_table_rows (doc : pyval F) events (tbl : table F) :
  getitem doc "data" = OK (PList events) ->
  events_table doc = OK tbl ->
  exists rows, mapM row_of_event events = OK rows /\ table_holds rows tbl.
Proof.
  intros Hdata Ht.
  destruct (events_table_iter _ _ Ht) as (events' & rows & Hiter & Hrows & Hholds).
  rewrite Hdata in Hiter. cbn [bind py_iter] in Hiter. injection Hiter as <-.
  exists rows. split; assumption.
Qed.

Lemma resolve_before_nth (rows : list (event_row F)) :
  forall after i r,
    nth_error rows i = Some r ->
    nth_error (resolve_before rows after) i
    = Some (settled r (match nth_error rows (S i) with
                       | Some n => Some n
                       | None => after
                       end)).
Proof.
  induction rows as [|r0 rest IH]; intros after i r Hn.
  - destruct i; discriminate.
  - destruct i as [|i]; simpl in Hn.
    + injection Hn as <-. simpl. destruct rest; reflexivity.
    + cbn [resolve_before nth_error]. rewrite (IH after i r Hn).
      destruct rest; reflexivity.
Qed.

(** A column of the frame, as it is stored. *)
Lemma cell_stored (rows : list (event_row F)) (tbl : table F) col f i :
  frame_holds rows tbl -> In (col, f) plain_columns ->
  cell tbl col i = nth_error (stored col (map f rows)) i.
Proof.
  intros (_ & Hcols & _) Hin.
  rewrite Forall_forall in Hcols. specialize (Hcols _ Hin). cbn [fst snd] in Hcols.
  unfold cell. rewrite (dict_get_find _ _ _ Hcols). reflexivity.
Qed.

(** The cell of a column of converted values. *)
Lemma cell_plain (rows : list (event_row F)) (tbl : table F) col f i r :
  frame_holds rows tbl -> In (col, f) plain_columns ->
  in_list col raw_columns = false ->
  nth_error rows i = Some r -> cell tbl col i = Some (f r).
Proof.
  intros Hholds Hin Hraw Hn.
  rewrite (cell_stored _ _ _ _ i Hholds Hin). unfold stored. rewrite Hraw.
  apply map_nth_error. exact Hn.
Qed.

(** The cell of a column of the record's own values: the value, or its
    [float64] form when the column is a [float64] column. *)
Lemma cell_raw (rows : list (event_row F)) (tbl : table F) col f i r :
  frame_holds rows tbl -> In (col, f) plain_columns ->
  in_list col raw_columns = true ->
  nth_error rows i = Some r ->
  cell tbl col i = Some (match column_dtype (map f rows) with
                         | DFloat64 => to_float64 (f r)
                         | _ => f r
                         end).
Proof.
  intros Hholds Hin Hraw Hn.
  rewrite (cell_stored _ _ _ _ i Hholds Hin). unfold stored. rewrite Hraw.
  rewrite sanitize_nth, (map_nth_error f i rows Hn).
  destruct (column_dtype (map f rows)); reflexivity.
Qed.

(** The cell of the outcome column, during the loop and in the frame. *)
Lemma outcome_cell (rows : list (event_row F)) (tbl : table F) i r :
  dict_get "outcome" tbl = OK (map PInt (resolve rows)) ->
  nth_error rows i = Some r ->
  cell tbl "outcome" i = Some (PInt (settled r (nth_error rows (S i)))).
Proof.
  intros Hout Hn.
  unfold cell. rewrite (dict_get_find _ _ _ Hout).
  erewrite map_nth_error; [reflexivity|].
  unfold resolve. rewrite (resolve_before_nth rows None i r Hn).
  destruct (nth_error rows (S i)); reflexivity.
Qed.

Lemma cell_outcome (rows : list (event_row F)) (tbl : table F) i r :
  frame_holds rows tbl -> nth_error rows i = Some r ->
  cell tbl "outcome" i = Some (PInt (settled r (nth_error rows (S i)))).
Proof. intros (_ & _ & Hout). exact (outcome_cell _ _ _ _ Hout). Qed.

(** The cell of the canonical event name. *)
Lemma cell_databallpy_event (rows : list (event_row F)) (tbl : table F) i r :
  table_holds rows tbl -> nth_error rows i = Some r ->
  cell tbl "databallpy_event" i = Some (map_event (PStr (r_metrica_event r))).
Proof.
  intros [_ Hev] Hn. unfold cell. rewrite (dict_get_find _ _ _ Hev).
  exact (map_nth_error (fun r => map_event (PStr (r_metrica_event r))) i rows Hn).
Qed.

(** What a row holds is what its record holds at the keys. *)
Lemma row_of_event_reads (event : pyval F) (r : event_row F) :
  row_of_event event = OK r -> row_reads event r.
Proof.
  intros Hr. unfold row_reads. unfold row_of_event in Hr.
  repeat step Hr; injection Hr as <-; cbn [r_event_id r_type_id r_metrica_event
    r_period_id r_minutes r_seconds r_player_id r_player_name r_team_id r_outcome
    r_start_x r_start_y r_to_player_id r_to_player_name r_end_x r_end_y r_td_frame];
    unfold event_team;
    match goal with E : to_cells _ = OK ?p |- _ => destruct p end;
    match goal with E : (_ =? "shot")%string = _ |- _ => rewrite E end;
    repeat split; eauto 10.
Qed.

Lemma goal_among_spec (subs : list (pyval F)) (o : Z) :
  goal_among subs = OK o -> o = if existsb is_goal subs then 1 else 0.
Proof.
  induction subs as [|sub rest IH]; cbn [goal_among existsb]; intros Hg.
  - injection Hg as <-. reflexivity.
  - apply bind_OK in Hg. destruct Hg as (name & Hname & Hg).
    unfold is_goal at 1. rewrite Hname.
    destruct (py_eq name (PStr "GOAL")); cbn [orb].
    + injection Hg as <-. reflexivity.
    + exact (IH Hg).
Qed.

(** The shot outcome is 1 exactly when a sub-type is the goal marker. *)
Lemma shot_outcome_spec (event : pyval F) (o : Z) :
  shot_outcome event = OK o ->
  exists subtypes, getitem event "subtypes" = OK subtypes
                   /\ o = if has_goal subtypes then 1 else 0.
Proof.
  unfold shot_outcome. intros Hs. apply bind_OK in Hs.
  destruct Hs as (subtypes & Hsub & Hs). exists subtypes. split; [exact Hsub|].
  destruct subtypes;
    try (apply bind_OK in Hs; destruct Hs as (name & Hname & Hs);
         injection Hs as <-; unfold has_goal, is_goal; rewrite Hname; reflexivity).
  exact (goal_among_spec _ _ Hs).
Qed.

(** On well-formed sub-types the shot outcome is computed. *)
Lemma shot_outcome_total (event subtypes : pyval F) :
  getitem event "subtypes" = OK subtypes ->
  well_formed_subtypes subtypes = true ->
  shot_outcome event = OK (if has_goal subtypes then 1 else 0).
Proof.
  intros Hsub Hwf. unfold shot_outcome. rewrite Hsub. cbn [bind].
  assert (Hone : forall sub, named sub = true ->
            (name <- getitem sub "name" ;; OK (if py_eq name (PStr "GOAL") then 1 else 0))
            = OK (if is_goal sub then 1 else 0)).
  { intros sub Hn. unfold named in Hn. unfold is_goal.
    destruct (getitem sub "name"); [reflexivity | discriminate]. }
  destruct subtypes; try (exact (Hone _ Hwf)).
  cbn [well_formed_subtypes has_goal] in *. clear Hsub.
  induction l as [|sub rest IH]; [reflexivity|].
  cbn [forallb] in Hwf. apply andb_prop in Hwf. destruct Hwf as [Hn Hrest].
  cbn [goal_among existsb]. unfold named in Hn. unfold is_goal at 1.
  destruct (getitem sub "name") as [name|]; [|discriminate]. cbn [bind].
  destruct (py_eq name (PStr "GOAL")); [reflexivity | exact (IH Hrest)].
Qed.

Lemma map_event_canonical (label : string) :
  map_event (F := F) (PStr label) = canonical label.
Proof.
  unfold map_event, canonical, metrica_databallpy_map. cbn [dict_find].
  destruct (String.eqb label "pass"); [reflexivity|].
  destruct (String.eqb label "carry"); [reflexivity|].
  destruct (String.eqb label "shot"); reflexivity.
Qed.

End ExtractorTable.

(** ** Every stream of readable records is turned into a table *)

Lemma for_each_app {S A : Type} (body : S -> A -> result S) (l1 l2 : list A) :
  forall s, for_each body s (l1 ++ l2) = (s' <- for_each body s l1 ;; for_each body s' l2).
Proof.
  induction l1 as [|a l1 IH]; intros s; cbn [app for_each bind]; [reflexivity|].
  destruct (body s a) as [s'|]; [|reflexivity]. cbn [bind]. apply IH.
Qed.

(** Stepping through a chain of binds that is known to raise. *)
Ltac step_err X :=
  lazymatch type of X with
  | ?lhs = Raise _ =>
      let h := head_of lhs in
      lazymatch h with
      | OK _ => progress cbn [bind] in X
      | Raise _ => fail
      | (if ?b then _ else _) => let E := fresh "E" in destruct b eqn:E
      | dict_get _ _ => progress (dict_norm_in X; try use_column X)
      | match ?t with PNone => _ | _ => _ end => fail
      | _ => let a := fresh "a" in let E := fresh "E" in
             destruct h as [a|] eqn:E; cbn [bind] in X
      end
  end.

(** Replaying the reads up to the one that raised. *)
Ltac forward_err :=
  cbn [bind];
  lazymatch goal with
  | |- ?c = Raise _ =>
      let h := head_of c in
      lazymatch h with
      | (if ?b then _ else _) => match goal with E : b = _ |- _ => rewrite E end
      | _ => match goal with E : ?c' = _ |- _ => constr_eq c' h; rewrite E end
      end
  end.

(** Running a chain of binds up to the read that raises. *)
Ltac forward_to_error :=
  cbn [bind];
  lazymatch goal with
  | |- ?c = Raise _ =>
      let h := head_of c in
      lazymatch h with
      | dict_get _ (dict_set _ _ _) =>
          first [rewrite dict_get_set_same
                | rewrite dict_get_set_other by reflexivity]
      | _ => match goal with
             | E : ?c' = _ |- _ => constr_eq c' h; rewrite E
             end
      end
  end.

Section ExtractorTotal.

Context {F : Type} `{PyFloat F} `{Imports F}.

Lemma process_event_succeeds rows (d : table F) event r :
  columns_hold rows d -> row_of_event event = OK r ->
  succeeds (process_event (d, flag_after rows) event).
Proof.
  intros (Hkeys & Hcols & Hout) Hr.
  unfold plain_columns in Hcols.
  repeat match goal with
  | X : Forall _ (_ :: _) |- _ => inversion X; clear X; subst
  | X : Forall _ [] |- _ => clear X
  end.
  cbn [fst snd] in *.
  destruct (row_of_event_reads _ _ Hr)
    as (E1 & E2 & E3 & E4 & (time & mins & secs & E5 & E5a & _ & E5b & _)
        & (id & tail & E6 & E6a & _) & E7 & E8 & E9 & (x & E10 & _) & (y & E11 & _)
        & (to & E12 & E12a) & (ex & E13 & _) & (ey & E14 & _) & E15).
  unfold event_name in E3. apply bind_OK in E3. destruct E3 as (name & E3 & E3a).
  unfold event_team in E9. clear Hr Hkeys.
  unfold process_event, append.
  forwards.
  destruct (flag_after rows) eqn:Hf.
  1: destruct (snoc_case rows) as [->|(rows0 & r0 & ->)]; [discriminate Hf|].
  1: erewrite possession_lost_spec;
     [ | repeat rewrite dict_get_set_other by reflexivity; eassumption | eassumption ];
     forwards; rewrite resolve_snoc, map_app; cbn [map]; rewrite set_last_snoc.
  all: destruct (r_metrica_event r =? "shot")%string eqn:Es.
  all: forwards.
  all: destruct to; unfold to_cells in E12a;
    try (cbn [getitem bind] in E12a; discriminate E12a);
    repeat step E12a; clear E12a.
  all: forwards.
  all: eexists; reflexivity.
Qed.

Lemma for_each_succeeds events : forall rows (d : table F) rows',
  columns_hold rows d -> mapM row_of_event events = OK rows' ->
  succeeds (for_each process_event (d, flag_after rows) events).
Proof.
  induction events as [|event events IH]; intros rows d rows' Hc Hm.
  - eexists. reflexivity.
  - cbn [mapM] in Hm. apply bind_OK in Hm. destruct Hm as (r & Hr & Hm).
    apply bind_OK in Hm. destruct Hm as (rs & Hrs & _).
    destruct (process_event_succeeds _ _ _ _ Hc Hr) as ([d1 f1] & Hs).
    destruct (process_event_rows _ _ _ _ _ _ Hc eq_refl Hs) as (r' & _ & Hc1 & ->).
    cbn [for_each]. rewrite Hs. cbn [bind]. exact (IH _ _ _ Hc1 Hrs).
Qed.

Lemma resolve_before_length (rows : list (event_row F)) after :
  List.length (resolve_before rows after) = List.length rows.
Proof.
  induction rows as [|r rest IH]; [reflexivity|].
  cbn [resolve_before List.length]. rewrite IH. reflexivity.
Qed.

(** The columns of the rows of a stream have one length: the frame is built. *)
Lemma pd_DataFrame_succeeds rows (d : table F) cells :
  columns_hold rows d -> List.length cells = List.length rows ->
  succeeds (pd_DataFrame (dict_set "databallpy_event" cells d)).
Proof.
  intros (Hkeys & Hcols & Hout) Hlen.
  unfold plain_columns in Hcols.
  repeat match goal with
  | X : Forall _ (_ :: _) |- _ => inversion X; clear X; subst
  | X : Forall _ [] |- _ => clear X
  end.
  cbn [fst snd] in *.
  unfold empty_result_dict in Hkeys. cbn [map fst] in Hkeys.
  repeat match goal with
  | Hk : map fst ?d = _ :: _ |- _ =>
      destruct d as [|[? ?] ?]; [discriminate Hk|];
      cbn [map fst] in Hk; injection Hk as -> Hk
  | Hk : map fst ?d = [] |- _ => destruct d; [clear Hk | discriminate Hk]
  end.
  repeat match goal with
  | X : dict_get _ _ = OK _ |- _ => simpl in X; injection X as ->
  end.
  unfold pd_DataFrame.
  cbn [dict_set String.eqb Ascii.eqb Bool.eqb andb forallb snd].
  rewrite !length_map. unfold resolve.
  rewrite resolve_before_length, Hlen, Nat.eqb_refl. cbn [andb].
  eexists. reflexivity.
Qed.

(** A stream whose records can all be read is turned into a table. *)
Lemma events_table_succeeds (doc : pyval F) events rows :
  getitem doc "data" = OK (PList events) ->
  mapM row_of_event events = OK rows ->
  exists tbl, events_table doc = OK tbl.
Proof.
  intros Hdata Hrows.
  destruct (for_each_succeeds events [] empty_result_dict rows columns_hold_empty Hrows)
    as ([d flag] & Hloop).
  destruct (for_each_rows _ _ _ _ _ _ columns_hold_empty eq_refl Hloop)
    as (rows' & Hrows' & Hc).
  rewrite Hrows in Hrows'. injection Hrows' as <-. cbn [app] in Hc.
  unfold events_table. rewrite Hdata. cbn [bind py_iter].
  change (flag_after []) with false in Hloop. rewrite Hloop. cbn [bind fst].
  pose proof Hc as (_ & Hcols & _).
  unfold plain_columns in Hcols. inversion Hcols as [|? ? Hid _]. cbn [fst snd] in Hid.
  rewrite Hid. cbn [bind].
  destruct (pd_DataFrame_succeeds rows d (repeat PNone (List.length (map r_event_id rows))) Hc)
    as (frame & Hframe); [rewrite repeat_length, length_map; reflexivity|].
  rewrite Hframe. cbn [bind].
  apply pd_DataFrame_OK in Hframe. subst frame.
  rewrite dict_get_sanitized, dict_get_set_other by reflexivity.
  match goal with X : Forall _ (_ :: _ :: _ :: _) |- _ => 
    inversion X as [|? ? _ X1]; inversion X1 as [|? ? _ X2]; inversion X2 as [|? ? Hm _] end.
  cbn [fst snd] in Hm. rewrite Hm. cbn [bind]. eexists. reflexivity.
Qed.

(** Together with [events_table_rows]: the table of a stream exists exactly
    when every record can be read, and then it holds the rows of the records. *)
Lemma events_table_of_rows (doc : pyval F) events rows :
  getitem doc "data" = OK (PList events) ->
  mapM row_of_event events = OK rows ->
  exists tbl, events_table doc = OK tbl /\ table_holds rows tbl.
Proof.
  intros Hdata Hrows.
  destruct (events_table_succeeds _ _ _ Hdata Hrows) as (tbl & Ht).
  exists tbl. split; [exact Ht|].
  destruct (events_table_rows _ _ _ Hdata Ht) as (rows' & Hrows' & Hholds).
  rewrite Hrows in Hrows'. injection Hrows' as <-. exact Hholds.
Qed.

Lemma for_each_state events : forall rows (d : table F) rows',
  columns_hold rows d -> mapM row_of_event events = OK rows' ->
  exists d', for_each process_event (d, flag_after rows) events
             = OK (d', flag_after (rows ++ rows'))
             /\ columns_hold (rows ++ rows') d'.
Proof.
  induction events as [|event events IH]; intros rows d rows' Hc Hm.
  - injection Hm as <-. rewrite app_nil_r. exists d. split; [reflexivity | exact Hc].
  - cbn [mapM] in Hm. apply bind_OK in Hm. destruct Hm as (r & Hr & Hm).
    apply bind_OK in Hm. destruct Hm as (rs & Hrs & Hm). injection Hm as <-.
    destruct (process_event_succeeds _ _ _ _ Hc Hr) as ([d1 f1] & Hs).
    destruct (process_event_rows _ _ _ _ _ _ Hc eq_refl Hs) as (r' & Hr' & Hc1 & ->).
    rewrite Hr in Hr'. injection Hr' as <-.
    destruct (IH _ _ _ Hc1 Hrs) as (d' & Hloop & Hc').
    exists d'. cbn [for_each]. rewrite Hs. cbn [bind].
    rewrite <- app_assoc in Hloop, Hc'. split; assumption.
Qed.

(** The error of an iteration is the error of the first read of the record
    that fails; the team of the record is also read ahead of its turn, when
    the pass or carry before it is settled. *)
Lemma possession_lost_raises (d : table F) event name rows0 r0 e :
  dict_get "team_id" d = OK (map r_team_id (rows0 ++ [r0])) ->
  possession_lost d event name = Raise e ->
  getitem2 event "team" "id" = Raise e.
Proof.
  intros Hd. unfold possession_lost, same_team_as_last.
  rewrite Hd. cbn [bind]. rewrite map_app. cbn [map].
  rewrite list_last_snoc. cbn [bind].
  destruct (getitem2 event "team" "id") as [team|e'];
    destruct (in_list name out_of_possession_events);
    destruct (in_list name in_possession_events); cbn [bind];
    try destruct (py_eq (r_team_id r0) team); cbn [bind negb];
    congruence.
Qed.

(** The block for the receiving player raises what [to_cells] raises. *)
Lemma to_block_raises (d : table F) (to : pyval F) c1 c2 e :
  dict_get "to_player_id" d = OK c1 ->
  dict_get "to_player_name" d = OK c2 ->
  match to with
  | PNone =>
      result_dict <- append "to_player_id" (PInt MISSING_INT) d ;;
      append "to_player_name" PNone result_dict
  | _ =>
      to_id <- getitem to "id" ;;
      to_id <- slice_from_1 to_id ;;
      result_dict <- append "to_player_id" (PInt (_to_int to_id)) d ;;
      to_name <- getitem to "name" ;;
      append "to_player_name" to_name result_dict
  end = Raise e ->
  to_cells to = Raise e.
Proof.
  intros H1' H2' Hb. unfold append, to_cells in *.
  destruct to; repeat step_err Hb; try discriminate Hb;
    cbn [bind] in Hb; injection Hb as <-; repeat forward_err; reflexivity.
Qed.

Lemma process_event_raises rows (d : table F) event e :
  columns_hold rows d ->
  process_event (d, flag_after rows) event = Raise e ->
  row_of_event event = Raise e \/ getitem2 event "team" "id" = Raise e.
Proof.
  intros (Hkeys & Hcols & Hout) X.
  unfold plain_columns in Hcols.
  repeat match goal with
  | X : Forall _ (_ :: _) |- _ => inversion X; clear X; subst
  | X : Forall _ [] |- _ => clear X
  end.
  cbn [fst snd] in *. clear Hkeys.
  unfold process_event, append in X.
  repeat step_err X.
  all: try match type of X with
           | bind ?c _ = _ =>
               lazymatch c with
               | match _ with PNone => _ | _ => _ end =>
                   let t := fresh "t" in
                   destruct c as [t|] eqn:Eto; cbn [bind] in X;
                   [ eapply to_block in Eto;
                     [ | dict_norm; eassumption | dict_norm; eassumption ];
                     destruct Eto as (id & nm & Ecells & ->)
                   | eapply to_block_raises in Eto;
                     [ | dict_norm; eassumption | dict_norm; eassumption ] ]
               end
           end.
  all: repeat step_err X.
  all: try discriminate X.
  all: cbn [bind] in X; injection X as <-.
  all: try (left; unfold row_of_event, event_name; repeat forward_err; reflexivity).
  all: destruct (snoc_case rows) as [->|(rows0 & r0 & ->)];
    [match goal with Hf : flag_after [] = true |- _ => discriminate Hf end|].
  all: try (right; eapply possession_lost_raises;
            [ | eassumption ]; repeat rewrite dict_get_set_other by reflexivity;
            eassumption).
  all: exfalso; rewrite resolve_snoc, map_app in *; cbn [map] in *;
    match goal with Hs : set_last _ _ = Raise _ |- _ =>
      rewrite set_last_snoc in Hs; discriminate Hs end.
Qed.

(** The reads of a record without one of its keys. *)
Lemma getitem_without (k' : string) rest (v : pyval F) k :
  getitem (without (k' :: rest) v) k
  = if String.eqb k k'
    then match rest with
         | [] => absent k (getitem v k)
         | _ => x <- getitem v k ;; OK (without rest x)
         end
    else getitem v k.
Proof.
  destruct v; try (destruct rest; destruct (String.eqb k k'); reflexivity).
  destruct rest as [|k2 rest].
  - cbn [without getitem]. unfold dict_get. rewrite dict_find_del.
    destruct (String.eqb k k') eqn:E; [|reflexivity].
    destruct (dict_find k d); reflexivity.
  - cbn [without]. destruct (dict_find k' d) as [x|] eqn:Ex.
    + cbn [getitem]. rewrite dict_get_set.
      destruct (String.eqb k k') eqn:E; [|reflexivity].
      apply String.eqb_eq in E. subst k'. unfold dict_get. rewrite Ex. reflexivity.
    + destruct (String.eqb k k') eqn:E; [|reflexivity].
      apply String.eqb_eq in E. subst k'. cbn [getitem]. unfold dict_get. rewrite Ex.
      reflexivity.
Qed.

Lemma getitem2_without_one (k' : string) (v : pyval F) k1 k2 :
  String.eqb k1 k' = false ->
  getitem2 (without [k'] v) k1 k2 = getitem2 v k1 k2.
Proof. intros E. unfold getitem2. rewrite getitem_without, E. reflexivity. Qed.

Lemma getitem2_without_two (k1' k2' : string) (v : pyval F) k1 k2 :
  getitem2 (without [k1'; k2'] v) k1 k2
  = if String.eqb k1 k1' && String.eqb k2 k2'
    then absent k2 (getitem2 v k1 k2)
    else getitem2 v k1 k2.
Proof.
  unfold getitem2. rewrite getitem_without.
  destruct (String.eqb k1 k1'); [|reflexivity]. cbn [andb].
  destruct (getitem v k1) as [x|]; cbn [bind]; [|destruct (String.eqb k2 k2'); reflexivity].
  rewrite getitem_without. destruct (String.eqb k2 k2'); reflexivity.
Qed.

Lemma shot_outcome_without k' rest (v : pyval F) :
  String.eqb "subtypes" k' = false ->
  shot_outcome (without (k' :: rest) v) = shot_outcome v.
Proof. intros E. unfold shot_outcome. rewrite getitem_without, E. reflexivity. Qed.

(** A readable record without one of its required keys: the read of the key
    raises its [KeyError], and the reads before it are as they were. *)
Lemma row_of_event_without (ev0 : pyval F) r0 path :
  row_of_event ev0 = OK r0 -> In path required_keys ->
  row_of_event (without path ev0) = Raise (KeyError (last path EmptyString))
  /\ (getitem2 (without path ev0) "team" "id" = getitem2 ev0 "team" "id"
      \/ getitem2 (without path ev0) "team" "id"
         = Raise (KeyError (last path EmptyString))).
Proof.
  intros Hr Hin.
  destruct (row_of_event_reads _ _ Hr)
    as (E1 & E2 & E3 & E4 & (time & mins & secs & E5 & E5a & _ & E5b & _)
        & (id & tail & E6 & E6a & _) & E7 & E8 & E9 & (x & E10 & _) & (y & E11 & _)
        & (to & E12 & E12a) & (ex & E13 & _) & (ey & E14 & _) & E15).
  unfold event_name in E3. apply bind_OK in E3. destruct E3 as (name & E3 & E3a).
  unfold event_team in E9.
  assert (E8' : (if String.eqb (r_metrica_event r0) "shot" then shot_outcome ev0
                 else OK MISSING_INT) = OK (r_outcome r0)).
  { destruct (String.eqb (r_metrica_event r0) "shot"); congruence. }
  clear E8 Hr.
  unfold required_keys in Hin. cbn [In] in Hin.
  repeat match goal with
         | X : _ \/ _ |- _ => destruct X as [<-|X]
         | X : False |- _ => destruct X
         end.
  all: split;
    [ unfold row_of_event, event_name
    | rewrite ?getitem2_without_two, ?getitem2_without_one by reflexivity;
      cbn [String.eqb Ascii.eqb Bool.eqb andb]; rewrite ?E9; cbn [absent last];
      (left; reflexivity) || (right; reflexivity) ].
  all: rewrite ?shot_outcome_without by reflexivity.
  all: rewrite ?getitem2_without_two, ?getitem2_without_one by reflexivity.
  all: rewrite ?getitem_without.
  all: cbn [String.eqb Ascii.eqb Bool.eqb andb].
  all: repeat progress
         (cbn [bind absent];
          rewrite ?E1, ?E2, ?E3, ?E3a, ?E4, ?E5, ?E5a, ?E5b, ?E6, ?E6a, ?E7, ?E8',
            ?E9, ?E10, ?E11, ?E12, ?E12a, ?E13, ?E14, ?E15).
  all: reflexivity.
Qed.

Lemma process_event_absent_key rows (d : table F) ev0 r0 path :
  columns_hold rows d -> row_of_event ev0 = OK r0 -> In path required_keys ->
  process_event (d, flag_after rows) (without path ev0)
  = Raise (KeyError (last path EmptyString)).
Proof.
  intros Hc Hr Hin.
  destruct (row_of_event_without _ _ _ Hr Hin) as (Hrow & Hteam).
  destruct (process_event (d, flag_after rows) (without path ev0)) as [[d' f']|e] eqn:Hs.
  - destruct (process_event_rows _ _ _ _ _ _ Hc eq_refl Hs) as (r & Hr' & _).
    rewrite Hrow in Hr'. discriminate Hr'.
  - destruct (process_event_raises _ _ _ _ Hc Hs) as [Hrow'|Hteam'].
    + rewrite Hrow in Hrow'. injection Hrow' as <-. reflexivity.
    + destruct Hteam as [Hteam|Hteam]; rewrite Hteam in Hteam'.
      * destruct (row_of_event_reads _ _ Hr)
          as (_ & _ & _ & _ & _ & _ & _ & _ & E9 & _).
        unfold event_team in E9. rewrite E9 in Hteam'. discriminate Hteam'.
      * injection Hteam' as <-. reflexivity.
Qed.

(** The first record that cannot be processed gives the error of the call. *)
Lemma events_table_first_error (doc : pyval F) pre event post rows e :
  getitem doc "data" = OK (PList (pre ++ event :: post)) ->
  mapM row_of_event pre = OK rows ->
  (forall d : table F,
      columns_hold rows d -> process_event (d, flag_after rows) event = Raise e) ->
  events_table doc = Raise e.
Proof.
  intros Hdata Hrows Hfail.
  destruct (for_each_state pre [] empty_result_dict rows columns_hold_empty Hrows)
    as (d & Hloop & Hc).
  cbn [app] in Hloop, Hc. change (flag_after []) with false in Hloop.
  unfold events_table. rewrite Hdata. cbn [bind py_iter].
  rewrite for_each_app, Hloop. cbn [bind for_each].
  rewrite (Hfail d Hc). reflexivity.
Qed.

End ExtractorTotal.

Import Demo.

(** ** Claims about the event extractor *)

Section ExtractorClaims.

Context {F : Type} `{PyFloat F} `{Imports F}.

(** The row of a record of a stream that was read. *)
Lemma row_at (doc : pyval F) events (tbl : table F) i event :
  getitem doc "data" = OK (PList events) ->
  events_table doc = OK tbl ->
  nth_error events i = Some event ->
  exists rows r, table_holds rows tbl /\ mapM row_of_event events = OK rows
                 /\ row_of_event event = OK r /\ nth_error rows i = Some r.
Proof.
  intros Hdata Ht Hn.
  destruct (events_table_rows _ _ _ Hdata Ht) as (rows & Hrows & Hholds).
  destruct (mapM_nth _ _ _ _ _ Hrows Hn) as (r & Hr & Hnr).
  exists rows, r. auto.
Qed.

(** C1: in the table [_get_event_data] returns, the outcome of a pass or a
    carry that is followed by another record is 0 exactly when that record is
    an out-of-possession event ('fault received', 'ball out', 'ball lost') of
    the same team or an in-possession event ('pass', 'carry', 'recovery',
    'shot') of another team, and 1 in every other case; in particular a pass
    followed by a 'ball lost' of the same team has outcome 0. *)
Theorem pass_carry_outcome_from_next_record
    (doc : pyval F) events (tbl : table F) i event next name team next_name next_team :
  getitem doc "data" = OK (PList events) ->
  events_table doc = OK tbl ->
  nth_error events i = Some event ->
  nth_error events (S i) = Some next ->
  event_name event = OK name -> event_team event = OK team ->
  event_name next = OK next_name -> event_team next = OK next_team ->
  in_list name ["pass"; "carry"] = true ->
  (ball_lost team next_name next_team = true ->
   cell tbl "outcome" i = Some (PInt 0))
  /\ (ball_lost team next_name next_team = false ->
      cell tbl "outcome" i = Some (PInt 1))
  /\ (name = "pass" -> next_name = "ball lost" -> py_eq team next_team = true ->
      cell tbl "outcome" i = Some (PInt 0)).
Proof.
  intros Hdata Ht Hn Hnext Hname Hteam Hnname Hnteam Hpc.
  destruct (row_at _ _ _ _ _ Hdata Ht Hn) as (rows & r & Hholds & Hrows & Hr & Hnr).
  destruct (mapM_nth _ _ _ _ _ Hrows Hnext) as (rn & Hrn & Hnrn).
  pose proof (cell_outcome _ _ _ _ (proj1 Hholds) Hnr) as Hcell.
  rewrite Hnrn in Hcell. cbn [settled] in Hcell.
  destruct (row_of_event_reads _ _ Hr) as (_ & _ & Hn1 & _ & _ & _ & _ & _ & Ht1 & _).
  destruct (row_of_event_reads _ _ Hrn) as (_ & _ & Hn2 & _ & _ & _ & _ & _ & Ht2 & _).
  rewrite Hname in Hn1. injection Hn1 as Hn1.
  rewrite Hteam in Ht1. injection Ht1 as Ht1.
  rewrite Hnname in Hn2. injection Hn2 as Hn2.
  rewrite Hnteam in Ht2. injection Ht2 as Ht2.
  assert (Hlost : lost_to r rn = ball_lost team next_name next_team)
    by (unfold lost_to, ball_lost; subst; reflexivity).
  unfold pending in Hcell. rewrite <- Hn1, Hpc, Hlost in Hcell.
  split; [|split].
  - intros Hb. rewrite Hb in Hcell. exact Hcell.
  - intros Hb. rewrite Hb in Hcell. exact Hcell.
  - intros -> -> Heq. unfold ball_lost in Hcell. rewrite Heq in Hcell. exact Hcell.
Qed.

(** C2: in the table [_get_event_data] returns, the outcome of a shot is 1 if
    some attached sub-type (of a list of sub-types, or the single sub-type)
    is named 'GOAL', and 0 otherwise. *)
Theorem shot_outcome_iff_goal (doc : pyval F) events (tbl : table F) i event :
  getitem doc "data" = OK (PList events) ->
  events_table doc = OK tbl ->
  nth_error events i = Some event ->
  event_name event = OK "shot" ->
  exists subtypes,
    getitem event "subtypes" = OK subtypes
    /\ cell tbl "outcome" i = Some (PInt (if has_goal subtypes then 1 else 0))
    /\ (cell tbl "outcome" i = Some (PInt 1) <-> has_goal subtypes = true).
Proof.
  intros Hdata Ht Hn Hname.
  destruct (row_at _ _ _ _ _ Hdata Ht Hn) as (rows & r & Hholds & Hrows & Hr & Hnr).
  pose proof (cell_outcome _ _ _ _ (proj1 Hholds) Hnr) as Hcell.
  destruct (row_of_event_reads _ _ Hr) as (_ & _ & Hn1 & _ & _ & _ & _ & Hout & _).
  rewrite Hname in Hn1. injection Hn1 as Hn1. rewrite <- Hn1 in Hout.
  cbn [String.eqb Ascii.eqb Bool.eqb andb] in Hout.
  destruct (shot_outcome_spec _ _ Hout) as (subtypes & Hsub & Ho).
  assert (Hs : settled r (nth_error rows (S i)) = r_outcome r).
  { unfold settled, pending. rewrite <- Hn1.
    destruct (nth_error rows (S i)); reflexivity. }
  rewrite Hs, Ho in Hcell.
  exists subtypes. split; [exact Hsub|]. split; [exact Hcell|].
  rewrite Hcell. destruct (has_goal subtypes); split; intros E;
    try reflexivity; discriminate.
Qed.

(** C6: for every record, the column [metrica_event] holds the vendor label
    in lower case and [databallpy_event] holds its image under the fixed
    table: 'pass' for 'pass', 'dribble' for 'carry', 'shot' for 'shot', and
    [None] for every other label. *)
Theorem canonical_event_name (doc : pyval F) events (tbl : table F) i event name :
  getitem doc "data" = OK (PList events) ->
  events_table doc = OK tbl ->
  nth_error events i = Some event ->
  event_name event = OK name ->
  cell tbl "metrica_event" i = Some (PStr name)
  /\ cell tbl "databallpy_event" i = Some (canonical name)
  /\ (name = "pass" -> cell tbl "databallpy_event" i = Some (PStr "pass"))
  /\ (name = "carry" -> cell tbl "databallpy_event" i = Some (PStr "dribble"))
  /\ (name = "shot" -> cell tbl "databallpy_event" i = Some (PStr "shot"))
  /\ (name <> "pass" -> name <> "carry" -> name <> "shot" ->
      cell tbl "databallpy_event" i = Some PNone).
Proof.
  intros Hdata Ht Hn Hname.
  destruct (row_at _ _ _ _ _ Hdata Ht Hn) as (rows & r & Hholds & Hrows & Hr & Hnr).
  destruct (row_of_event_reads _ _ Hr) as (_ & _ & Hn1 & _).
  rewrite Hname in Hn1. injection Hn1 as Hn1.
  pose proof (cell_databallpy_event _ _ _ _ Hholds Hnr) as Hc.
  rewrite map_event_canonical, <- Hn1 in Hc.
  assert (Hm : cell tbl "metrica_event" i = Some (PStr name)).
  { rewrite Hn1.
    apply (cell_plain rows tbl "metrica_event" (fun r => PStr (r_metrica_event r)));
      [exact (proj1 Hholds) | unfold plain_columns; simpl; tauto | reflexivity | exact Hnr]. }
  repeat split; try assumption.
  - intros ->. exact Hc.
  - intros ->. exact Hc.
  - intros ->. exact Hc.
  - intros H1 H2 H3. rewrite Hc. unfold canonical.
    apply String.eqb_neq in H1, H2, H3. rewrite H1, H2, H3. reflexivity.
Qed.

(** C9: when the very last record of the stream is a pass or a carry, its
    outcome in the returned table is still the sentinel [MISSING_INT]. *)
Theorem last_pass_or_carry_unresolved
    (doc : pyval F) events event (tbl : table F) name :
  getitem doc "data" = OK (PList (events ++ [event])) ->
  events_table doc = OK tbl ->
  event_name event = OK name ->
  in_list name ["pass"; "carry"] = true ->
  cell tbl "outcome" (List.length events) = Some (PInt MISSING_INT).
Proof.
  intros Hdata Ht Hname Hpc.
  assert (Hn : nth_error (events ++ [event]) (List.length events) = Some event).
  { rewrite nth_error_app2 by apply Nat.le_refl. rewrite Nat.sub_diag. reflexivity. }
  destruct (row_at _ _ _ _ _ Hdata Ht Hn) as (rows & r & Hholds & Hrows & Hr & Hnr).
  pose proof (cell_outcome _ _ _ _ (proj1 Hholds) Hnr) as Hcell.
  assert (Hlast : nth_error rows (S (List.length events)) = None).
  { apply nth_error_None. rewrite (mapM_length _ _ _ Hrows), length_app.
    simpl. lia. }
  rewrite Hlast in Hcell. cbn [settled] in Hcell.
  destruct (row_of_event_reads _ _ Hr) as (_ & _ & Hn1 & _ & _ & _ & _ & Hout & _).
  rewrite Hname in Hn1. injection Hn1 as Hn1. rewrite <- Hn1 in Hout.
  assert (Hshot : String.eqb name "shot" = false).
  { destruct (String.eqb name "shot") eqn:E; [|reflexivity].
    apply String.eqb_eq in E. rewrite E in Hpc. vm_compute in Hpc. discriminate Hpc. }
  rewrite Hshot in Hout. rewrite Hout in Hcell. exact Hcell.
Qed.

Lemma lookup_path_one (v : pyval F) k : lookup_path v [k] = getitem v k.
Proof. cbn [lookup_path]. destruct (getitem v k); reflexivity. Qed.

Lemma lookup_path_two (v : pyval F) k1 k2 :
  lookup_path v [k1; k2] = getitem2 v k1 k2.
Proof.
  cbn [lookup_path]. unfold getitem2. destruct (getitem v k1) as [x|]; [|reflexivity].
  cbn [bind]. destruct (getitem x k2); reflexivity.
Qed.

(** A record that was read has every required key. *)
Lemma row_reads_required (event : pyval F) (r : event_row F) path :
  row_reads event r -> In path required_keys ->
  exists v, lookup_path event path = OK v.
Proof.
  intros (H1 & H2 & H3 & H4 & (t & m & s & H5 & _) & (id & tl & H6 & _) & H7 & _
          & H9 & (x & H10 & _) & (y & H11 & _) & (to & H12 & _)
          & (ex & H13 & _) & (ey & H14 & _) & H15) Hin.
  unfold event_name in H3. apply bind_OK in H3. destruct H3 as (nm & H3 & _).
  unfold event_team in H9.
  unfold required_keys in Hin. cbn [In] in Hin.
  repeat match goal with
         | X : _ \/ _ |- _ => destruct X as [<-|X]
         | X : False |- _ => destruct X
         end;
    rewrite ?lookup_path_one, ?lookup_path_two; eauto.
Qed.

(** A stream is the records before one of its records, the record, and the
    records after it. *)
Lemma nth_error_firstn_skipn {A : Type} (l : list A) i a :
  nth_error l i = Some a -> l = firstn i l ++ a :: skipn (S i) l.
Proof.
  revert i. induction l as [|x l IH]; intros [|i] Hn; try discriminate Hn.
  - injection Hn as <-. reflexivity.
  - cbn [nth_error] in Hn. cbn [firstn skipn app]. f_equal. exact (IH i Hn).
Qed.


End ExtractorClaims.

Lemma pass_carry_outcome_witness :
  events_table Demo.events_dict = OK Demo.event_table
  /\ cell Demo.event_table "outcome" 0 = Some (PInt 0).
Proof.
  split; [vm_compute; reflexivity|].
  refine (proj1 (pass_carry_outcome_from_next_record
                   Demo.events_dict Demo.events Demo.event_table 0 _ _
                   "pass" (PStr "FIFATMA") "ball lost" (PStr "FIFATMA")
                   eq_refl _ eq_refl eq_refl _ _ _ _ _) _);
    vm_compute; reflexivity.
Defined.

Lemma shot_outcome_witness :
  events_table Demo.events_dict = OK Demo.event_table
  /\ exists subtypes,
       getitem (Demo.record 3 "SHOT" "FIFATMB" 175 0.875 0.5 PNone Demo.goal_subtypes)
         "subtypes" = OK subtypes
       /\ cell Demo.event_table "outcome" 2
          = Some (PInt (if has_goal subtypes then 1 else 0))
       /\ (cell Demo.event_table "outcome" 2 = Some (PInt 1)
           <-> has_goal subtypes = true).
Proof.
  split; [vm_compute; reflexivity|].
  apply (shot_outcome_iff_goal Demo.events_dict Demo.events Demo.event_table 2);
    vm_compute; reflexivity.
Defined.

Lemma canonical_event_name_witness :
  events_table Demo.events_dict = OK Demo.event_table
  /\ cell Demo.event_table "metrica_event" 3 = Some (PStr "carry")
  /\ cell Demo.event_table "databallpy_event" 3 = Some (PStr "dribble").
Proof.
  split; [vm_compute; reflexivity|].
  destruct (canonical_event_name Demo.events_dict Demo.events Demo.event_table 3
              (nth 3 Demo.events PNone) "carry")
    as (W1 & _ & _ & W2 & _); try (vm_compute; reflexivity).
  split; [exact W1 | exact (W2 eq_refl)].
Defined.

Lemma last_pass_or_carry_witness :
  events_table Demo.events_dict = OK Demo.event_table
  /\ cell Demo.event_table "outcome" 3 = Some (PInt (-999)).
Proof.
  split; [vm_compute; reflexivity|].
  change (cell Demo.event_table "outcome" (List.length (firstn 3 Demo.events))
          = Some (PInt MISSING_INT)).
  apply (last_pass_or_carry_unresolved Demo.events_dict (firstn 3 Demo.events)
           (nth 3 Demo.events PNone) Demo.event_table "carry");
    vm_compute; reflexivity.
Defined.



(** ** Claims about the loader *)

Section LoaderClaims.

Context {F : Type} `{PyFloat F} `{Imports F} `{TextLibrary F}
        `{EventClasses F} `{Collaborators F}.

(** The steps a successful call went through. *)
Lemma load_pipeline event_data_loc metadata_loc (event_data : table F) metadata events :
  load_metrica_event_data event_data_loc metadata_loc
  = OK (event_data, metadata, events) ->
  exists metadata0 channels extracted rescaled dated,
    check_locations event_data_loc metadata_loc = OK tt
    /\ _get_metadata metadata_loc = OK metadata0
    /\ _get_td_channels metadata_loc metadata0 = OK channels
    /\ _update_metadata channels metadata0 = OK metadata
    /\ _get_event_data event_data_loc = OK extracted
    /\ rescale_locations metadata extracted = OK rescaled
    /\ add_datetime metadata rescaled = OK dated
    /\ _normalize_playing_direction_events dated
         (Metadata.home_team_id metadata) (Metadata.away_team_id metadata)
       = OK event_data
    /\ _get_databallpy_events event_data (Metadata.pitch_dimensions metadata)
         (Metadata.home_team_id metadata) = OK events.
Proof.
  unfold load_metrica_event_data. intros Hl.
  repeat (apply bind_OK in Hl; let x := fresh "x" in let E := fresh "E" in
                               destruct Hl as (x & E & Hl)).
  injection Hl as <- <- <-. destruct x.
  do 5 eexists. repeat split; eassumption.
Qed.

(** The table [_get_event_data] returns holds the rows of some records. *)
Lemma extracted_rows event_data_loc (tbl : table F) :
  _get_event_data event_data_loc = OK tbl ->
  exists rows, table_holds rows tbl.
Proof.
  unfold _get_event_data. intros Hg. apply bind_OK in Hg.
  destruct Hg as (doc & _ & Ht).
  destruct (events_table_iter _ _ Ht) as (events & rows & _ & _ & Hholds).
  exists rows. exact Hholds.
Qed.

Lemma mapM_rescale_cell (d : F) (f : event_row F -> F) rows :
  mapM (rescale_cell d) (map (fun r => PFloat (f r)) rows)
  = OK (map (fun r => PFloat (rescale (f r) d)) rows).
Proof.
  induction rows as [|r rows IH]; [reflexivity|].
  cbn [map mapM rescale_cell bind]. rewrite IH. reflexivity.
Qed.

(** On a table of the extractor the rescaling touches the four coordinate
    columns, and only them. *)
Lemma rescale_locations_spec (metadata : Metadata.t F) rows (tbl : table F) :
  frame_holds rows tbl ->
  filter (contains "_x") (map fst tbl) = ["start_x"; "end_x"]
  /\ filter (contains "_y") (map fst tbl) = ["start_y"; "end_y"]
  /\ rescale_locations metadata tbl
     = OK (dict_set "end_y"
             (map (fun r => PFloat (rescale (r_end_y r)
                                      (snd (Metadata.pitch_dimensions metadata)))) rows)
          (dict_set "start_y"
             (map (fun r => PFloat (rescale (r_start_y r)
                                      (snd (Metadata.pitch_dimensions metadata)))) rows)
          (dict_set "end_x"
             (map (fun r => PFloat (rescale (r_end_x r)
                                      (fst (Metadata.pitch_dimensions metadata)))) rows)
          (dict_set "start_x"
             (map (fun r => PFloat (rescale (r_start_x r)
                                      (fst (Metadata.pitch_dimensions metadata)))) rows)
             tbl)))).
Proof.
  intros (Hkeys & Hcols & _).
  unfold plain_columns in Hcols.
  repeat match goal with
  | X : Forall _ (_ :: _) |- _ => inversion X; clear X; subst
  | X : Forall _ [] |- _ => clear X
  end.
  cbn [fst snd] in *. unstored.
  assert (Hx : filter (contains "_x") (map fst (empty_result_dict (F := F)))
               = ["start_x"; "end_x"]) by reflexivity.
  assert (Hy : filter (contains "_y") (map fst (empty_result_dict (F := F)))
               = ["start_y"; "end_y"]) by reflexivity.
  rewrite Hkeys. split; [exact Hx|]. split; [exact Hy|].
  unfold rescale_locations, rescale_columns.
  rewrite Hkeys, Hx. cbn [for_each bind].
  repeat (dict_norm; try use_column_goal; cbn [bind];
          rewrite ?mapM_rescale_cell; cbn [bind]).
  rewrite (dict_set_keys "end_x" _ _ _
             (dict_set_keys "start_x" _ _ _ Hkeys eq_refl) eq_refl).
  rewrite Hy. cbn [for_each bind].
  repeat (dict_norm; try use_column_goal; cbn [bind];
          rewrite ?mapM_rescale_cell; cbn [bind]).
  reflexivity.
Qed.

Lemma cell_set (d : table F) k cells col i :
  cell (dict_set k cells d) col i
  = if String.eqb col k then nth_error cells i else cell d col i.
Proof.
  unfold cell. rewrite dict_find_set. destruct (String.eqb col k); reflexivity.
Qed.

Lemma cell_of_column (d : table F) col cells i :
  dict_get col d = OK cells -> cell d col i = nth_error cells i.
Proof. intros Hd. unfold cell. rewrite (dict_get_find _ _ _ Hd). reflexivity. Qed.

(** Without rounding the rescaling is affine and has an inverse. *)
Lemma rescale_exact_inverse (v d : Q) :
  ~ (d == 0)%Q -> ((rescale v d + d / 2) / d == v)%Q.
Proof.
  intros Hd. unfold rescale. cbn [fsub fmul fdiv of_int exactQ]. field. exact Hd.
Qed.

Lemma rescale_exact_affine (v w t d : Q) :
  (rescale (t * v + (1 - t) * w) d == t * rescale v d + (1 - t) * rescale w d)%Q.
Proof. unfold rescale. cbn [fsub fmul fdiv of_int exactQ]. field. Qed.

(** C3 (amended): the loader replaces each value [v] of the columns whose
    name contains "_x" (start_x, end_x) by [v * length - length / 2.0] and of
    the columns whose name contains "_y" (start_y, end_y) by
    [v * width - width / 2.0], in the arithmetic of the floats, and leaves
    the other columns as they are; read over the rationals, without rounding,
    this map is affine and for every nonzero dimension it has the inverse
    [w |-> (w + dimension / 2) / dimension]. *)
Theorem rescale_replaces_coordinates
    event_data_loc metadata_loc (event_data : table F) metadata events :
  load_metrica_event_data event_data_loc metadata_loc
  = OK (event_data, metadata, events) ->
  exists extracted rescaled,
    _get_event_data event_data_loc = OK extracted
    /\ rescale_locations metadata extracted = OK rescaled
    /\ filter (contains "_x") (map fst extracted) = ["start_x"; "end_x"]
    /\ filter (contains "_y") (map fst extracted) = ["start_y"; "end_y"]
    /\ (forall col i c,
           In col ["start_x"; "end_x"] -> cell extracted col i = Some c ->
           exists v, c = PFloat v
                     /\ cell rescaled col i
                        = Some (PFloat (rescale v (fst (Metadata.pitch_dimensions metadata)))))
    /\ (forall col i c,
           In col ["start_y"; "end_y"] -> cell extracted col i = Some c ->
           exists v, c = PFloat v
                     /\ cell rescaled col i
                        = Some (PFloat (rescale v (snd (Metadata.pitch_dimensions metadata)))))
    /\ (forall col i,
           ~ In col ["start_x"; "end_x"; "start_y"; "end_y"] ->
           cell rescaled col i = cell extracted col i)
    /\ (forall v d : Q, ~ (d == 0)%Q -> ((rescale v d + d / 2) / d == v)%Q)
    /\ (forall v w t d : Q,
           (rescale (t * v + (1 - t) * w) d
            == t * rescale v d + (1 - t) * rescale w d)%Q).
Proof.
  intros Hload.
  destruct (load_pipeline _ _ _ _ _ Hload)
    as (md0 & ch & extracted & rescaled & dated & _ & _ & _ & _ & Hget & Hres & _).
  destruct (extracted_rows _ _ Hget) as (rows & Hholds & _).
  destruct (rescale_locations_spec metadata rows extracted Hholds) as (Hx & Hy & Hspec).
  rewrite Hspec in Hres. injection Hres as <-.
  destruct Hholds as (Hkeys & Hcols & _).
  unfold plain_columns in Hcols.
  repeat match goal with
  | X : Forall _ (_ :: _) |- _ => inversion X; clear X; subst
  | X : Forall _ [] |- _ => clear X
  end.
  cbn [fst snd] in *. unstored.
  exists extracted. eexists. split; [exact Hget|]. split; [exact Hspec|].
  split; [exact Hx|]. split; [exact Hy|].
  split; [|split; [|split; [|split]]].
  - intros col i c [<-|[<-|[]]] Hc; rewrite !cell_set;
      cbn [String.eqb Ascii.eqb Bool.eqb andb];
      erewrite cell_of_column in Hc by eassumption;
      rewrite nth_error_map in Hc;
      (destruct (nth_error rows i) as [r|] eqn:Er; [|discriminate]);
      injection Hc as <-; eexists; (split; [reflexivity|]);
      rewrite nth_error_map, Er; reflexivity.
  - intros col i c [<-|[<-|[]]] Hc; rewrite !cell_set;
      cbn [String.eqb Ascii.eqb Bool.eqb andb];
      erewrite cell_of_column in Hc by eassumption;
      rewrite nth_error_map in Hc;
      (destruct (nth_error rows i) as [r|] eqn:Er; [|discriminate]);
      injection Hc as <-; eexists; (split; [reflexivity|]);
      rewrite nth_error_map, Er; reflexivity.
  - intros col i Hnot. cbn [In] in Hnot. rewrite !cell_set.
    destruct (String.eqb col "end_y") eqn:E1;
      [apply String.eqb_eq in E1; subst; tauto|].
    destruct (String.eqb col "start_y") eqn:E2;
      [apply String.eqb_eq in E2; subst; tauto|].
    destruct (String.eqb col "end_x") eqn:E3;
      [apply String.eqb_eq in E3; subst; tauto|].
    destruct (String.eqb col "start_x") eqn:E4;
      [apply String.eqb_eq in E4; subst; tauto|].
    reflexivity.
  - exact rescale_exact_inverse.
  - exact rescale_exact_affine.
Qed.

(** [first_period] is the first row of [periods_frames] with period 1. *)
Lemma first_period_spec (metadata : Metadata.t F) p :
  first_period metadata = OK p ->
  exists before after,
    Metadata.periods_frames metadata = before ++ p :: after
    /\ Metadata.period_id p = 1
    /\ Forall (fun q => Metadata.period_id q <> 1) before.
Proof.
  unfold first_period. generalize (Metadata.periods_frames metadata) as l.
  induction l as [|q l IH]; cbn [filter]; [discriminate|].
  destruct (Metadata.period_id q =? 1) eqn:E.
  - intros Hp. injection Hp as <-. exists [], l. apply Z.eqb_eq in E.
    split; [reflexivity|]. split; [exact E | constructor].
  - intros Hp. destruct (IH Hp) as (before & after & -> & H1' & Hb).
    exists (q :: before), after. apply Z.eqb_neq in E.
    split; [reflexivity|]. split; [exact H1' | constructor; assumption].
Qed.

(** C5: for every event of the table, the loader sets [datetime] to the
    start datetime of the first period, read as UTC, plus the timedelta of
    [(td_frame - first_frame) / frame_rate * 1000] milliseconds, that is
    [(td_frame - first_frame) / frame_rate] seconds, where [first_frame] and
    the start datetime are taken from the first row of the metadata's period
    table whose period is 1. *)
Theorem datetime_from_first_period
    event_data_loc metadata_loc (event_data : table F) metadata events :
  load_metrica_event_data event_data_loc metadata_loc
  = OK (event_data, metadata, events) ->
  exists extracted rescaled dated p,
    _get_event_data event_data_loc = OK extracted
    /\ rescale_locations metadata extracted = OK rescaled
    /\ add_datetime metadata rescaled = OK dated
    /\ _normalize_playing_direction_events dated
         (Metadata.home_team_id metadata) (Metadata.away_team_id metadata)
       = OK event_data
    /\ (exists before after,
           Metadata.periods_frames metadata = before ++ p :: after
           /\ Metadata.period_id p = 1
           /\ Forall (fun q => Metadata.period_id q <> 1) before)
    /\ (forall i x,
           cell rescaled "td_frame" i = Some x ->
           exists ms td start,
             frame_offset_ms x (Metadata.start_frame p) (Metadata.frame_rate metadata)
             = OK ms
             /\ timedelta_milliseconds ms = OK td
             /\ to_datetime_utc (Metadata.start_datetime_ed p) = OK start
             /\ cell dated "datetime" i = Some (PTimestamp (start + 1000 * td)))
    /\ (forall i,
           cell rescaled "td_frame" i = None -> cell dated "datetime" i = None)
    /\ (forall z first_frame frame_rate,
           frame_offset_ms (PInt z) first_frame frame_rate
           = OK (fmul (fdiv (of_int (z - first_frame)) (of_int frame_rate))
                   (of_int 1000))).
Proof.
  intros Hload.
  destruct (load_pipeline _ _ _ _ _ Hload)
    as (md0 & ch & extracted & rescaled & dated
        & _ & _ & _ & _ & Hget & Hres & Hadd & Hnorm & _).
  pose proof Hadd as Hadd'. unfold add_datetime in Hadd'.
  apply bind_OK in Hadd'. destruct Hadd' as (first_frame & Hff & Hadd').
  apply bind_OK in Hff. destruct Hff as (p & Hp & Hff). injection Hff as <-.
  rewrite Hp in Hadd'. cbn [bind] in Hadd'.
  apply bind_OK in Hadd'. destruct Hadd' as (frames & Hframes & Hadd').
  apply bind_OK in Hadd'. destruct Hadd' as (deltas & Hdeltas & Hadd').
  apply bind_OK in Hadd'. destruct Hadd' as (datetimes & Hdt & Hadd').
  injection Hadd' as <-.
  exists extracted, rescaled. eexists. exists p.
  split; [exact Hget|]. split; [exact Hres|]. split; [exact Hadd|].
  split; [exact Hnorm|]. split; [exact (first_period_spec _ _ Hp)|].
  split; [|split; [|reflexivity]].
  - intros i x Hx. rewrite (cell_of_column _ _ _ _ Hframes) in Hx.
    destruct (mapM_nth _ _ _ _ _ Hdeltas Hx) as (td & Htd & Hntd).
    apply bind_OK in Htd. destruct Htd as (ms & Hms & Htd).
    destruct (mapM_nth _ _ _ _ _ Hdt Hntd) as (c & Hc & Hnc).
    apply bind_OK in Hc. destruct Hc as (start & Hstart & Hc). injection Hc as <-.
    exists ms, td, start. repeat split; try assumption.
    rewrite cell_set. cbn [String.eqb Ascii.eqb Bool.eqb andb]. exact Hnc.
  - intros i Hx. rewrite (cell_of_column _ _ _ _ Hframes) in Hx.
    rewrite cell_set. cbn [String.eqb Ascii.eqb Bool.eqb andb].
    apply nth_error_None. apply nth_error_None in Hx.
    rewrite (mapM_length _ _ _ Hdt), (mapM_length _ _ _ Hdeltas). exact Hx.
Qed.

(** C8 (amended): the loader fails fast on bad inputs.  Every
    [event_data_loc] that is not a [str], a file object such as
    [io.StringIO] included, raises a [TypeError]; a [str] without "{" that
    names no existing event file, or whose metadata file does not exist,
    raises a [FileNotFoundError] that names the path; a [str] with "{" (the
    event data in memory) passes the checks.  A failed check is the result of
    the call: nothing is retried, the call completes or raises. *)
Theorem loader_fails_fast (metadata_loc : string) :
  (forall event_data_loc,
      (forall s, event_data_loc <> LocStr s) ->
      exists msg,
        load_metrica_event_data event_data_loc metadata_loc = Raise (TypeError msg))
  /\ (forall s,
         contains "{" s = false -> path_exists s = false ->
         load_metrica_event_data (LocStr s) metadata_loc
         = Raise (FileNotFoundError ("Could not find " ++ s)))
  /\ (forall s,
         contains "{" s = false -> path_exists s = true ->
         path_exists metadata_loc = false ->
         load_metrica_event_data (LocStr s) metadata_loc
         = Raise (FileNotFoundError ("Could not find " ++ metadata_loc)))
  /\ (forall s,
         contains "{" s = true ->
         check_locations (LocStr s) metadata_loc = OK tt)
  /\ (forall content,
         exists msg,
           load_metrica_event_data (LocStringIO content) metadata_loc
           = Raise (TypeError msg))
  /\ (forall event_data_loc e,
         check_locations event_data_loc metadata_loc = Raise e ->
         load_metrica_event_data event_data_loc metadata_loc = Raise e)
  /\ (forall event_data_loc,
         (exists r, load_metrica_event_data event_data_loc metadata_loc = OK r)
         \/ (exists e, load_metrica_event_data event_data_loc metadata_loc = Raise e)).
Proof.
  repeat split.
  - intros loc Hloc. unfold load_metrica_event_data, check_locations.
    destruct loc as [s|c|t]; [exfalso; exact (Hloc s eq_refl)| |]; cbn [bind]; eauto.
  - intros s Hc He. unfold load_metrica_event_data, check_locations.
    rewrite Hc, He. reflexivity.
  - intros s Hc He Hm. unfold load_metrica_event_data, check_locations.
    rewrite Hc, He, Hm. reflexivity.
  - intros s Hc. unfold check_locations. rewrite Hc. reflexivity.
  - intros content. unfold load_metrica_event_data, check_locations.
    cbn [bind]. eauto.
  - intros loc e He. unfold load_metrica_event_data. rewrite He. reflexivity.
  - intros loc. destruct (load_metrica_event_data loc metadata_loc); eauto.
Qed.

End LoaderClaims.

(** In double precision the rescaling is not injective on [0, 1]: the values
    0 and 2^-60 are both sent to -52.5 on a pitch of length 105, so the
    original value cannot be recovered from the rescaled one. *)
Lemma rescale_collides_in_binary64 :
  rescale 0%float 105%float = rescale 0x1p-60%float 105%float
  /\ rescale 0%float 105%float = (-52.5)%float
  /\ PrimFloat.leb 0%float 0x1p-60%float = true
  /\ PrimFloat.leb 0x1p-60%float 1%float = true
  /\ PrimFloat.eqb 0x1p-60%float 0%float = false
  /\ 0x1p-60%float <> 0%float.
Proof.
  repeat split; try (vm_compute; reflexivity).
  intros E.
  assert (Hc : PrimFloat.eqb 0x1p-60%float 0%float = PrimFloat.eqb 0%float 0%float)
    by (rewrite E; reflexivity).
  vm_compute in Hc. discriminate Hc.
Qed.

Lemma rescale_replaces_coordinates_witness :
  load_metrica_event_data (LocStr "events.json") "metadata.xml" = OK Demo.loaded
  /\ exists rescaled,
       rescale_locations Demo.metadata Demo.event_table = OK rescaled
       /\ cell Demo.event_table "start_x" 2 = Some (PFloat 0.875%float)
       /\ cell rescaled "start_x" 2 = Some (PFloat 39.375%float).
Proof.
  split; [vm_compute; reflexivity|].
  destruct (rescale_replaces_coordinates (LocStr "events.json") "metadata.xml"
              (fst (fst Demo.loaded)) (snd (fst Demo.loaded)) (snd Demo.loaded))
    as (extracted & rescaled & Hget & Hres & _ & _ & Hxs & _);
    [vm_compute; reflexivity|].
  vm_compute in Hget. injection Hget as <-.
  exists rescaled. split; [exact Hres|]. split; [vm_compute; reflexivity|].
  destruct (Hxs "start_x" 2%nat (PFloat 0.875%float)) as (v & Hv & Hc);
    [simpl; tauto | vm_compute; reflexivity |].
  injection Hv as <-. exact Hc.
Defined.

Lemma datetime_from_first_period_witness :
  load_metrica_event_data (LocStr "events.json") "metadata.xml" = OK Demo.loaded
  /\ exists dated,
       _normalize_playing_direction_events dated
         (PStr "FIFATMA") (PStr "FIFATMB") = OK (fst (fst Demo.loaded))
       /\ cell dated "td_frame" 0 = Some (PInt 125)
       /\ cell dated "datetime" 0 = Some (PTimestamp 1550719808000000000).
Proof.
  split; [vm_compute; reflexivity|].
  destruct (datetime_from_first_period (LocStr "events.json") "metadata.xml"
              (fst (fst Demo.loaded)) (snd (fst Demo.loaded)) (snd Demo.loaded))
    as (extracted & rescaled & dated & p & _ & _ & Hadd & Hnorm & _);
    [vm_compute; reflexivity|].
  exists dated. split; [exact Hnorm|].
  cbn [_normalize_playing_direction_events collaborators] in Hnorm.
  injection Hnorm as ->. split; vm_compute; reflexivity.
Defined.

(** A file object is rejected, although the claim and the text of the
    error name it as an accepted input. *)
Lemma file_object_is_rejected :
  check_locations (LocStringIO "{events}") "metadata.xml"
  = Raise (TypeError
             "tracking_data_loc must be either a str or a StringIO object, not a <class '_io.StringIO'>")
  /\ load_metrica_event_data (LocStringIO "{events}") "metadata.xml"
     = Raise (TypeError
                "tracking_data_loc must be either a str or a StringIO object, not a <class '_io.StringIO'>")
  /\ load_metrica_event_data (LocStr "{events}") "metadata.xml" = OK Demo.loaded.
Proof. repeat split; vm_compute; reflexivity. Qed.

(** ** Claims about the typed-event builders *)

Section BuilderClaims.

Context {F : Type} `{PyFloat F} `{Imports F} `{EventClasses F}.

Lemma base_of_row_matches (row : series F) pitch home base :
  base_of_row row pitch home = OK base -> base_matches row base.
Proof.
  unfold base_of_row, base_matches. intros Hb.
  repeat step Hb. injection Hb as <-. cbn. repeat split; reflexivity.
Qed.

(** C4 (amended): the typed event built from a row reads back the row's
    event_id, period_id, minutes, seconds, datetime, start_x, start_y, team_id
    and player_id unchanged; the outcome is not copied but encoded:
    [shot_outcome] is the entry of ["miss", "goal"] at the row's outcome, the
    pass outcome the entry of ["unsuccessful", "successful"]
    ("not_specified" for a null outcome), and the dribble outcome is
    [bool(outcome)]. *)
Theorem typed_event_reads_back_row (row : series F) (pitch : F * F) (home : pyval F) :
  (forall e,
      _get_shot_event row pitch home = OK e ->
      base_matches row (ShotEvent.base e)
      /\ row_attr row "player_id" = OK (ShotEvent.player_id e)
      /\ exists o, row_attr row "outcome" = OK o
                   /\ list_getitem ["miss"; "goal"] o = OK (ShotEvent.shot_outcome e))
  /\ (forall e,
         _get_pass_event row pitch home = OK e ->
         base_matches row (PassEvent.base e)
         /\ row_attr row "player_id" = OK (PassEvent.player_id e)
         /\ exists o, row_attr row "outcome" = OK o
                      /\ (if pd_isnull o then PassEvent.outcome e = "not_specified"
                          else list_getitem ["unsuccessful"; "successful"] o
                               = OK (PassEvent.outcome e)))
  /\ (forall e,
         _get_dribble_event row pitch home = OK e ->
         base_matches row (DribbleEvent.base e)
         /\ row_attr row "player_id" = OK (DribbleEvent.player_id e)
         /\ exists o, row_attr row "outcome" = OK o
                      /\ DribbleEvent.outcome e = PBool (py_bool o))
  /\ list_getitem (F := F) ["miss"; "goal"] (PInt 0) = OK "miss"
  /\ list_getitem (F := F) ["miss"; "goal"] (PInt 1) = OK "goal"
  /\ list_getitem (F := F) ["unsuccessful"; "successful"] (PInt 0) = OK "unsuccessful"
  /\ list_getitem (F := F) ["unsuccessful"; "successful"] (PInt 1) = OK "successful"
  /\ py_bool (F := F) (PInt 0) = false
  /\ py_bool (F := F) (PInt 1) = true.
Proof.
  split; [|split; [|split; [|repeat split]]].
  - intros e He. unfold _get_shot_event, new_ShotEvent in He.
    repeat step He. injection He as <-. cbn.
    split; [eapply base_of_row_matches; eassumption|].
    split; [reflexivity|]. eauto.
  - intros e He. unfold _get_pass_event, new_PassEvent in He.
    repeat step He; injection He as <-; cbn;
      (split; [eapply base_of_row_matches; eassumption|]);
      (split; [reflexivity|]); eexists; (split; [reflexivity|]);
      match goal with E : negb (pd_isnull _) = _ |- _ =>
        apply (f_equal negb) in E; rewrite negb_involutive in E; cbn in E; rewrite E
      end; [assumption | reflexivity].
  - intros e He. unfold _get_dribble_event, new_DribbleEvent in He.
    repeat step He. injection He as <-. cbn.
    split; [eapply base_of_row_matches; eassumption|].
    split; [reflexivity|]. eauto.
Qed.

(** C10: a dribble row whose outcome is still [MISSING_INT] is built into a
    [DribbleEvent] with outcome [True], the sentinel being a nonzero integer;
    the builder returns for it exactly what it returns for the same row with
    outcome 1. *)
Theorem unresolved_dribble_reads_as_successful
    (row : series F) (pitch : F * F) (home : pyval F) :
  MISSING_INT <> 0 ->
  row_attr row "outcome" = OK (PInt MISSING_INT) ->
  (forall e, _get_dribble_event row pitch home = OK e ->
             DribbleEvent.outcome e = PBool true)
  /\ (forall base player,
         base_of_row row pitch home = OK base ->
         base_post_init base = OK tt ->
         row_attr row "player_id" = OK (PInt player) ->
         exists e, _get_dribble_event row pitch home = OK e
                   /\ DribbleEvent.outcome e = PBool true)
  /\ _get_dribble_event row pitch home
     = _get_dribble_event (dict_set "outcome" (PInt 1) row) pitch home.
Proof.
  intros Hnz Hout.
  assert (Htrue : negb (MISSING_INT =? 0) = true).
  { apply Z.eqb_neq in Hnz. rewrite Hnz. reflexivity. }
  split; [|split].
  - intros e He. unfold _get_dribble_event, new_DribbleEvent in He.
    rewrite Hout in He. repeat step He. injection He as <-.
    cbn [DribbleEvent.outcome py_bool]. rewrite Htrue. reflexivity.
  - intros base player Hb Hp Hpl. unfold _get_dribble_event, new_DribbleEvent.
    rewrite Hb, Hpl, Hout. cbn [bind DribbleEvent.base]. rewrite Hp.
    cbn [bind DribbleEvent._check_datatypes DribbleEvent.player_id
         DribbleEvent.related_event_id DribbleEvent.duel_type DribbleEvent.outcome].
    eexists. split; [reflexivity|].
    cbn [DribbleEvent.outcome py_bool]. rewrite Htrue. reflexivity.
  - unfold _get_dribble_event, base_of_row, row_attr.
    rewrite !dict_find_set. cbn [String.eqb Ascii.eqb Bool.eqb andb].
    unfold row_attr in Hout.
    destruct (dict_find "outcome" row) as [o|]; [|discriminate].
    injection Hout as ->. cbn [bind py_bool]. rewrite Htrue. reflexivity.
Qed.

End BuilderClaims.

(** The outcome of the typed event is an encoding of the row's outcome, not
    the row's value: the shot of the examples has outcome 1 in its row and
    "goal" in its event. *)
Lemma shot_outcome_is_encoded :
  exists e,
    _get_shot_event Demo.shot_row (105%float, 68%float) (PStr "FIFATMA") = OK e
    /\ row_attr Demo.shot_row "outcome" = OK (PInt 1)
    /\ ShotEvent.shot_outcome e = "goal"
    /\ py_eq (PStr (ShotEvent.shot_outcome e)) (PInt 1 : pyval float) = false
    /\ PStr (ShotEvent.shot_outcome e) <> (PInt 1 : pyval float).
Proof.
  eexists. split; [vm_compute; reflexivity|].
  repeat split; try (vm_compute; reflexivity). discriminate.
Qed.

Lemma unresolved_dribble_witness :
  row_attr Demo.dribble_row "outcome" = OK (PInt (-999))
  /\ (forall e,
         _get_dribble_event Demo.dribble_row (105%float, 68%float) (PStr "FIFATMA")
         = OK e ->
         DribbleEvent.outcome e = PBool true)
  /\ exists e,
       _get_dribble_event Demo.dribble_row (105%float, 68%float) (PStr "FIFATMA")
       = OK e
       /\ DribbleEvent.outcome e = PBool true.
Proof.
  split; [vm_compute; reflexivity|].
  destruct (unresolved_dribble_reads_as_successful
              Demo.dribble_row (105%float, 68%float) (PStr "FIFATMA"))
    as (W1 & W2 & _); [discriminate | vm_compute; reflexivity |].
  split; [exact W1|].
  eapply W2; vm_compute; reflexivity.
Defined.

(** * Further properties of the parser *)

(** ** The table of a stream *)

Lemma mapM_nth_inv {A B : Type} (f : A -> result B) (l : list A) :
  forall l' i b, mapM f l = OK l' -> nth_error l' i = Some b ->
                 exists a, nth_error l i = Some a /\ f a = OK b.
Proof.
  induction l as [|x l IH]; intros l' i b Hm Hn.
  - injection Hm as <-. destruct i; discriminate.
  - cbn [mapM] in Hm. apply bind_OK in Hm. destruct Hm as (y & Hy & Hm).
    apply bind_OK in Hm. destruct Hm as (ys & Hys & Hm). injection Hm as <-.
    destruct i as [|i]; simpl in Hn.
    + injection Hn as <-. exists x. split; [reflexivity | exact Hy].
    + exact (IH _ _ _ Hys Hn).
Qed.

Lemma mapM_app {A B : Type} (f : A -> result B) (l1 l2 : list A) :
  mapM f (l1 ++ l2) = (r1 <- mapM f l1 ;; r2 <- mapM f l2 ;; OK (r1 ++ r2)).
Proof.
  induction l1 as [|x l1 IH]; cbn [app mapM bind].
  - destruct (mapM f l2); reflexivity.
  - destruct (f x) as [y|]; [|reflexivity]. cbn [bind]. rewrite IH.
    destruct (mapM f l1) as [r1|]; [|reflexivity]. cbn [bind].
    destruct (mapM f l2) as [r2|]; reflexivity.
Qed.

Lemma mapM_succeeds {A B : Type} (f : A -> result B) (l : list A) :
  succeeds (mapM f l) <-> Forall (fun a => succeeds (f a)) l.
Proof.
  induction l as [|x l IH]; cbn [mapM].
  - split; [constructor | intros _; eexists; reflexivity].
  - split.
    + intros (ys & Hm). apply bind_OK in Hm. destruct Hm as (y & Hy & Hm).
      apply bind_OK in Hm. destruct Hm as (ys' & Hys & _).
      constructor; [eexists; exact Hy | apply IH; eexists; exact Hys].
    + intros Hall. inversion Hall as [|? ? (y & Hy) Hrest]; subst.
      apply IH in Hrest. destruct Hrest as (ys & Hys).
      rewrite Hy, Hys. eexists. reflexivity.
Qed.

Section TableForm.

Context {F : Type} `{PyFloat F} `{Imports F}.

(** The table of a stream is determined by the rows of its records. *)
Lemma table_holds_eq rows (tbl : table F) :
  table_holds rows tbl -> tbl = table_of_rows rows.
Proof.
  intros ((Hkeys & Hcols & Hout) & Hev).
  unfold plain_columns in Hcols.
  repeat match goal with
  | X : Forall _ (_ :: _) |- _ => inversion X; clear X; subst
  | X : Forall _ [] |- _ => clear X
  end.
  cbn [fst snd] in *.
  unfold empty_result_dict in Hkeys. cbn [map fst] in Hkeys.
  repeat match goal with
  | Hk : map fst ?d = _ :: _ |- _ =>
      destruct d as [|[? ?] ?]; [discriminate Hk|];
      cbn [map fst] in Hk; injection Hk as -> Hk
  | Hk : map fst ?d = [] |- _ => destruct d; [clear Hk | discriminate Hk]
  end.
  repeat match goal with
  | X : dict_get _ _ = OK _ |- _ => simpl in X; injection X as ->
  end.
  reflexivity.
Qed.

End TableForm.

Section ExtractorShape.
Context {F : Type} `{PyFloat F} `{Imports F}.

Lemma events_table_eq_rows (doc : pyval F) events (tbl : table F) :
  getitem doc "data" = OK (PList events) ->
  events_table doc = OK tbl ->
  exists rows, mapM row_of_event events = OK rows /\ tbl = table_of_rows rows.
Proof.
  intros Hdata Ht.
  destruct (events_table_rows _ _ _ Hdata Ht) as (rows & Hrows & Hholds).
  exists rows. split; [exact Hrows | exact (table_holds_eq _ _ Hholds)].
Qed.

Lemma resolve_length (rows : list (event_row F)) :
  List.length (resolve rows) = List.length rows.
Proof. apply resolve_before_length. Qed.

(** X1: the table [_get_event_data] returns has the eighteen columns of
    [result_dict], in the order of the literal, and every column holds exactly
    one cell for each record of the stream. *)
Theorem table_has_one_cell_per_record (doc : pyval F) events (tbl : table F) :
  getitem doc "data" = OK (PList events) ->
  events_table doc = OK tbl ->
  map fst tbl
  = ["event_id"; "type_id"; "databallpy_event"; "period_id"; "minutes"; "seconds";
     "player_id"; "player_name"; "team_id"; "outcome"; "start_x"; "start_y";
     "to_player_id"; "to_player_name"; "end_x"; "end_y"; "td_frame"; "metrica_event"]
  /\ forall col cells,
       dict_find col tbl = Some cells -> List.length cells = List.length events.
Proof.
  intros Hdata Ht.
  destruct (events_table_eq_rows _ _ _ Hdata Ht) as (rows & Hrows & ->).
  split; [reflexivity|].
  intros col cells Hf. rewrite <- (mapM_length _ _ _ Hrows).
  unfold table_of_rows in Hf. cbn [dict_find] in Hf.
  repeat match type of Hf with
         | (if ?b then _ else _) = Some _ => destruct b
         end;
    try discriminate Hf; injection Hf as <-;
    rewrite ?sanitize_length, ?length_map, ?resolve_length; reflexivity.
Qed.

(** X2: the extractor returns a table exactly when every record of the
    stream can be read by itself (its keys are there and hold what the reads
    need); the look-ahead that settles the outcome of a pass or a carry never
    raises. *)
Theorem table_iff_every_record_readable (doc : pyval F) events :
  getitem doc "data" = OK (PList events) ->
  (succeeds (events_table doc)
   <-> Forall (fun event => succeeds (row_of_event event)) events).
Proof.
  intros Hdata. rewrite <- mapM_succeeds. split.
  - intros (tbl & Ht).
    destruct (events_table_rows _ _ _ Hdata Ht) as (rows & Hrows & _).
    exists rows. exact Hrows.
  - intros (rows & Hrows). exact (events_table_succeeds _ _ _ Hdata Hrows).
Qed.

Lemma settled_values (r : event_row F) next :
  settled r next = 0 \/ settled r next = 1 \/ settled r next = r_outcome r.
Proof.
  unfold settled. destruct next as [n|]; [|auto].
  destruct (pending r); [|auto]. destruct (lost_to r n); auto.
Qed.

Lemma own_outcome_values (event : pyval F) (r : event_row F) :
  row_of_event event = OK r ->
  r_outcome r = 0 \/ r_outcome r = 1 \/ r_outcome r = MISSING_INT.
Proof.
  intros Hr.
  destruct (row_of_event_reads _ _ Hr) as (_ & _ & _ & _ & _ & _ & _ & Hout & _).
  destruct (String.eqb (r_metrica_event r) "shot"); [|auto].
  destruct (shot_outcome_spec _ _ Hout) as (subtypes & _ & ->).
  destruct (has_goal subtypes); auto.
Qed.

(** X3: every cell of the column [outcome] is 0, 1 or [MISSING_INT]. *)
Theorem outcome_is_zero_one_or_missing (doc : pyval F) (tbl : table F) i c :
  events_table doc = OK tbl ->
  cell tbl "outcome" i = Some c ->
  c = PInt 0 \/ c = PInt 1 \/ c = PInt MISSING_INT.
Proof.
  intros Ht Hc.
  destruct (events_table_iter _ _ Ht) as (events & rows & _ & Hrows & Hholds).
  rewrite (table_holds_eq _ _ Hholds) in Hc.
  unfold cell, table_of_rows in Hc. cbn in Hc.
  rewrite nth_error_map in Hc.
  destruct (nth_error (resolve rows) i) as [z|] eqn:Ez; [|discriminate].
  injection Hc as <-.
  assert (Hr : exists r, nth_error rows i = Some r).
  { destruct (nth_error rows i) as [r|] eqn:Er; [eauto|].
    apply nth_error_None in Er. rewrite <- resolve_length in Er.
    apply nth_error_None in Er. congruence. }
  destruct Hr as (r & Er).
  unfold resolve in Ez. rewrite (resolve_before_nth rows None i r Er) in Ez.
  injection Ez as <-.
  destruct (mapM_nth_inv _ _ _ _ _ Hrows Er) as (event & _ & Hev).
  match goal with
  | |- context [settled ?a ?b] =>
      destruct (settled_values a b) as [E | [E | E]]; rewrite E; auto
  end.
  destruct (own_outcome_values _ _ Hev) as [E' | [E' | E']]; rewrite E'; auto.
Qed.

(** X4: a record that is neither a pass, a carry nor a shot has the outcome
    [MISSING_INT] in the returned table, whatever follows it. *)
Theorem other_events_keep_the_sentinel
    (doc : pyval F) events (tbl : table F) i event name :
  getitem doc "data" = OK (PList events) ->
  events_table doc = OK tbl ->
  nth_error events i = Some event ->
  event_name event = OK name ->
  in_list name ["pass"; "carry"; "shot"] = false ->
  cell tbl "outcome" i = Some (PInt MISSING_INT).
Proof.
  intros Hdata Ht Hn Hname Hother.
  destruct (row_at _ _ _ _ _ Hdata Ht Hn) as (rows & r & Hholds & Hrows & Hr & Hnr).
  rewrite (cell_outcome _ _ _ _ (proj1 Hholds) Hnr).
  destruct (row_of_event_reads _ _ Hr) as (_ & _ & Hn1 & _ & _ & _ & _ & Hout & _).
  rewrite Hname in Hn1. injection Hn1 as Hn1.
  unfold in_list in Hother. cbn [existsb] in Hother.
  apply orb_false_elim in Hother. destruct Hother as [Hp Hother].
  apply orb_false_elim in Hother. destruct Hother as [Hc Hother].
  apply orb_false_elim in Hother. destruct Hother as [Hs _].
  rewrite <- Hn1, Hs in Hout.
  assert (Hpend : pending r = false).
  { unfold pending, in_list. cbn [existsb]. rewrite <- Hn1, Hp, Hc. reflexivity. }
  unfold settled. rewrite Hpend, Hout.
  destruct (nth_error rows (S i)); reflexivity.
Qed.

End ExtractorShape.

Lemma table_shape_witness :
  events_table Demo.events_dict = OK Demo.event_table
  /\ map fst Demo.event_table
     = ["event_id"; "type_id"; "databallpy_event"; "period_id"; "minutes"; "seconds";
        "player_id"; "player_name"; "team_id"; "outcome"; "start_x"; "start_y";
        "to_player_id"; "to_player_name"; "end_x"; "end_y"; "td_frame"; "metrica_event"]
  /\ forall col cells,
       dict_find col Demo.event_table = Some cells -> List.length cells = 4%nat.
Proof.
  split; [vm_compute; reflexivity|].
  apply (table_has_one_cell_per_record Demo.events_dict Demo.events Demo.event_table);
    vm_compute; reflexivity.
Defined.

Lemma readable_records_witness :
  getitem Demo.events_dict "data" = OK (PList Demo.events)
  /\ (succeeds (events_table Demo.events_dict)
      <-> Forall (fun event => succeeds (row_of_event event)) Demo.events).
Proof.
  split; [reflexivity|].
  apply (table_iff_every_record_readable Demo.events_dict Demo.events). reflexivity.
Defined.

Lemma outcome_values_witness :
  events_table Demo.events_dict = OK Demo.event_table
  /\ cell Demo.event_table "outcome" 3 = Some (PInt (-999))
  /\ ((PInt (-999) : pyval float) = PInt 0 \/ (PInt (-999) : pyval float) = PInt 1
      \/ (PInt (-999) : pyval float) = PInt MISSING_INT).
Proof.
  split; [vm_compute; reflexivity|]. split; [vm_compute; reflexivity|].
  apply (outcome_is_zero_one_or_missing Demo.events_dict Demo.event_table 3);
    vm_compute; reflexivity.
Defined.

Lemma other_events_witness :
  events_table Demo.events_dict = OK Demo.event_table
  /\ event_name (nth 1 Demo.events PNone) = OK "ball lost"
  /\ cell Demo.event_table "outcome" 1 = Some (PInt (-999)).
Proof.
  split; [vm_compute; reflexivity|]. split; [vm_compute; reflexivity|].
  change (cell Demo.event_table "outcome" 1 = Some (PInt MISSING_INT)).
  apply (other_events_keep_the_sentinel Demo.events_dict Demo.events Demo.event_table 1
           (nth 1 Demo.events PNone) "ball lost");
    vm_compute; reflexivity.
Defined.

(** ** The first record that cannot be read *)

Section ExtractorStream.
Context {F : Type} `{PyFloat F} `{Imports F}.

Lemma py_mod_like_floordiv (time : pyval F) n :
  succeeds (py_floordiv time n) -> succeeds (py_mod time n).
Proof.
  intros (q & Hq). unfold py_floordiv in Hq. unfold py_mod.
  destruct time; try discriminate Hq; destruct (n =? 0); try discriminate Hq;
    eexists; reflexivity.
Qed.

(** X5: a null [from] is not handled as a null [to] is: when the reads
    before [event["from"]["id"]] succeed, a record whose [from] is null makes
    the whole call raise a [TypeError], wherever it stands after readable
    records. *)
Theorem null_sender_rejects_the_stream (doc : pyval F) pre event post time :
  getitem doc "data" = OK (PList (pre ++ event :: post)) ->
  Forall (fun e => succeeds (row_of_event e)) pre ->
  succeeds (getitem event "index") ->
  succeeds (getitem2 event "type" "id") ->
  succeeds (event_name event) ->
  succeeds (getitem event "period") ->
  getitem2 event "start" "time" = OK time ->
  succeeds (py_floordiv time 60) ->
  getitem event "from" = OK PNone ->
  events_table doc = Raise (TypeError "object is not subscriptable").
Proof.
  intros Hdata Hpre (index & E1) (type_id & E2) (name & E3) (period & E4) E5 Hdiv E6.
  pose proof (py_mod_like_floordiv _ _ Hdiv) as (secs & E5b).
  destruct Hdiv as (mins & E5a).
  apply mapM_succeeds in Hpre. destruct Hpre as (rows & Hrows).
  apply (events_table_first_error doc pre event post rows _ Hdata Hrows).
  intros d (Hkeys & Hcols & Hout).
  unfold plain_columns in Hcols.
  repeat match goal with
  | X : Forall _ (_ :: _) |- _ => inversion X; clear X; subst
  | X : Forall _ [] |- _ => clear X
  end.
  cbn [fst snd] in *.
  unfold event_name in E3. apply bind_OK in E3. destruct E3 as (nm & E3 & E3a).
  assert (E6' : getitem2 event "from" "id" = Raise (TypeError "object is not subscriptable")).
  { unfold getitem2. rewrite E6. reflexivity. }
  unfold process_event, append.
  repeat forward_to_error. reflexivity.
Qed.

End ExtractorStream.

Lemma null_sender_witness :
  getitem anonymous_pass "from" = OK PNone
  /\ events_table (PDict [("data", PList [nth 0 Demo.events PNone; anonymous_pass])])
     = Raise (TypeError "object is not subscriptable").
Proof.
  split; [reflexivity|].
  apply (null_sender_rejects_the_stream
           (PDict [("data", PList [nth 0 Demo.events PNone; anonymous_pass])])
           [nth 0 Demo.events PNone] anonymous_pass [] (PInt 75));
    try reflexivity;
    try (eexists; vm_compute; reflexivity).
  repeat constructor. eexists. vm_compute. reflexivity.
Defined.

Section ExtractorShots.
Context {F : Type} `{PyFloat F} `{Imports F}.

(** X6: the error raised while reading the sub-types of a shot (no
    [subtypes] key, null sub-types, a sub-type without name) is the error of
    the call, when the records before and the reads before succeed. *)
Theorem unreadable_subtypes_reject_the_shot
    (doc : pyval F) pre event post time sender e :
  getitem doc "data" = OK (PList (pre ++ event :: post)) ->
  Forall (fun e => succeeds (row_of_event e)) pre ->
  succeeds (getitem event "index") ->
  succeeds (getitem2 event "type" "id") ->
  event_name event = OK "shot" ->
  succeeds (getitem event "period") ->
  getitem2 event "start" "time" = OK time ->
  succeeds (py_floordiv time 60) ->
  getitem2 event "from" "id" = OK sender ->
  succeeds (slice_from_1 sender) ->
  succeeds (getitem2 event "from" "name") ->
  succeeds (getitem2 event "team" "id") ->
  shot_outcome event = Raise e ->
  events_table doc = Raise e.
Proof.
  intros Hdata Hpre (index & E1) (type_id & E2) E3 (period & E4) E5 Hdiv
         E6 (tail & E6a) (from_name & E7) (team & E9) E8.
  pose proof (py_mod_like_floordiv _ _ Hdiv) as (secs & E5b).
  destruct Hdiv as (mins & E5a).
  apply mapM_succeeds in Hpre. destruct Hpre as (rows & Hrows).
  apply (events_table_first_error doc pre event post rows _ Hdata Hrows).
  intros d (Hkeys & Hcols & Hout).
  unfold plain_columns in Hcols.
  repeat match goal with
  | X : Forall _ (_ :: _) |- _ => inversion X; clear X; subst
  | X : Forall _ [] |- _ => clear X
  end.
  cbn [fst snd] in *.
  unfold event_name in E3. apply bind_OK in E3. destruct E3 as (nm & E3 & E3a).
  unfold process_event, append.
  repeat forward_to_error. cbn [bind].
  destruct (flag_after rows) eqn:Hf.
  - destruct (snoc_case rows) as [->|(rows0 & r0 & ->)]; [discriminate Hf|].
    erewrite possession_lost_spec;
      [ | repeat rewrite dict_get_set_other by reflexivity; eassumption | eassumption ].
    repeat forward_to_error. cbn [bind].
    rewrite resolve_snoc, map_app. cbn [map]. rewrite set_last_snoc.
    cbn [bind String.eqb Ascii.eqb Bool.eqb andb]. rewrite E8. reflexivity.
  - cbn [bind String.eqb Ascii.eqb Bool.eqb andb]. rewrite E8. reflexivity.
Qed.

End ExtractorShots.

Lemma bare_shot_witness :
  getitem bare_shot "subtypes" = Raise (KeyError "subtypes")
  /\ events_table (PDict [("data", PList [nth 0 Demo.events PNone; bare_shot])])
     = Raise (KeyError "subtypes").
Proof.
  split; [reflexivity|].
  apply (unreadable_subtypes_reject_the_shot
           (PDict [("data", PList [nth 0 Demo.events PNone; bare_shot])])
           [nth 0 Demo.events PNone] bare_shot [] (PInt 75) (PStr "P12"));
    try reflexivity;
    try (eexists; vm_compute; reflexivity).
  repeat constructor. eexists. vm_compute. reflexivity.
Defined.

(** ** What a row depends on *)

Lemma mapM_nth_error {A B : Type} (f : A -> result B) (l : list A) :
  forall l' i, mapM f l = OK l' ->
    nth_error l' i = match nth_error l i with
                     | Some a => match f a with
                                 | OK b => Some b
                                 | Raise _ => None
                                 end
                     | None => None
                     end.
Proof.
  induction l as [|x l IH]; intros l' i Hm.
  - injection Hm as <-. destruct i; reflexivity.
  - cbn [mapM] in Hm. apply bind_OK in Hm. destruct Hm as (y & Hy & Hm).
    apply bind_OK in Hm. destruct Hm as (ys & Hys & Hm). injection Hm as <-.
    destruct i as [|i]; cbn [nth_error]; [rewrite Hy; reflexivity | exact (IH _ _ Hys)].
Qed.

Section ExtractorLocality.
Context {F : Type} `{PyFloat F} `{Imports F}.


End ExtractorLocality.

Section ExtractorClock.
Context {F : Type} `{PyFloat F} `{Imports F}.

(** X8: an integer start time [t] is split at sixty: [minutes] holds
    [_to_int(t // 60)] and [seconds] holds [_to_float(t % 60)], with
    [0 <= t % 60 < 60] and [60 * (t // 60) + t % 60 = t], for a negative [t]
    as well. *)
Theorem integer_time_is_split_at_sixty
    (doc : pyval F) events (tbl : table F) i event t :
  getitem doc "data" = OK (PList events) ->
  events_table doc = OK tbl ->
  nth_error events i = Some event ->
  getitem2 event "start" "time" = OK (PInt t) ->
  cell tbl "minutes" i = Some (PInt (_to_int (PInt (t / 60))))
  /\ cell tbl "seconds" i = Some (PFloat (_to_float (PInt (t mod 60))))
  /\ 0 <= t mod 60 < 60
  /\ 60 * (t / 60) + t mod 60 = t.
Proof.
  intros Hdata Ht Hn Htime.
  destruct (row_at _ _ _ _ _ Hdata Ht Hn) as (rows & r & Hholds & Hrows & Hr & Hnr).
  destruct (row_of_event_reads _ _ Hr)
    as (_ & _ & _ & _ & (time & mins & secs & E5 & E5a & M1 & E5b & M2) & _).
  rewrite Htime in E5. injection E5 as <-.
  cbn [py_floordiv py_mod Z.eqb] in E5a, E5b.
  injection E5a as <-. injection E5b as <-.
  split; [|split; [|split]].
  - rewrite <- M1.
    apply (cell_plain rows tbl "minutes" (fun r => PInt (r_minutes r)));
      [exact (proj1 Hholds) | unfold plain_columns; simpl; tauto | reflexivity | exact Hnr].
  - rewrite <- M2.
    apply (cell_plain rows tbl "seconds" (fun r => PFloat (r_seconds r)));
      [exact (proj1 Hholds) | unfold plain_columns; simpl; tauto | reflexivity | exact Hnr].
  - apply Z.mod_pos_bound. lia.
  - symmetry. apply Z.div_mod. lia.
Qed.

End ExtractorClock.


Lemma integer_time_witness :
  events_table Demo.events_dict = OK Demo.event_table
  /\ cell Demo.event_table "minutes" 0 = Some (PInt 1)
  /\ cell Demo.event_table "seconds" 0 = Some (PFloat 15%float).
Proof.
  split; [vm_compute; reflexivity|].
  destruct (integer_time_is_split_at_sixty Demo.events_dict Demo.events Demo.event_table 0
              (nth 0 Demo.events PNone) 75) as (W1 & W2 & _);
    try (vm_compute; reflexivity).
  split; [exact W1 | exact W2].
Defined.

(** Running a chain of binds to its result. *)
Ltac forward_to_result :=
  cbn [bind];
  lazymatch goal with
  | |- ?c = OK _ =>
      let h := head_of c in
      match goal with
      | E : ?c' = _ |- _ => constr_eq c' h; rewrite E
      end
  end.

Section ExtractorSubtypes.
Context {F : Type} `{PyFloat F} `{Imports F}.

Lemma getitem_set_other (d : pydict (pyval F)) k k' v :
  String.eqb k k' = false ->
  getitem (PDict (dict_set k' v d)) k = getitem (PDict d) k.
Proof. intros E. cbn [getitem]. apply dict_get_set_other. exact E. Qed.

Lemma getitem2_set_other (d : pydict (pyval F)) k1 k2 k' v :
  String.eqb k1 k' = false ->
  getitem2 (PDict (dict_set k' v d)) k1 k2 = getitem2 (PDict d) k1 k2.
Proof. intros E. unfold getitem2. rewrite (getitem_set_other _ _ _ _ E). reflexivity. Qed.

(** A record that is not a shot is read without its sub-types. *)
Lemma row_of_event_ignores_subtypes (d : pydict (pyval F)) v r :
  r_metrica_event r <> "shot" ->
  row_of_event (PDict (dict_set "subtypes" v d)) = OK r <-> row_of_event (PDict d) = OK r.
Proof.
  intros Hshot. apply String.eqb_neq in Hshot.
  split; intros Hr.
  - pose proof (row_of_event_reads _ _ Hr) as Hreads. unfold row_reads in Hreads.
    unfold event_name, event_team in Hreads.
    rewrite !getitem2_set_other, !getitem_set_other in Hreads by reflexivity.
    rewrite Hshot in Hreads.
    destruct Hreads
      as (E1 & E2 & E3 & E4 & (time & mins & secs & E5 & E5a & M1 & E5b & M2)
          & (id & tail & E6 & E6a & M3) & E7 & E8 & E9 & (x & E10 & M4) & (y & E11 & M5)
          & (to & E12 & E12a) & (ex & E13 & M6) & (ey & E14 & M7) & E15).
    apply bind_OK in E3. destruct E3 as (nm & E3 & E3a).
    unfold row_of_event, event_name.
    repeat (first [forward_to_result | progress rewrite Hshot]).
    cbn [bind fst snd]. destruct r. cbn in *. subst. reflexivity.
  - pose proof (row_of_event_reads _ _ Hr) as Hreads. unfold row_reads in Hreads.
    unfold event_name, event_team in Hreads.
    rewrite Hshot in Hreads.
    destruct Hreads
      as (E1 & E2 & E3 & E4 & (time & mins & secs & E5 & E5a & M1 & E5b & M2)
          & (id & tail & E6 & E6a & M3) & E7 & E8 & E9 & (x & E10 & M4) & (y & E11 & M5)
          & (to & E12 & E12a) & (ex & E13 & M6) & (ey & E14 & M7) & E15).
    apply bind_OK in E3. destruct E3 as (nm & E3 & E3a).
    unfold row_of_event, event_name.
    repeat (cbn [bind];
            rewrite ?getitem2_set_other, ?getitem_set_other by reflexivity;
            first [forward_to_result | progress rewrite Hshot]).
    cbn [bind fst snd]. destruct r. cbn in *. subst. reflexivity.
Qed.

Lemma mapM_middle {A B : Type} (f : A -> result B) pre a post l :
  mapM f (pre ++ a :: post) = OK l <->
  exists l1 b l2, mapM f pre = OK l1 /\ f a = OK b /\ mapM f post = OK l2
                  /\ l = l1 ++ b :: l2.
Proof.
  rewrite mapM_app. cbn [mapM]. split.
  - intros Hm. apply bind_OK in Hm. destruct Hm as (l1 & H1' & Hm).
    apply bind_OK in Hm. destruct Hm as (r2 & Hm2 & Hm). injection Hm as <-.
    apply bind_OK in Hm2. destruct Hm2 as (b & Hb & Hm2).
    apply bind_OK in Hm2. destruct Hm2 as (l2 & H2' & Hm2). injection Hm2 as <-.
    exists l1, b, l2. auto.
  - intros (l1 & b & l2 & -> & -> & -> & ->). reflexivity.
Qed.

Lemma same_rows_same_table (doc doc' : pyval F) events events' rows (tbl : table F) :
  getitem doc "data" = OK (PList events) ->
  getitem doc' "data" = OK (PList events') ->
  mapM row_of_event events = OK rows ->
  mapM row_of_event events' = OK rows ->
  events_table doc = OK tbl -> events_table doc' = OK tbl.
Proof.
  intros Hdata Hdata' Hrows Hrows' Ht.
  destruct (events_table_eq_rows _ _ _ Hdata Ht) as (rows0 & Hrows0 & ->).
  rewrite Hrows in Hrows0. injection Hrows0 as <-.
  destruct (events_table_of_rows _ _ _ Hdata' Hrows') as (tbl' & Ht' & Hholds).
  rewrite Ht'. rewrite (table_holds_eq _ _ Hholds). reflexivity.
Qed.

(** X9: the sub-types are read for shots only: setting the entry
    [subtypes] of a record that is not a shot to any value (adding the entry
    included) leaves the returned table as it is. *)
Theorem subtypes_only_read_for_shots
    (doc doc' : pyval F) pre d v post name (tbl : table F) :
  getitem doc "data" = OK (PList (pre ++ PDict d :: post)) ->
  getitem doc' "data" = OK (PList (pre ++ PDict (dict_set "subtypes" v d) :: post)) ->
  event_name (PDict d) = OK name ->
  name <> "shot" ->
  events_table doc' = OK tbl <-> events_table doc = OK tbl.
Proof.
  intros Hdata Hdata' Hname Hshot.
  assert (Hname' : event_name (PDict (dict_set "subtypes" v d)) = OK name).
  { unfold event_name. rewrite getitem2_set_other by reflexivity. exact Hname. }
  split; intros Ht.
  - destruct (events_table_eq_rows _ _ _ Hdata' Ht) as (rows & Hrows & _).
    apply (same_rows_same_table doc' doc _ _ rows tbl Hdata' Hdata Hrows); [|exact Ht].
    apply mapM_middle in Hrows. destruct Hrows as (l1 & r & l2 & H1' & Hr & H2' & ->).
    apply mapM_middle. exists l1, r, l2. repeat split; try assumption.
    apply (row_of_event_ignores_subtypes d v r); [|exact Hr].
    destruct (row_of_event_reads _ _ Hr) as (_ & _ & Hn & _).
    rewrite Hname' in Hn. injection Hn as <-. exact Hshot.
  - destruct (events_table_eq_rows _ _ _ Hdata Ht) as (rows & Hrows & _).
    apply (same_rows_same_table doc doc' _ _ rows tbl Hdata Hdata' Hrows); [|exact Ht].
    apply mapM_middle in Hrows. destruct Hrows as (l1 & r & l2 & H1' & Hr & H2' & ->).
    apply mapM_middle. exists l1, r, l2. repeat split; try assumption.
    apply (row_of_event_ignores_subtypes d v r); [|exact Hr].
    destruct (row_of_event_reads _ _ Hr) as (_ & _ & Hn & _).
    rewrite Hname in Hn. injection Hn as <-. exact Hshot.
Qed.

End ExtractorSubtypes.

Lemma subtypes_witness :
  getitem (PDict lost_ball_fields) "subtypes" = OK PNone
  /\ events_table
       (PDict [("data",
                PList (firstn 1 Demo.events
                       ++ PDict (dict_set "subtypes" (PStr "anything") lost_ball_fields)
                       :: skipn 2 Demo.events))])
     = OK Demo.event_table.
Proof.
  split; [reflexivity|].
  apply (subtypes_only_read_for_shots
           Demo.events_dict
           (PDict [("data",
                    PList (firstn 1 Demo.events
                           ++ PDict (dict_set "subtypes" (PStr "anything") lost_ball_fields)
                           :: skipn 2 Demo.events))])
           (firstn 1 Demo.events) lost_ball_fields
           (PStr "anything") (skipn 2 Demo.events) "ball lost" Demo.event_table);
    try (vm_compute; reflexivity).
  discriminate.
Defined.

(** ** The loader *)

Section LoaderEdges.

Context {F : Type} `{PyFloat F} `{Imports F} `{TextLibrary F}
        `{EventClasses F} `{Collaborators F} `{Network}.

(** X10: the loader needs a first period: with metadata whose period
    table has no row with [period_id] 1 the call raises an [IndexError],
    after the metadata and the event data were read, whatever the events
    are. *)
Theorem loader_needs_a_first_period
    event_data_loc metadata_loc metadata0 channels metadata (extracted : table F) :
  check_locations event_data_loc metadata_loc = OK tt ->
  _get_metadata metadata_loc = OK metadata0 ->
  _get_td_channels metadata_loc metadata0 = OK channels ->
  _update_metadata channels metadata0 = OK metadata ->
  _get_event_data event_data_loc = OK extracted ->
  Forall (fun p => Metadata.period_id p <> 1) (Metadata.periods_frames metadata) ->
  load_metrica_event_data event_data_loc metadata_loc
  = Raise (IndexError "single positional indexer is out-of-bounds").
Proof.
  intros Hcheck Hmeta Hch Hup Hget Hnone.
  destruct (extracted_rows _ _ Hget) as (rows & Hholds & _).
  destruct (rescale_locations_spec metadata rows extracted Hholds) as (_ & _ & Hres).
  unfold load_metrica_event_data.
  rewrite Hcheck. cbn [bind]. rewrite Hmeta. cbn [bind]. rewrite Hch. cbn [bind].
  rewrite Hup. cbn [bind]. rewrite Hget. cbn [bind]. rewrite Hres. cbn [bind].
  unfold add_datetime, first_period.
  assert (Hf : filter (fun p => Metadata.period_id p =? 1)
                 (Metadata.periods_frames metadata) = []).
  { induction Hnone as [|p l Hp _ IH]; [reflexivity|].
    cbn [filter]. apply Z.eqb_neq in Hp. rewrite Hp. exact IH. }
  rewrite Hf. reflexivity.
Qed.

(** X11: [load_metrica_open_event_data] hands the downloaded text to the
    loader, which takes a text without an opening brace (an error page, an
    empty answer) for a path: the call raises [FileNotFoundError], naming the
    text, unless a file of that name exists. *)
Theorem open_data_without_brace_is_a_path raw_ed raw_metadata :
  requests_get_text ed_link = OK raw_ed ->
  requests_get_text metadata_link = OK raw_metadata ->
  contains "{" raw_ed = false ->
  path_exists raw_ed = false ->
  load_metrica_open_event_data
  = Raise (FileNotFoundError ("Could not find " ++ raw_ed)).
Proof.
  intros Hed Hmd Hbrace Hpath. unfold load_metrica_open_event_data.
  rewrite Hed, Hmd. cbn [bind].
  unfold load_metrica_event_data, check_locations. rewrite Hbrace, Hpath. reflexivity.
Qed.

End LoaderEdges.

(** X12: read over the rationals, the rescaling sends [0, 1] into
    [-dimension/2, dimension/2] for a positive dimension, the centre 1/2 to 0,
    and keeps the order of the values. *)
Theorem rescale_exact_range (v d : Q) :
  (0 <= v)%Q -> (v <= 1)%Q -> (0 < d)%Q ->
  (- (d / 2) <= rescale v d)%Q /\ (rescale v d <= d / 2)%Q
  /\ (rescale (1 # 2) d == 0)%Q
  /\ (forall w, (v <= w)%Q -> (rescale v d <= rescale w d)%Q).
Proof.
  intros H0 H1' Hd. unfold rescale. cbn [fsub fmul fdiv of_int exactQ].
  change (inject_Z 2) with 2%Q.
  assert (Hd' : (0 <= d)%Q) by (apply Qlt_le_weak; exact Hd).
  assert (Hlo : (0 * d <= v * d)%Q) by (apply Qmult_le_compat_r; assumption).
  assert (Hhi : (v * d <= 1 * d)%Q) by (apply Qmult_le_compat_r; assumption).
  assert (Hhalf : (d == d / 2 + d / 2)%Q) by field.
  repeat split.
  - set (h := (d / 2)%Q) in *. set (p := (v * d)%Q) in *. lra.
  - set (h := (d / 2)%Q) in *. set (p := (v * d)%Q) in *. lra.
  - field.
  - intros w Hw.
    assert (Hvw : (v * d <= w * d)%Q) by (apply Qmult_le_compat_r; assumption).
    set (h := (d / 2)%Q) in *. set (p := (v * d)%Q) in *. set (q := (w * d)%Q) in *.
    lra.
Qed.

(** X13: in double precision a missing coordinate stays missing: the
    rescaling of NaN is NaN for every pitch dimension. *)
Theorem rescale_keeps_nan (d : float) :
  Prim2SF (rescale nan d) = S754_nan
  /\ PrimFloat.eqb (rescale nan d) (rescale nan d) = false.
Proof.
  assert (Hn : Prim2SF (rescale nan d) = S754_nan).
  { unfold rescale. cbn [fsub fmul fdiv of_int binary64].
    rewrite sub_spec, mul_spec.
    change (Prim2SF nan) with S754_nan.
    unfold SF64sub, SF64mul.
    destruct (Prim2SF d); cbn;
      destruct (Prim2SF (d / Binary64.of_Z 2)); reflexivity. }
  split; [exact Hn|].
  rewrite eqb_spec, Hn. reflexivity.
Qed.

Section RescaleTotal.
Context {F : Type} `{PyFloat F} `{Imports F} `{TextLibrary F}
        `{EventClasses F} `{Collaborators F}.

(** X14: the rescaling never raises on a table of the extractor: the
    columns stay the same and the cells of the four coordinate columns are
    floats (what [_to_float] returned, rescaled). *)
Theorem rescaling_never_fails event_data_loc (extracted : table F) metadata :
  _get_event_data event_data_loc = OK extracted ->
  exists rescaled,
    rescale_locations metadata extracted = OK rescaled
    /\ map fst rescaled = map fst extracted
    /\ forall col i c,
         In col ["start_x"; "end_x"; "start_y"; "end_y"] ->
         cell rescaled col i = Some c -> exists v, c = PFloat v.
Proof.
  intros Hget.
  destruct (extracted_rows _ _ Hget) as (rows & Hholds & _).
  destruct (rescale_locations_spec metadata rows extracted Hholds) as (_ & _ & Hres).
  eexists. split; [exact Hres|].
  destruct Hholds as (Hkeys & _).
  split.
  - rewrite Hkeys. repeat (apply dict_set_keys; [ | reflexivity ]). exact Hkeys.
  - intros col i c Hin Hc. rewrite !cell_set in Hc.
    cbn [In] in Hin.
    repeat match goal with
           | X : _ \/ _ |- _ => destruct X as [<-|X]
           | X : False |- _ => destruct X
           end;
      cbn [String.eqb Ascii.eqb Bool.eqb andb] in Hc;
      rewrite nth_error_map in Hc;
      (destruct (nth_error rows i); [|discriminate Hc]);
      injection Hc as <-; eauto.
Qed.

End RescaleTotal.

Lemma first_period_witness :
  @load_metrica_event_data float binary64 Demo.imports Demo.text_library
     Demo.event_classes late_collaborators (LocStr "events.json") "metadata.xml"
  = Raise (IndexError "single positional indexer is out-of-bounds").
Proof.
  apply (@loader_needs_a_first_period float binary64 Demo.imports Demo.text_library
           Demo.event_classes late_collaborators
           (LocStr "events.json") "metadata.xml" late_metadata tt late_metadata
           Demo.event_table);
    try (vm_compute; reflexivity).
  repeat constructor. discriminate.
Defined.

Lemma open_data_witness :
  load_metrica_open_event_data (F := float)
  = Raise (FileNotFoundError "Could not find 404: Not Found").
Proof.
  apply (open_data_without_brace_is_a_path (F := float) "404: Not Found" "404: Not Found");
    reflexivity.
Defined.

Lemma rescale_range_witness :
  (- (105 / 2) <= rescale (1 # 4) 105)%Q /\ (rescale (1 # 4) 105 <= 105 / 2)%Q
  /\ (rescale (1 # 2) 105 == 0)%Q.
Proof.
  destruct (rescale_exact_range (1 # 4) 105) as (W1 & W2 & W3 & _);
    [vm_compute; discriminate | vm_compute; discriminate | vm_compute; reflexivity |].
  split; [exact W1 | split; [exact W2 | exact W3]].
Defined.

Lemma rescaling_witness :
  _get_event_data (LocStr "events.json") = OK Demo.event_table
  /\ exists rescaled,
       rescale_locations Demo.metadata Demo.event_table = OK rescaled
       /\ map fst rescaled = map fst Demo.event_table.
Proof.
  split; [vm_compute; reflexivity|].
  destruct (rescaling_never_fails (LocStr "events.json") Demo.event_table Demo.metadata)
    as (rescaled & W1 & W2 & _); [vm_compute; reflexivity|].
  exists rescaled. split; [exact W1 | exact W2].
Defined.

(** ** The typed events *)

Section BuilderEdges.
Context {F : Type} `{PyFloat F} `{Imports F} `{EventClasses F}.

Lemma list_index_pair_out_of_range {A : Type} (a b : A) z :
  z < -2 \/ 1 < z ->
  list_index [a; b] z = Raise (IndexError "list index out of range").
Proof.
  intros Hz. unfold list_index. cbn [List.length Z.of_nat Pos.of_succ_nat Pos.succ].
  destruct (z <? 0) eqn:Eneg.
  - apply Z.ltb_lt in Eneg.
    destruct (z + 2 <? 0) eqn:E1; [reflexivity|].
    apply Z.ltb_ge in E1. lia.
  - apply Z.ltb_ge in Eneg.
    destruct (z <? 0) eqn:E1; [apply Z.ltb_lt in E1; lia|].
    destruct (2 <=? z) eqn:E2; [reflexivity|].
    apply Z.leb_gt in E2. lia.
Qed.

(** X15: an integer outcome outside -2..1 cannot index the two labels:
    [_get_shot_event] and [_get_pass_event] raise an [IndexError] for such a
    row, as for the sentinel -999 of a pass that was never resolved. *)
Theorem outcome_out_of_range_is_an_index_error
    (row : series F) (pitch : F * F) (home : pyval F) base player z :
  base_of_row row pitch home = OK base ->
  row_attr row "player_id" = OK player ->
  row_attr row "outcome" = OK (PInt z) ->
  z < -2 \/ 1 < z ->
  _get_shot_event row pitch home = Raise (IndexError "list index out of range")
  /\ _get_pass_event row pitch home = Raise (IndexError "list index out of range").
Proof.
  intros Hb Hp Ho Hz. split.
  - unfold _get_shot_event. rewrite Hb, Hp, Ho. cbn [bind list_getitem].
    rewrite (list_index_pair_out_of_range _ _ _ Hz). reflexivity.
  - unfold _get_pass_event. rewrite Hb, Hp, Ho. cbn [bind pd_isnull negb list_getitem].
    rewrite (list_index_pair_out_of_range _ _ _ Hz). reflexivity.
Qed.

(** X16: the only type check of [DribbleEvent] that [_get_dribble_event]
    can fail is the one of [player_id]: with an [int], [bool] or [str] player
    id the event is built, with the outcome [bool(row.outcome)], no related
    event and no duel type; with any other player id (a float, [None]) the
    call raises the [TypeError] of [player_id]. *)
Theorem dribble_builder_checks_player_id
    (row : series F) (pitch : F * F) (home : pyval F) base player o :
  base_of_row row pitch home = OK base ->
  base_post_init base = OK tt ->
  row_attr row "player_id" = OK player ->
  row_attr row "outcome" = OK o ->
  match player with
  | PInt _ | PBool _ | PStr _ =>
      _get_dribble_event row pitch home
      = OK {| DribbleEvent.base := base;
              DribbleEvent.player_id := player;
              DribbleEvent.related_event_id := PInt MISSING_INT;
              DribbleEvent.duel_type := PNone;
              DribbleEvent.outcome := PBool (py_bool o);
              DribbleEvent.has_opponent := false |}
  | _ =>
      _get_dribble_event row pitch home = Raise (TypeError "player_id should be int")
  end.
Proof.
  intros Hb Hpost Hp Ho. unfold _get_dribble_event, new_DribbleEvent.
  rewrite Hb, Hp, Ho. cbn [bind DribbleEvent.base]. rewrite Hpost. cbn [bind].
  destruct player; reflexivity.
Qed.

Lemma key_find_set_int {A : Type} (z z' : Z) (v : A) (d : list (pyval F * A)) :
  Forall (fun kv => exists y, fst kv = PInt y) d ->
  key_find (PInt z) (key_set (PInt z') v d)
  = if z' =? z then Some v else key_find (PInt z) d.
Proof.
  induction d as [|[k w] d IH]; intros Hd; cbn [key_set key_find py_eq].
  - reflexivity.
  - inversion Hd as [|? ? (y & Hy) Hrest]; subst. cbn [fst] in Hy. subst k.
    cbn [py_eq]. destruct (y =? z') eqn:E1; cbn [key_find py_eq].
    + apply Z.eqb_eq in E1. subst y. destruct (z' =? z); reflexivity.
    + destruct (y =? z) eqn:E2.
      * apply Z.eqb_eq in E2. subst y. rewrite Z.eqb_sym, E1. reflexivity.
      * apply IH. exact Hrest.
Qed.

Lemma key_set_int_keys {A : Type} (z : Z) (v : A) (d : list (pyval F * A)) :
  Forall (fun kv => exists y, fst kv = PInt y) d ->
  Forall (fun kv => exists y, fst kv = PInt y) (key_set (PInt z) v d).
Proof.
  induction d as [|[k w] d IH]; intros Hd; cbn [key_set].
  - constructor; [exists z; reflexivity | constructor].
  - inversion Hd as [|? ? Hk Hrest]; subst.
    destruct (py_eq k (PInt z)); constructor; auto.
Qed.

Lemma key_set_in_keys {A : Type} (z : Z) (v : A) (d : list (pyval F * A)) k :
  In k (map fst (key_set (PInt z) v d)) -> k = PInt z \/ In k (map fst d).
Proof.
  induction d as [|[k' w] d IH]; cbn [key_set map fst In].
  - intros [<-|[]]. left. reflexivity.
  - destruct (py_eq k' (PInt z)); cbn [map fst In]; intros [Hk|Hk]; auto.
    destruct (IH Hk); auto.
Qed.

Lemma key_set_nodup {A : Type} (z : Z) (v : A) (d : list (pyval F * A)) :
  Forall (fun kv => exists y, fst kv = PInt y) d ->
  NoDup (map fst d) -> NoDup (map fst (key_set (PInt z) v d)).
Proof.
  induction d as [|[k w] d IH]; intros Hd Hn; cbn [key_set map fst].
  - constructor; [intros [] | constructor].
  - inversion Hd as [|? ? (y & Hy) Hrest]; subst. cbn [fst] in Hy. subst k.
    inversion Hn as [|? ? Hnot Hn']; subst.
    cbn [py_eq]. destruct (y =? z) eqn:E; cbn [map fst].
    + constructor; assumption.
    + constructor; [|apply IH; assumption].
      intros Hin. apply key_set_in_keys in Hin. destruct Hin as [Hin|Hin].
      * injection Hin as ->. rewrite Z.eqb_refl in E. discriminate.
      * exact (Hnot Hin).
Qed.

Lemma key_set_length {A : Type} (k : pyval F) (v : A) (d : list (pyval F * A)) :
  (List.length (key_set k v d) <= S (List.length d))%nat.
Proof.
  induction d as [|[k' w] d IH]; cbn [key_set List.length]; [lia|].
  destruct (py_eq k' k); cbn [List.length]; lia.
Qed.

Lemma find_snoc {A : Type} (p : A -> bool) (l : list A) (a : A) :
  find p (l ++ [a])
  = match find p l with
    | Some x => Some x
    | None => if p a then Some a else None
    end.
Proof.
  induction l as [|x l IH]; cbn [app find]; [reflexivity|].
  destruct (p x); [reflexivity | exact IH].
Qed.

Lemma by_event_id_loop {A : Type} (id_of : A -> pyval F) (id : A -> Z) (events : list A) :
  (forall e, In e events -> id_of e = PInt (id e)) ->
  forall d0,
    Forall (fun kv => exists y, fst kv = PInt y) d0 ->
    NoDup (map fst d0) ->
    exists d,
      for_each (fun d event =>
                  if hashable (id_of event) then OK (key_set (id_of event) event d)
                  else Raise (TypeError "unhashable type")) d0 events = OK d
      /\ Forall (fun kv => exists y, fst kv = PInt y) d
      /\ NoDup (map fst d)
      /\ (List.length d <= List.length d0 + List.length events)%nat
      /\ forall z, key_find (PInt z) d
                   = match find (fun e => id e =? z) (rev events) with
                     | Some e => Some e
                     | None => key_find (PInt z) d0
                     end.
Proof.
  induction events as [|e events IH]; intros Hid d0 Hd0 Hn0.
  - exists d0. cbn [for_each rev find List.length]. repeat split; try assumption. lia.
  - cbn [for_each]. rewrite (Hid e (or_introl eq_refl)). cbn [hashable bind].
    destruct (IH (fun x Hx => Hid x (or_intror Hx))
                 (key_set (PInt (id e)) e d0)
                 (key_set_int_keys _ _ _ Hd0) (key_set_nodup _ _ _ Hd0 Hn0))
      as (d & Hloop & Hd & Hn & Hlen & Hfind).
    exists d. split; [exact Hloop|]. split; [exact Hd|]. split; [exact Hn|].
    split.
    + pose proof (key_set_length (PInt (id e)) e d0). cbn [List.length]. lia.
    + intros z. rewrite Hfind. cbn [rev]. rewrite find_snoc.
      destruct (find (fun e0 => id e0 =? z) (rev events)); [reflexivity|].
      rewrite (key_find_set_int _ _ _ _ Hd0).
      destruct (id e =? z); reflexivity.
Qed.

(** X17: the dict comprehension keyed by [event_id] keeps one entry per
    id, the last event of each id: of several events with the same integer id
    only the last can be looked up. *)
Theorem by_event_id_keeps_the_last_of_each_id
    {A : Type} (id_of : A -> pyval F) (id : A -> Z) (events : list A) :
  (forall e, In e events -> id_of e = PInt (id e)) ->
  exists d,
    by_event_id id_of events = OK d
    /\ NoDup (map fst d)
    /\ (List.length d <= List.length events)%nat
    /\ forall z, key_find (PInt z) d = find (fun e => id e =? z) (rev events).
Proof.
  intros Hid.
  destruct (by_event_id_loop id_of id events Hid [] (Forall_nil _) (NoDup_nil _))
    as (d & Hloop & _ & Hn & Hlen & Hfind).
  exists d. split; [exact Hloop|]. split; [exact Hn|]. split; [exact Hlen|].
  intros z. rewrite Hfind. destruct (find _ (rev events)); reflexivity.
Qed.

End BuilderEdges.

Section BuilderLabels.
Context {F : Type} `{PyFloat F} `{Imports F} `{EventClasses F}.

Lemma list_index_pair {A : Type} (a b c : A) z :
  list_index [a; b] z = OK c ->
  (c = a /\ (z = 0 \/ z = -2)) \/ (c = b /\ (z = 1 \/ z = -1)).
Proof.
  unfold list_index. cbn [List.length Z.of_nat Pos.of_succ_nat Pos.succ].
  destruct (z <? 0) eqn:Eneg.
  - apply Z.ltb_lt in Eneg.
    destruct ((z + 2 <? 0) || (2 <=? z + 2)) eqn:E; [discriminate|].
    apply orb_false_elim in E. destruct E as [E1 E2].
    apply Z.ltb_ge in E1. apply Z.leb_gt in E2.
    assert (Hz : z = -2 \/ z = -1) by lia.
    destruct Hz as [-> | ->]; cbn; intros E; injection E as <-; auto.
  - apply Z.ltb_ge in Eneg.
    destruct ((z <? 0) || (2 <=? z)) eqn:E; [discriminate|].
    apply orb_false_elim in E. destruct E as [E1 E2].
    apply Z.leb_gt in E2.
    assert (Hz : z = 0 \/ z = 1) by lia.
    destruct Hz as [-> | ->]; cbn; intros E; injection E as <-; auto.
Qed.

(** X18: for an integer outcome the shot that is built is "miss" or
    "goal" and the pass "unsuccessful" or "successful", never
    "not_specified": 0 and -2 give the first label, 1 and -1 the second. *)
Theorem integer_outcomes_give_the_two_labels
    (row : series F) (pitch : F * F) (home : pyval F) z :
  row_attr row "outcome" = OK (PInt z) ->
  (forall e, _get_shot_event row pitch home = OK e ->
             (ShotEvent.shot_outcome e = "miss" /\ (z = 0 \/ z = -2))
             \/ (ShotEvent.shot_outcome e = "goal" /\ (z = 1 \/ z = -1)))
  /\ (forall e, _get_pass_event row pitch home = OK e ->
                (PassEvent.outcome e = "unsuccessful" /\ (z = 0 \/ z = -2))
                \/ (PassEvent.outcome e = "successful" /\ (z = 1 \/ z = -1))).
Proof.
  intros Ho. split.
  - intros e He. unfold _get_shot_event, new_ShotEvent in He.
    destruct (base_of_row row pitch home) as [base|]; [|discriminate He].
    destruct (row_attr row "player_id") as [player|]; [|discriminate He].
    rewrite Ho in He. cbn [bind list_getitem] in He.
    destruct (list_index ["miss"; "goal"] z) as [label|] eqn:El; [|discriminate He].
    cbn [bind] in He. apply bind_OK in He. destruct He as (_ & _ & He).
    injection He as <-. cbn [ShotEvent.shot_outcome].
    exact (list_index_pair _ _ _ _ El).
  - intros e He. unfold _get_pass_event, new_PassEvent in He.
    destruct (base_of_row row pitch home) as [base|]; [|discriminate He].
    destruct (row_attr row "player_id") as [player|]; [|discriminate He].
    rewrite Ho in He. cbn [bind pd_isnull negb list_getitem] in He.
    destruct (list_index ["unsuccessful"; "successful"] z) as [label|] eqn:El;
      [|discriminate He].
    cbn [bind] in He.
    destruct (row_attr row "end_x") as [ex|]; [|discriminate He].
    destruct (row_attr row "end_y") as [ey|]; [|discriminate He].
    cbn [bind] in He. apply bind_OK in He. destruct He as (_ & _ & He).
    injection He as <-. cbn [PassEvent.outcome].
    exact (list_index_pair _ _ _ _ El).
Qed.

End BuilderLabels.

Lemma index_error_witness :
  row_attr Demo.dribble_row "outcome" = OK (PInt (-999))
  /\ _get_shot_event Demo.dribble_row (105%float, 68%float) (PStr "FIFATMA")
     = Raise (IndexError "list index out of range")
  /\ _get_pass_event Demo.dribble_row (105%float, 68%float) (PStr "FIFATMA")
     = Raise (IndexError "list index out of range").
Proof.
  split; [vm_compute; reflexivity|].
  apply (outcome_out_of_range_is_an_index_error
           Demo.dribble_row (105%float, 68%float) (PStr "FIFATMA")
           carry_base (PInt 12) (-999));
    try (vm_compute; reflexivity).
  left. lia.
Defined.

Lemma player_id_check_witness :
  _get_dribble_event Demo.dribble_row (105%float, 68%float) (PStr "FIFATMA")
  = OK carry_event.
Proof.
  exact (dribble_builder_checks_player_id
           Demo.dribble_row (105%float, 68%float) (PStr "FIFATMA")
           carry_base (PInt 12) (PInt (-999)) eq_refl eq_refl eq_refl eq_refl).
Defined.

Lemma last_of_each_id_witness :
  exists d,
    by_event_id (F := float) (fun e => PInt (fst e)) [(1, "a"); (2, "b"); (1, "c")] = OK d
    /\ NoDup (map fst d)
    /\ (List.length d <= 3)%nat
    /\ forall z, key_find (PInt z) d
                 = find (fun e => fst e =? z) (rev [(1, "a"); (2, "b"); (1, "c")]).
Proof.
  apply (by_event_id_keeps_the_last_of_each_id (F := float)
           (fun e : Z * string => PInt (fst e)) fst).
  intros e _. reflexivity.
Defined.

Lemma two_labels_witness :
  row_attr Demo.shot_row "outcome" = OK (PInt 1)
  /\ exists e,
       _get_shot_event Demo.shot_row (105%float, 68%float) (PStr "FIFATMA") = OK e
       /\ ShotEvent.shot_outcome e = "goal".
Proof.
  split; [reflexivity|].
  destruct (_get_shot_event Demo.shot_row (105%float, 68%float) (PStr "FIFATMA"))
    as [e|err] eqn:E; [|vm_compute in E; discriminate E].
  exists e. split; [reflexivity|].
  destruct (proj1 (integer_outcomes_give_the_two_labels
                     Demo.shot_row (105%float, 68%float) (PStr "FIFATMA") 1 eq_refl)
              e E) as [[_ [Hz|Hz]]|[Hl _]]; [discriminate Hz | discriminate Hz | exact Hl].
Defined.

Section EventsOfFrame.
Context {F : Type} `{PyFloat F} `{Imports F} `{TextLibrary F}
        `{EventClasses F} `{Collaborators F}.

Lemma select_nth {A : Type} (mask : list bool) : forall (cells : list A) i c,
  nth_error mask i = Some true -> nth_error cells i = Some c ->
  nth_error (select mask cells) (count_true (firstn i mask)) = Some c.
Proof.
  unfold count_true.
  induction mask as [|m mask IH]; intros cells i c Hm Hc.
  - destruct i; discriminate.
  - destruct cells as [|x cells]; [destruct i; discriminate|].
    destruct i as [|i]; cbn [nth_error] in Hm, Hc.
    + injection Hm as ->. injection Hc as ->. reflexivity.
    + cbn [firstn filter select]. destruct m; cbn [List.length nth_error];
        exact (IH _ _ _ Hm Hc).
Qed.

Lemma select_length {A : Type} (mask : list bool) : forall (cells : list A),
  List.length mask = List.length cells ->
  List.length (select mask cells) = count_true mask.
Proof.
  unfold count_true.
  induction mask as [|m mask IH]; intros cells Hl.
  - reflexivity.
  - destruct cells as [|x cells]; [discriminate|].
    cbn [select filter]. injection Hl as Hl.
    destruct m; cbn [List.length]; rewrite (IH _ Hl); reflexivity.
Qed.

Lemma count_true_firstn (mask : list bool) : forall i,
  nth_error mask i = Some true ->
  (count_true (firstn i mask) < count_true mask)%nat.
Proof.
  unfold count_true.
  induction mask as [|m mask IH]; intros i Hm.
  - destruct i; discriminate.
  - destruct i as [|i]; cbn [nth_error] in Hm.
    + injection Hm as ->. cbn. lia.
    + cbn [firstn filter]. specialize (IH _ Hm).
      destruct m; cbn [List.length]; lia.
Qed.

Lemma rows_upto_nth (event_data : table F) n : forall j,
  (j < n)%nat ->
  nth_error (rows_upto n event_data) j
  = Some (map (fun kc => (fst kc, nth j (snd kc) PNone)) event_data).
Proof.
  induction n as [|n IH]; intros j Hj; [lia|].
  assert (Hlen : List.length (rows_upto n event_data) = n).
  { clear. induction n as [|n IH]; [reflexivity|].
    cbn [rows_upto]. rewrite length_app, IH. cbn. lia. }
  cbn [rows_upto]. destruct (Nat.eq_dec j n) as [->|Hne].
  - rewrite nth_error_app2 by lia. rewrite Hlen, Nat.sub_diag. reflexivity.
  - rewrite nth_error_app1 by lia. apply IH. lia.
Qed.

Lemma dict_find_map_cells {V W : Type} (g : V -> W) k (d : pydict V) :
  dict_find k (map (fun kc => (fst kc, g (snd kc))) d)
  = option_map g (dict_find k d).
Proof.
  induction d as [|[k' v] d IH]; cbn [map dict_find fst snd]; [reflexivity|].
  destruct (String.eqb k k'); [reflexivity | exact IH].
Qed.

Lemma column_length (event_data : table F) n k cells :
  Forall (fun kc => List.length (snd kc) = n) event_data ->
  dict_find k event_data = Some cells -> List.length cells = n.
Proof.
  induction event_data as [|[k' v] d IH]; intros Hall Hf; [discriminate|].
  apply Forall_cons_iff in Hall. destruct Hall as [Hv Hrest].
  cbn [snd] in Hv. cbn [dict_find] in Hf.
  destruct (String.eqb k k'); [injection Hf as <-; exact Hv | exact (IH Hrest Hf)].
Qed.

(** X19: when [apply] calls the builder on each row of a frame that has
    rows, a table with a pass row whose outcome is an integer outside -2..1
    (the sentinel of a pass at the end of the stream) cannot be turned into
    typed events: [_get_databallpy_events] raises. *)
Theorem unresolved_pass_blocks_the_events
    (event_data : table F) (pitch : F * F) (home : pyval F) n i z :
  (forall (A : Type) (f : series F -> result A) (t : table F),
      frame_rows t <> [] -> apply_rows A f t = mapM f (frame_rows t)) ->
  Forall (fun kc => List.length (snd kc) = n) event_data ->
  cell event_data "databallpy_event" i = Some (PStr "pass") ->
  cell event_data "outcome" i = Some (PInt z) ->
  z < -2 \/ 1 < z ->
  exists e, _get_databallpy_events event_data pitch home = Raise e.
Proof.
  intros Happly Hlen Hcat Hout Hz.
  destruct (_get_databallpy_events event_data pitch home) as [r|e] eqn:Hev;
    [exfalso | eauto].
  unfold _get_databallpy_events in Hev.
  apply bind_OK in Hev. destruct Hev as (shots & _ & Hev).
  apply bind_OK in Hev. destruct Hev as (shots' & _ & Hev).
  apply bind_OK in Hev. destruct Hev as (shot_events & _ & Hev).
  apply bind_OK in Hev. destruct Hev as (passes & Hsel & Hev).
  apply bind_OK in Hev. destruct Hev as (passes' & Hrun & _).
  unfold rows_of_category in Hsel.
  apply bind_OK in Hsel. destruct Hsel as (categories & Hcats & Hsel).
  injection Hsel as <-.
  apply dict_get_find in Hcats.
  unfold cell in Hcat, Hout. rewrite Hcats in Hcat.
  destruct (dict_find "outcome" event_data) as [outcomes|] eqn:Houts; [|discriminate].
  set (mask := map (fun c => py_eq c (PStr "pass")) categories) in *.
  assert (Hmask : nth_error mask i = Some true).
  { unfold mask. rewrite nth_error_map, Hcat. reflexivity. }
  assert (Hmlen : List.length mask = n).
  { unfold mask. rewrite length_map. exact (column_length _ _ _ _ Hlen Hcats). }
  set (j := count_true (firstn i mask)).
  set (passes := map (fun kc => (fst kc, select mask (snd kc))) event_data) in *.
  assert (Hheight : (j < frame_height passes)%nat).
  { unfold passes, frame_height.
    destruct event_data as [|[k0 c0] rest]; [discriminate Hcats|].
    cbn [map fst snd]. apply Forall_cons_iff in Hlen. destruct Hlen as [Hc0 _].
    cbn [snd] in Hc0.
    rewrite select_length by (rewrite Hc0; exact Hmlen).
    apply count_true_firstn. exact Hmask. }
  pose proof (rows_upto_nth passes _ j Hheight) as Hrow.
  fold (frame_rows passes) in Hrow.
  rewrite Happly in Hrun by (intros Hnil; rewrite Hnil in Hrow; destruct j; discriminate).
  destruct (mapM_nth _ _ _ _ _ Hrun Hrow) as (e & He & _).
  set (row := map (fun kc => (fst kc, nth j (snd kc) PNone)) passes) in *.
  assert (Ho : row_attr row "outcome" = OK (PInt z)).
  { unfold row_attr, row, passes.
    rewrite (dict_find_map_cells (fun c => nth j c PNone)),
            (dict_find_map_cells (select mask)), Houts.
    cbn [option_map].
    rewrite (nth_error_nth _ _ _ (select_nth mask outcomes i _ Hmask Hout)).
    reflexivity. }
  unfold _get_pass_event in He.
  destruct (base_of_row row pitch home) as [base|]; [|discriminate He].
  destruct (row_attr row "player_id") as [player|]; [|discriminate He].
  rewrite Ho in He. cbn [bind pd_isnull negb list_getitem] in He.
  rewrite (list_index_pair_out_of_range _ _ _ Hz) in He. discriminate He.
Qed.

End EventsOfFrame.

Lemma unresolved_pass_witness :
  cell lone_pass_table "databallpy_event" 0 = Some (PStr "pass")
  /\ cell lone_pass_table "outcome" 0 = Some (PInt (-999))
  /\ exists e,
       _get_databallpy_events lone_pass_table (105%float, 68%float) (PStr "FIFATMA")
       = Raise e.
Proof.
  split; [vm_compute; reflexivity|]. split; [vm_compute; reflexivity|].
  apply (unresolved_pass_blocks_the_events
           lone_pass_table (105%float, 68%float) (PStr "FIFATMA") 1 0 (-999)).
  - intros A f t _. reflexivity.
  - repeat constructor.
  - vm_compute. reflexivity.
  - vm_compute. reflexivity.
  - left. lia.
Defined.

Section EventsOfCategory.
Context {F : Type} `{PyFloat F} `{Imports F} `{TextLibrary F}
        `{EventClasses F} `{Collaborators F}.

Lemma select_mask_holds {A : Type} (p : A -> bool) (cells : list A) :
  Forall (fun c => p c = true) (select (map p cells) cells).
Proof.
  induction cells as [|c cells IH]; cbn [map select]; [constructor|].
  destruct (p c) eqn:E; [constructor; assumption | exact IH].
Qed.

Lemma py_eq_str (c : pyval F) s : py_eq c (PStr s) = true -> c = PStr s.
Proof.
  destruct c; cbn [py_eq]; try discriminate.
  intros E. apply String.eqb_eq in E. congruence.
Qed.

Lemma rows_upto_in (event_data : table F) n row :
  In row (rows_upto n event_data) ->
  exists j, (j < n)%nat
            /\ row = map (fun kc => (fst kc, nth j (snd kc) PNone)) event_data.
Proof.
  induction n as [|n IH]; cbn [rows_upto]; [intros []|].
  intros Hin. apply in_app_or in Hin. destruct Hin as [Hin|[<-|[]]].
  - destruct (IH Hin) as (j & Hj & ->). exists j. split; [lia | reflexivity].
  - exists n. split; [lia | reflexivity].
Qed.

(** The rows of a selection are rows of the category. *)
Lemma selected_rows_category (event_data selected : table F) name n row :
  Forall (fun kc => List.length (snd kc) = n) event_data ->
  rows_of_category name event_data = OK selected ->
  In row (frame_rows selected) ->
  row_attr row "databallpy_event" = OK (PStr name).
Proof.
  intros Hlen Hsel Hin. unfold rows_of_category in Hsel.
  apply bind_OK in Hsel. destruct Hsel as (categories & Hcats & Hsel).
  injection Hsel as <-. apply dict_get_find in Hcats.
  set (mask := map (fun c => py_eq c (PStr name)) categories) in *.
  assert (Hmlen : List.length mask = n).
  { unfold mask. rewrite length_map. exact (column_length _ _ _ _ Hlen Hcats). }
  unfold frame_rows in Hin. apply rows_upto_in in Hin. destruct Hin as (j & Hj & ->).
  assert (Hj' : (j < List.length (select mask categories))%nat).
  { destruct event_data as [|[k0 c0] rest]; [discriminate Hcats|].
    cbn [map fst snd frame_height] in Hj.
    apply Forall_cons_iff in Hlen. destruct Hlen as [Hc0 Hrest]. cbn [snd] in Hc0.
    rewrite select_length in Hj by (rewrite Hc0; exact Hmlen).
    rewrite select_length by (unfold mask; rewrite length_map; reflexivity).
    exact Hj. }
  unfold row_attr.
  rewrite (dict_find_map_cells (fun c => nth j c PNone)),
          (dict_find_map_cells (select mask)), Hcats.
  cbn [option_map]. f_equal.
  apply py_eq_str.
  pose proof (select_mask_holds (fun c => py_eq c (PStr name)) categories) as Hall.
  fold mask in Hall. rewrite Forall_forall in Hall.
  apply Hall. apply nth_In. exact Hj'.
Qed.

Lemma key_set_in {A : Type} (k : pyval F) (v : A) (d : list (pyval F * A)) k' v' :
  In (k', v') (key_set k v d) ->
  In (k', v') d \/ (v' = v /\ (k' = k \/ py_eq k' k = true)).
Proof.
  induction d as [|[k0 v0] d IH]; cbn [key_set In].
  - intros [E|[]]. injection E as <- <-. right. auto.
  - destruct (py_eq k0 k) eqn:Ek; cbn [In]; intros [E|Hin].
    + injection E as <- <-. right. auto.
    + left. right. exact Hin.
    + left. left. exact E.
    + destruct (IH Hin) as [Hd|Hnew]; [left; right; exact Hd | right; exact Hnew].
Qed.

Lemma by_event_id_in {A : Type} (id_of : A -> pyval F) (events : list A) :
  forall d0 d k e,
    for_each (fun d event =>
                if hashable (id_of event) then OK (key_set (id_of event) event d)
                else Raise (TypeError "unhashable type")) d0 events = OK d ->
    In (k, e) d ->
    In (k, e) d0
    \/ (In e events /\ (k = id_of e \/ py_eq k (id_of e) = true)).
Proof.
  induction events as [|x events IH]; intros d0 d k e Hloop Hin.
  - injection Hloop as <-. left. exact Hin.
  - cbn [for_each] in Hloop. destruct (hashable (id_of x)); [|discriminate Hloop].
    cbn [bind] in Hloop.
    destruct (IH _ _ _ _ Hloop Hin) as [Hd|(He & Hk)].
    + apply key_set_in in Hd. destruct Hd as [Hd|(-> & Hk)]; [left; exact Hd|].
      right. split; [left; reflexivity | exact Hk].
    + right. split; [right; exact He | exact Hk].
Qed.

Lemma mapM_in {A B : Type} (f : A -> result B) (l : list A) :
  forall l' b, mapM f l = OK l' -> In b l' -> exists a, In a l /\ f a = OK b.
Proof.
  induction l as [|x l IH]; intros l' b Hm Hin.
  - injection Hm as <-. destruct Hin.
  - cbn [mapM] in Hm. apply bind_OK in Hm. destruct Hm as (y & Hy & Hm).
    apply bind_OK in Hm. destruct Hm as (ys & Hys & Hm). injection Hm as <-.
    destruct Hin as [<-|Hin].
    + exists x. split; [left; reflexivity | exact Hy].
    + destruct (IH _ _ Hys Hin) as (a & Ha & Hfa). exists a. split; [right|]; assumption.
Qed.

(** The events of one category: built from the rows of its selection. *)
Lemma events_of_selection {A : Type} (build : series F -> result A)
    (id_of : A -> pyval F) (event_data selected : table F) name n built d :
  (forall (A : Type) (f : series F -> result A) (t : table F),
      frame_rows t <> [] -> apply_rows A f t = mapM f (frame_rows t)) ->
  Forall (fun kc => List.length (snd kc) = n) event_data ->
  rows_of_category name event_data = OK selected ->
  frame_rows selected <> [] ->
  apply_rows A build selected = OK built ->
  by_event_id id_of built = OK d ->
  forall k e, In (k, e) d ->
    exists row,
      In row (frame_rows selected)
      /\ row_attr row "databallpy_event" = OK (PStr name)
      /\ build row = OK e
      /\ (k = id_of e \/ py_eq k (id_of e) = true).
Proof.
  intros Happly Hlen Hsel Hrows Hrun Hdict k e Hin.
  rewrite (Happly _ _ _ Hrows) in Hrun.
  destruct (by_event_id_in _ _ _ _ _ _ Hdict Hin) as [[]|(He & Hk)].
  destruct (mapM_in _ _ _ _ Hrun He) as (row & Hrow & Hbuild).
  exists row. split; [exact Hrow|].
  split; [exact (selected_rows_category _ _ _ _ _ Hlen Hsel Hrow)|].
  split; assumption.
Qed.

(** X20: when [apply] calls the builder on each row of a frame that has
    rows, every typed event of the three dicts was built from a row of the
    selection of its own category (a row whose [databallpy_event] is "shot",
    "pass" or "dribble"), and its key is (equal to) its event id. *)
Theorem typed_events_come_from_their_rows
    (event_data : table F) (pitch : F * F) (home : pyval F) n events :
  (forall (A : Type) (f : series F -> result A) (t : table F),
      frame_rows t <> [] -> apply_rows A f t = mapM f (frame_rows t)) ->
  Forall (fun kc => List.length (snd kc) = n) event_data ->
  _get_databallpy_events event_data pitch home = OK events ->
  (forall shots k e,
      rows_of_category "shot" event_data = OK shots -> frame_rows shots <> [] ->
      In (k, e) (shot_events events) ->
      exists row,
        In row (frame_rows shots)
        /\ row_attr row "databallpy_event" = OK (PStr "shot")
        /\ _get_shot_event row pitch home = OK e
        /\ (k = event_id (ShotEvent.base e)
            \/ py_eq k (event_id (ShotEvent.base e)) = true))
  /\ (forall passes k e,
         rows_of_category "pass" event_data = OK passes -> frame_rows passes <> [] ->
         In (k, e) (pass_events events) ->
         exists row,
           In row (frame_rows passes)
           /\ row_attr row "databallpy_event" = OK (PStr "pass")
           /\ _get_pass_event row pitch home = OK e
           /\ (k = event_id (PassEvent.base e)
               \/ py_eq k (event_id (PassEvent.base e)) = true))
  /\ (forall dribbles k e,
         rows_of_category "dribble" event_data = OK dribbles ->
         frame_rows dribbles <> [] ->
         In (k, e) (dribble_events events) ->
         exists row,
           In row (frame_rows dribbles)
           /\ row_attr row "databallpy_event" = OK (PStr "dribble")
           /\ _get_dribble_event row pitch home = OK e
           /\ (k = event_id (DribbleEvent.base e)
               \/ py_eq k (event_id (DribbleEvent.base e)) = true)).
Proof.
  intros Happly Hlen Hev. unfold _get_databallpy_events in Hev.
  apply bind_OK in Hev. destruct Hev as (shots & Hs1 & Hev).
  apply bind_OK in Hev. destruct Hev as (shots' & Hs2 & Hev).
  apply bind_OK in Hev. destruct Hev as (shot_d & Hs3 & Hev).
  apply bind_OK in Hev. destruct Hev as (passes & Hp1 & Hev).
  apply bind_OK in Hev. destruct Hev as (passes' & Hp2 & Hev).
  apply bind_OK in Hev. destruct Hev as (pass_d & Hp3 & Hev).
  apply bind_OK in Hev. destruct Hev as (dribbles & Hd1 & Hev).
  apply bind_OK in Hev. destruct Hev as (dribbles' & Hd2 & Hev).
  apply bind_OK in Hev. destruct Hev as (dribble_d & Hd3 & Hev).
  injection Hev as <-. cbn [shot_events pass_events dribble_events].
  split; [|split].
  - intros sel k e Hsel Hrows Hin. rewrite Hs1 in Hsel. injection Hsel as <-.
    exact (events_of_selection _ _ _ _ _ _ _ _ Happly Hlen Hs1 Hrows Hs2 Hs3 k e Hin).
  - intros sel k e Hsel Hrows Hin. rewrite Hp1 in Hsel. injection Hsel as <-.
    exact (events_of_selection _ _ _ _ _ _ _ _ Happly Hlen Hp1 Hrows Hp2 Hp3 k e Hin).
  - intros sel k e Hsel Hrows Hin. rewrite Hd1 in Hsel. injection Hsel as <-.
    exact (events_of_selection _ _ _ _ _ _ _ _ Happly Hlen Hd1 Hrows Hd2 Hd3 k e Hin).
Qed.

End EventsOfCategory.

Lemma typed_events_witness :
  _get_databallpy_events (fst (fst Demo.loaded)) (105%float, 68%float) (PStr "FIFATMA")
  = OK (snd Demo.loaded)
  /\ exists passes k e row,
       rows_of_category "pass" (fst (fst Demo.loaded)) = OK passes
       /\ pass_events (snd Demo.loaded) = [(k, e)]
       /\ In row (frame_rows passes)
       /\ row_attr row "databallpy_event" = OK (PStr "pass")
       /\ _get_pass_event row (105%float, 68%float) (PStr "FIFATMA") = OK e.
Proof.
  split; [vm_compute; reflexivity|].
  destruct (rows_of_category "pass" (fst (fst Demo.loaded))) as [passes|err] eqn:Hsel;
    [|vm_compute in Hsel; discriminate Hsel].
  destruct (pass_events (snd Demo.loaded)) as [|[k e] rest] eqn:Hev;
    [vm_compute in Hev; discriminate Hev|].
  destruct rest; [|vm_compute in Hev; discriminate Hev].
  destruct (typed_events_come_from_their_rows
              (fst (fst Demo.loaded)) (105%float, 68%float) (PStr "FIFATMA") 4
              (snd Demo.loaded)) as (_ & W & _).
  - intros A f t _. reflexivity.
  - repeat constructor.
  - vm_compute. reflexivity.
  - destruct (W passes k e Hsel) as (row & W1 & W2 & W3 & _).
    + vm_compute in Hsel. injection Hsel as <-. vm_compute. discriminate.
    + rewrite Hev. left. reflexivity.
    + exists passes, k, e, row. repeat split; assumption.
Defined.

(** ** [DribbleEvent]: equality and copies *)

Section DribbleEquality.

Context {F : Type} `{PyFloat F} `{Imports F} `{EventClasses F} `{BaseMethods F}.

Lemma checked_fields_are_plain (e : DribbleEvent.t F) :
  DribbleEvent._check_datatypes e = OK tt ->
  plain (DribbleEvent.player_id e) /\ plain (DribbleEvent.related_event_id e)
  /\ plain (DribbleEvent.duel_type e) /\ plain (DribbleEvent.outcome e)
  /\ (forall f, DribbleEvent.duel_type e <> PFloat f).
Proof.
  unfold DribbleEvent._check_datatypes.
  destruct (DribbleEvent.player_id e); try discriminate;
    destruct (DribbleEvent.related_event_id e); try discriminate;
    destruct (DribbleEvent.duel_type e); try discriminate;
    destruct (DribbleEvent.outcome e); try discriminate;
    intros _; cbn; repeat split; discriminate.
Qed.

Ltac eqb_props :=
  repeat match goal with
         | E : (_ =? _) = true |- _ => apply Z.eqb_eq in E
         | E : String.eqb _ _ = true |- _ => apply String.eqb_eq in E
         | E : Bool.eqb _ _ = true |- _ => apply eqb_prop in E
         | |- (_ =? _) = true => apply Z.eqb_eq
         | |- String.eqb _ _ = true => apply String.eqb_eq
         | |- Bool.eqb _ _ = true => apply eqb_true_iff
         end.

Lemma py_eq_plain_refl (v : pyval F) : plain v -> py_eq v v = true.
Proof.
  destruct v; cbn; try contradiction; intros _;
    auto using Z.eqb_refl, String.eqb_refl, eqb_reflx.
Qed.

Lemma py_eq_plain_sym (v w : pyval F) : plain v -> plain w -> py_eq v w = py_eq w v.
Proof.
  destruct v, w; cbn; try contradiction; intros _ _;
    auto using Z.eqb_sym, String.eqb_sym.
  destruct b, b0; reflexivity.
Qed.

Lemma py_eq_plain_trans (u v w : pyval F) :
  plain u -> plain v -> plain w ->
  py_eq u v = true -> py_eq v w = true -> py_eq u w = true.
Proof.
  destruct u, v, w; cbn [py_eq plain]; try contradiction; intros _ _ _ E1 E2;
    try discriminate; try reflexivity;
    repeat match goal with x : bool |- _ => destruct x end;
    cbv [Z_of_bool Bool.eqb] in *; try discriminate; try reflexivity;
    eqb_props; try discriminate; try reflexivity; try lia; congruence.
Qed.

Lemma same_duel_type_refl (a : pyval F) :
  plain a -> same_duel_type a a = true.
Proof. destruct a; cbn; try contradiction; intros _; auto using String.eqb_refl, Z.eqb_refl, eqb_reflx. Qed.

Lemma same_duel_type_sym (a b : pyval F) :
  plain a -> plain b -> same_duel_type a b = same_duel_type b a.
Proof.
  destruct a, b; cbn; try contradiction; intros _ _;
    auto using Z.eqb_sym, String.eqb_sym.
  destruct b, b0; reflexivity.
Qed.

Lemma same_duel_type_trans (a b c : pyval F) :
  plain a -> plain b -> plain c ->
  same_duel_type a b = true -> same_duel_type b c = true -> same_duel_type a c = true.
Proof.
  destruct a, b, c; cbn [same_duel_type pd_isnull negb py_eq plain];
    try contradiction; intros _ _ _ E1 E2;
    try discriminate; try reflexivity;
    repeat match goal with x : bool |- _ => destruct x end;
    cbv [Z_of_bool Bool.eqb] in *; try discriminate; try reflexivity;
    eqb_props; try discriminate; try reflexivity; try lia; congruence.
Qed.

Lemma dribble_eq_true (a b : DribbleEvent.t F) :
  DribbleMethods.__eq__ a (ADribbleEvent b) = true <->
  super_eq a b = true
  /\ py_eq (DribbleEvent.player_id a) (DribbleEvent.player_id b) = true
  /\ py_eq (DribbleEvent.related_event_id a) (DribbleEvent.related_event_id b) = true
  /\ same_duel_type (DribbleEvent.duel_type a) (DribbleEvent.duel_type b) = true
  /\ py_eq (DribbleEvent.outcome a) (DribbleEvent.outcome b) = true
  /\ DribbleEvent.has_opponent a = DribbleEvent.has_opponent b.
Proof.
  unfold DribbleMethods.__eq__, same_duel_type. cbn [forallb].
  rewrite !andb_true_iff, eqb_true_iff. tauto.
Qed.



End DribbleEquality.


